(** * CARET_analyze: architecture reconstruction, shallow embedding

    The Python sources under [caret_analyze/architecture] and
    [caret_analyze/value_objects] are embedded as Rocq functions.
    - Python [str] is [string]; [Optional[T]] is [option T];
      lists and tuples are [list]; Python [set] is stdpp's [gset];
      an insertion-ordered [dict] is an association list.
    - A function that may raise returns [result]; a function that mutates
      [self] returns the new state next to its result.
    - Iteration over a Python [set] has no specified order; the model
      iterates in the order of [elements]. *)

From Stdlib Require Import String Ascii List ZArith Lia Bool.
From stdpp Require Import base decidable option list strings gmap sets.

Import ListNotations.
Set Warnings "-register-all,-clear-no-such-hyp".
Open Scope string_scope.
Open Scope list_scope.

(** ** Exceptions (caret_analyze/exceptions.py and Python built-ins) *)

Inductive PyError : Type :=
  | ItemNotFoundError
  | MultipleItemFoundError
  | InvalidReaderError (msg : string)
  | AssertionError
  | AttributeError (attribute : string)
  | UnboundLocalError (variable : string).

(** The exceptions deriving from the repository's [Error] class. *)
Definition is_caret_error (e : PyError) : bool :=
  match e with
  | ItemNotFoundError | MultipleItemFoundError | InvalidReaderError _ => true
  | AssertionError | AttributeError _ | UnboundLocalError _ => false
  end.

Inductive result (A : Type) : Type :=
  | Ok (a : A)
  | Raise (e : PyError).

Arguments Ok {A} a.
Arguments Raise {A} e.

Definition rbind {A B : Type} (r : result A) (k : A -> result B) : result B :=
  match r with
  | Ok a => k a
  | Raise e => Raise e
  end.

#[global] Instance result_ret : MRet result := fun A a => Ok a.
#[global] Instance result_bind : MBind result := fun A B k r => rbind r k.

Fixpoint rmap_list {A B : Type} (f : A -> result B) (l : list A) : result (list B) :=
  match l with
  | [] => Ok []
  | x :: l' =>
      y ← f x;
      ys ← rmap_list f l';
      Ok (y :: ys)
  end.

Definition is_ok {A : Type} (r : result A) : bool :=
  match r with Ok _ => true | Raise _ => false end.

(** ** caret_analyze/common/util.py *)

Module Util.

(** Modelled from the spec: [Util.filter_items] lives in
    caret_analyze/common/util.py, which is not part of the available
    sources.  It keeps, in order, the items satisfying the predicate and
    returns a fresh list. *)
Definition filter_items {A : Type} (f : A -> bool) (x : list A) : list A :=
  List.filter f x.

(** Modelled from the spec: [Util.find_one] lives in
    caret_analyze/common/util.py.  Section 7 of the specification: a
    lookup that finds nothing is [NotFound], a lookup that matches more
    than one candidate where exactly one was required is
    [MultipleFound]. *)
Definition find_one {A : Type} (condition : A -> bool) (items : list A) : result A :=
  match List.filter condition items with
  | [] => Raise ItemNotFoundError
  | [x] => Ok x
  | _ :: _ :: _ => Raise MultipleItemFoundError
  end.

(** Modelled from the spec: [Util.flatten] concatenates a list of lists. *)
Definition flatten {A : Type} (x : list (list A)) : list A := concat x.

End Util.

(** [itertools.groupby]: maximal runs of consecutive items with equal key. *)
Fixpoint groupby {A K : Type} `{EqDecision K} (key : A -> K) (l : list A)
  : list (K * list A) :=
  match l with
  | [] => []
  | x :: l' =>
      match groupby key l' with
      | (k, g) :: rest =>
          if decide (key x = k) then (k, x :: g) :: rest
          else (key x, [x]) :: (k, g) :: rest
      | [] => [(key x, [x])]
      end
  end.

(** [itertools.product] of two sequences, first index outermost. *)
Definition product {A B : Type} (xs : list A) (ys : list B) : list (A * B) :=
  flat_map (fun x => map (fun y => (x, y)) ys) xs.

(** [str.endswith]. *)
Definition endswith (s suffix : string) : bool :=
  let n := String.length s in
  let m := String.length suffix in
  (m <=? n)%nat && String.eqb (substring (n - m) m s) suffix.

(** ** caret_analyze/value_objects/transform.py *)

Record TransformValue : Type := mkTransformValue {
  frame_id : string;
  child_frame_id : string;
}.

#[global] Instance TransformValue_eq_dec : EqDecision TransformValue.
Proof. solve_decision. Defined.

#[global] Instance TransformValue_countable : Countable TransformValue.
Proof.
  apply (inj_countable' (fun t => (frame_id t, child_frame_id t))
                        (fun p => mkTransformValue (fst p) (snd p))).
  intros [f c]; reflexivity.
Defined.

Inductive TransformTreeValue : Type :=
  | TransformTree (root_tf : TransformValue) (childs : list TransformTreeValue).

Module TransformTreeValue.

Definition transform (t : TransformTreeValue) : TransformValue :=
  match t with TransformTree tf _ => tf end.

Definition childs (t : TransformTreeValue) : list TransformTreeValue :=
  match t with TransformTree _ cs => cs end.

(** [_get_edge_tfs]: the transforms whose [frame_id] is no transform's
    [child_frame_id]. *)
Definition is_edge (transforms : list TransformValue) (tf_target : TransformValue) : bool :=
  negb (existsb (fun tf => String.eqb (frame_id tf_target) (child_frame_id tf)) transforms).

Definition _get_edge_tfs (transforms : list TransformValue) : list TransformValue :=
  Util.filter_items (is_edge transforms) transforms.

(** One pass of the [for key, group in groupby(...)] loop. *)
Definition group_parents (transforms : list TransformValue)
    (edge_trees : list TransformTreeValue) : result (list TransformTreeValue) :=
  rmap_list
    (fun kg : string * list TransformTreeValue =>
       parent_tf ← Util.find_one (fun x => String.eqb (frame_id x) (fst kg)) transforms;
       Ok (TransformTree parent_tf (snd kg)))
    (groupby (fun x => child_frame_id (transform x)) edge_trees).

(** [create_from_transforms]: the body of [while(True)], iterated at most
    [fuel] times; [None] when the fuel runs out before a [return] or a
    [raise]. *)
Fixpoint create_loop (fuel : nat) (transforms : list TransformValue)
    (edge_trees : option (list TransformTreeValue)) (tfs : gset TransformValue)
  : option (result TransformTreeValue) :=
  match fuel with
  | O => None
  | S fuel' =>
      let edge_tfs : gset TransformValue := list_to_set (_get_edge_tfs (elements tfs)) in
      let tfs' := tfs ∖ edge_tfs in
      let returns :=
        match edge_trees with
        | Some ts => if decide (size tfs' = 0%nat) then Some ts else None
        | None => None
        end in
      match returns with
      | Some ts =>
          match ts with
          | [t] => Some (Ok t)
          | _ => Some (Raise AssertionError)
          end
      | None =>
          let edge_trees1 :=
            match edge_trees with
            | Some ts => ts
            | None => map (fun edge_tf => TransformTree edge_tf []) (elements edge_tfs)
            end in
          match group_parents transforms edge_trees1 with
          | Raise e => Some (Raise e)
          | Ok parent_trees => create_loop fuel' transforms (Some parent_trees) tfs'
          end
      end
  end.

Definition create_from_transforms (fuel : nat) (transforms : list TransformValue)
  : option (result TransformTreeValue) :=
  create_loop fuel transforms None (list_to_set transforms).

(** [_to_root]: the nested [find_coord_local] writes into the enclosing
    set [s]; the set is threaded through the recursion. *)
Fixpoint find_coord_local (target_tf : string) (tree : TransformTreeValue)
    (s : gset TransformValue) : bool * gset TransformValue :=
  match tree with
  | TransformTree root cs =>
      if String.eqb (frame_id root) target_tf then (true, {[ root ]} ∪ s)
      else
        (fix children (cs : list TransformTreeValue) (s : gset TransformValue)
           : bool * gset TransformValue :=
           match cs with
           | [] => (false, s)
           | child :: cs' =>
               let '(found, s') := find_coord_local target_tf child s in
               if found then (true, {[ root ]} ∪ s') else children cs' s'
           end) cs s
  end.

Definition _to_root (self : TransformTreeValue) (target_tf : string) : gset TransformValue :=
  snd (find_coord_local target_tf self ∅).

(** Python's [^] on sets. *)
Definition set_xor (a b : gset TransformValue) : gset TransformValue :=
  (a ∖ b) ∪ (b ∖ a).

Definition is_in (self : TransformTreeValue)
    (lookup_transform target_transform : TransformValue) : bool :=
  let lookup_frame_ids := _to_root self (frame_id lookup_transform) in
  let lookup_child_frme_ids := _to_root self (child_frame_id lookup_transform) in
  let frames := set_xor lookup_frame_ids lookup_child_frme_ids in
  bool_decide ({[ target_transform ]} ⊆ frames).

End TransformTreeValue.

(** The chain root -> A -> B -> C of section 8. *)
Definition tf_root_A : TransformValue := mkTransformValue "root" "A".
Definition tf_A_B : TransformValue := mkTransformValue "A" "B".
Definition tf_B_C : TransformValue := mkTransformValue "B" "C".
Definition tf_root_B : TransformValue := mkTransformValue "root" "B".

Definition chain_transforms : list TransformValue := [tf_root_A; tf_A_B; tf_B_C].

Definition chain_tree : TransformTreeValue :=
  TransformTree tf_B_C [TransformTree tf_A_B [TransformTree tf_root_A []]].

(** *** The root-ancestor set, as the specification words it

    Section 4.3: "the set of ancestor transforms up to the root" of a frame.
    [root_path] is the list of transforms from the root of the tree down to
    the first tree node (depth first, children in order) whose transform has
    the frame as [frame_id]; [root_ancestor_set] is its set. *)

Fixpoint root_path (target_tf : string) (tree : TransformTreeValue)
  : option (list TransformValue) :=
  match tree with
  | TransformTree root cs =>
      if String.eqb (frame_id root) target_tf then Some [root]
      else
        (fix children (cs : list TransformTreeValue) : option (list TransformValue) :=
           match cs with
           | [] => None
           | child :: cs' =>
               match root_path target_tf child with
               | Some p => Some (root :: p)
               | None => children cs'
               end
           end) cs
  end.

Definition root_ancestor_set (tree : TransformTreeValue) (frame : string)
  : gset TransformValue :=
  list_to_set (default [] (root_path frame tree)).

Section TransformTreeInduction.

Variable P : TransformTreeValue -> Prop.
Hypothesis P_tree : forall root cs, Forall P cs -> P (TransformTree root cs).

Fixpoint TransformTreeValue_nested_ind (t : TransformTreeValue) : P t :=
  match t with
  | TransformTree root cs =>
      P_tree root cs
        ((fix all (l : list TransformTreeValue) : Forall P l :=
            match l with
            | [] => @List.Forall_nil _ P
            | c :: l' => @List.Forall_cons _ P c l' (TransformTreeValue_nested_ind c) (all l')
            end) cs)
  end.

End TransformTreeInduction.

(** [find_coord_local] adds exactly the transforms of [root_path] to the
    set it is given, and adds nothing when the frame is absent. *)
Lemma find_coord_local_root_path (target_tf : string) (tree : TransformTreeValue) :
  forall s : gset TransformValue,
    TransformTreeValue.find_coord_local target_tf tree s =
    match root_path target_tf tree with
    | Some p => (true, list_to_set p ∪ s)
    | None => (false, s)
    end.
Proof.
  induction tree as [root cs IH] using TransformTreeValue_nested_ind.
  intros s. simpl.
  destruct (String.eqb (frame_id root) target_tf).
  - f_equal. set_solver.
  - revert s. induction IH as [| c cs' Hc _ IHcs]; intros s.
    + reflexivity.
    + rewrite Hc. destruct (root_path target_tf c) as [p |].
      * f_equal. set_solver.
      * apply IHcs.
Qed.

Lemma to_root_root_ancestor_set (tree : TransformTreeValue) (frame : string) :
  TransformTreeValue._to_root tree frame = root_ancestor_set tree frame.
Proof.
  unfold TransformTreeValue._to_root, root_ancestor_set.
  rewrite find_coord_local_root_path.
  destruct (root_path frame tree); simpl; set_solver.
Qed.

(** C3: [is_in lookup target] holds exactly when [target] lies in the
    symmetric difference of the root-ancestor sets of the lookup's
    [frame_id] and [child_frame_id]; for the tree built from the chain
    root -> A -> B -> C, the lookup root -> B contains A -> B and does not
    contain B -> C. *)
Theorem is_in_symmetric_difference :
  (forall (tree : TransformTreeValue) (lookup target : TransformValue),
      TransformTreeValue.is_in tree lookup target = true <->
      (target ∈ root_ancestor_set tree (frame_id lookup)
         /\ target ∉ root_ancestor_set tree (child_frame_id lookup))
      \/ (target ∈ root_ancestor_set tree (child_frame_id lookup)
         /\ target ∉ root_ancestor_set tree (frame_id lookup)))
  /\ TransformTreeValue.create_from_transforms 3 chain_transforms = Some (Ok chain_tree)
  /\ TransformTreeValue.is_in chain_tree tf_root_B tf_A_B = true
  /\ TransformTreeValue.is_in chain_tree tf_root_B tf_B_C = false.
Proof.
  split; [| split; [| split]].
  - intros tree lookup target.
    unfold TransformTreeValue.is_in, TransformTreeValue.set_xor.
    rewrite !to_root_root_ancestor_set, bool_decide_eq_true.
    set_solver.
  - vm_compute; reflexivity.
  - vm_compute; reflexivity.
  - vm_compute; reflexivity.
Qed.

(** ** Parts of the repository outside the available sources

    [TimersStruct] (struct/timer.py), [CallbackGroupsStruct]
    (struct/callback_group.py) and [MessageContext]
    (value_objects/message_context.py) are used by the node structs but
    their files are not available.  They are taken as parameters: a type
    for each, and for the two structs the [to_value] conversion, which may
    raise and may update the struct. *)

Class External : Type := {
  TimersStruct : Type;
  TimersStructValue : Type;
  TimersStruct_to_value : TimersStruct -> result TimersStructValue * TimersStruct;
  CallbackGroupsStruct : Type;
  CallbackGroupsStructValue : Type;
  CallbackGroupsStruct_to_value :
    CallbackGroupsStruct -> result CallbackGroupsStructValue * CallbackGroupsStruct;
  MessageContext : Type;
}.

(** ** Entity structs (caret_analyze/architecture/struct)

    An attribute that the constructor declares [Optional] and whose
    accessor asserts [is not None] is held as a plain field: a record is
    an object on which those accessors return.  Attributes that the code
    tests against [None] stay [option]. *)

(** *** struct/callback.py *)

Inductive CallbackStructValue : Type :=
  | TimerCallbackStructValue (node_name symbol : string) (period_ns : Z)
      (publish_topic_names : option (list string)) (callback_name callback_id : string)
  | SubscriptionCallbackStructValue (node_name symbol subscribe_topic_name : string)
      (publish_topic_names : option (list string)) (callback_name callback_id : string).

Module CallbackStruct.

Inductive trigger : Type :=
  | Timer (period_ns : Z)
  | Subscription (subscribe_topic_name : string).

Record t : Type := mk {
  callback_name : string;
  callback_id : string;
  node_name : string;
  symbol : string;
  publish_topic_names : option (list string);
  kind : trigger;
}.

Definition subscribe_topic_name (self : t) : option string :=
  match kind self with
  | Timer _ => None
  | Subscription topic => Some topic
  end.

Definition to_value (self : t) : CallbackStructValue :=
  match kind self with
  | Timer period_ns =>
      TimerCallbackStructValue (node_name self) (symbol self) period_ns
        (publish_topic_names self) (callback_name self) (callback_id self)
  | Subscription topic =>
      SubscriptionCallbackStructValue (node_name self) (symbol self) topic
        (publish_topic_names self) (callback_name self) (callback_id self)
  end.

End CallbackStruct.

Module CallbacksStruct.

(** [_cb_dict]: a dict from callback id to callback, in insertion order. *)
Definition t : Type := list (string * CallbackStruct.t).

Definition empty : t := [].

(** [self._cb_dict[callback.callback_id] = callback]: an existing key
    keeps its position and takes the new value. *)
Fixpoint dict_set (d : t) (k : string) (v : CallbackStruct.t) : t :=
  match d with
  | [] => [(k, v)]
  | (k', v') :: d' =>
      if String.eqb k' k then (k', v) :: d' else (k', v') :: dict_set d' k v
  end.

Definition insert (self : t) (callback : CallbackStruct.t) : t :=
  dict_set self (CallbackStruct.callback_id callback) callback.

Fixpoint dict_get (d : t) (k : string) : option CallbackStruct.t :=
  match d with
  | [] => None
  | (k', v) :: d' => if String.eqb k' k then Some v else dict_get d' k
  end.

Definition get_callback (self : t) (callback_id : string) : result CallbackStruct.t :=
  match dict_get self callback_id with
  | Some cb => Ok cb
  | None => Raise ItemNotFoundError
  end.

Definition get_callbacks (self : t) (callback_ids : list string) : t :=
  fold_left
    (fun callbacks callback_id =>
       match dict_get self callback_id with
       | None => callbacks
       | Some callback => insert callbacks callback
       end)
    callback_ids empty.

Definition values (self : t) : list CallbackStruct.t := map snd self.

Definition to_value (self : t) : list CallbackStructValue :=
  map CallbackStruct.to_value (values self).

End CallbacksStruct.

(** *** Reader records used by the structs (value_objects/) *)

Module NodeValue.
Record t : Type := mk { node_name : string; node_id : string }.
End NodeValue.

Module PublisherValue.
Record t : Type := mk {
  node_name : string;
  topic_name : string;
  callback_ids : option (list string);
}.
End PublisherValue.

Module SubscriptionValue.
Record t : Type := mk {
  node_name : string;
  topic_name : string;
  callback_id : option string;
}.
End SubscriptionValue.

(** *** struct/publisher.py *)

Module PublisherStructValue.
Record t : Type := mk {
  node_name : string;
  topic_name : string;
  callback_values : option (list CallbackStructValue);
}.
End PublisherStructValue.

Module PublisherStruct.

Record t : Type := mk {
  node_name : string;
  topic_name : string;
  callbacks : option CallbacksStruct.t;
}.

(** [callbacks.setter]: no check of any kind. *)
Definition set_callbacks (self : t) (callbacks : CallbacksStruct.t) : result t :=
  Ok (mk (node_name self) (topic_name self) (Some callbacks)).

Definition to_value (self : t) : PublisherStructValue.t * t :=
  let callback_values := option_map CallbacksStruct.to_value (callbacks self) in
  (PublisherStructValue.mk (node_name self) (topic_name self) callback_values, self).

End PublisherStruct.

Module PublishersStruct.

Definition t : Type := list PublisherStruct.t.

Definition insert (self : t) (publisher : PublisherStruct.t) : t := self ++ [publisher].

Definition as_list (self : t) : list PublisherStruct.t := self.

(** [create_from_reader]; [publisher_values] is
    [reader.get_publishers(node.node_name)]. *)
Definition create_from_reader (publisher_values : list PublisherValue.t)
    (callbacks : CallbacksStruct.t) : t :=
  fold_left
    (fun publishers publisher_value =>
       if String.eqb (PublisherValue.topic_name publisher_value) "/tf" then publishers
       else
         let pub_callbacks :=
           option_map (CallbacksStruct.get_callbacks callbacks)
                      (PublisherValue.callback_ids publisher_value) in
         insert publishers
           (PublisherStruct.mk (PublisherValue.node_name publisher_value)
              (PublisherValue.topic_name publisher_value) pub_callbacks))
    publisher_values [].

Definition to_value (self : t) : list PublisherStructValue.t :=
  map (fun p => fst (PublisherStruct.to_value p)) self.

End PublishersStruct.

(** *** struct/subscription.py *)

Module SubscriptionStructValue.
Record t : Type := mk {
  node_name : string;
  topic_name : string;
  callback : option CallbackStructValue;
}.
End SubscriptionStructValue.

Module SubscriptionStruct.

Record t : Type := mk {
  node_name : string;
  topic_name : string;
  callback : option CallbackStruct.t;
  _is_transformed : bool;
}.

Definition init (node_name topic_name : string) (callback : option CallbackStruct.t) : t :=
  mk node_name topic_name callback false.

(** [callback.setter]: [assert self._is_transformed == False]. *)
Definition set_callback (self : t) (callback : CallbackStruct.t) : result t :=
  if _is_transformed self then Raise AssertionError
  else Ok (mk (node_name self) (topic_name self) (Some callback) (_is_transformed self)).

Definition to_value (self : t) : SubscriptionStructValue.t * t :=
  let self' := mk (node_name self) (topic_name self) (callback self) true in
  let callback := option_map CallbackStruct.to_value (callback self') in
  (SubscriptionStructValue.mk (node_name self') (topic_name self') callback, self').

Definition create_instance (callbacks : CallbacksStruct.t)
    (subscription_value : SubscriptionValue.t) : result t :=
  let sub := init (SubscriptionValue.node_name subscription_value)
                  (SubscriptionValue.topic_name subscription_value) None in
  match SubscriptionValue.callback_id subscription_value with
  | Some callback_id =>
      callback ← CallbacksStruct.get_callback callbacks callback_id;
      set_callback sub callback
  | None => Ok sub
  end.

End SubscriptionStruct.

Module SubscriptionsStruct.

Record t : Type := mk {
  _data : list SubscriptionStruct.t;
  _is_transformed : bool;
}.

Definition init : t := mk [] false.

(** [add]: [assert self._is_transformed is False]. *)
Definition add (self : t) (subscription : SubscriptionStruct.t) : result t :=
  if _is_transformed self then Raise AssertionError
  else Ok (mk (_data self ++ [subscription]) (_is_transformed self)).

Definition as_list (self : t) : list SubscriptionStruct.t := _data self.

Definition to_value (self : t) : list SubscriptionStructValue.t * t :=
  let converted := map SubscriptionStruct.to_value (_data self) in
  (map fst converted, mk (map snd converted) true).

(** [create_from_reader]; [except Error] catches the repository's own
    exceptions: that subscription is logged and left out.  Any other
    exception leaves the function. *)
Definition create_from_reader (subscription_values : list SubscriptionValue.t)
    (callbacks_loaded : CallbacksStruct.t) : result t :=
  fold_left
    (fun acc sub_value =>
       subscriptions ← acc;
       match sub ← SubscriptionStruct.create_instance callbacks_loaded sub_value;
             add subscriptions sub with
       | Ok subscriptions' => Ok subscriptions'
       | Raise e => if is_caret_error e then Ok subscriptions else Raise e
       end)
    subscription_values (Ok init).

End SubscriptionsStruct.

(** *** struct/transform.py *)

Module TransformFrameBroadcasterStructValue.
Record t : Type := mk {
  publisher : PublisherStructValue.t;
  transform : TransformValue;
}.
Definition node_name (self : t) : string := PublisherStructValue.node_name (publisher self).
Definition topic_name (self : t) : string := PublisherStructValue.topic_name (publisher self).
End TransformFrameBroadcasterStructValue.

Module TransformFrameBufferStructValue.
Record t : Type := mk {
  lookup_node_name : string;
  listener_node_name : option string;
  transform : TransformValue;
}.
Definition topic_name (self : t) : string := "/tf".
End TransformFrameBufferStructValue.

Module TransformBroadcasterStructValue.
Record t : Type := mk {
  publisher : PublisherStructValue.t;
  transforms : list TransformValue;
}.
End TransformBroadcasterStructValue.

Module TransformBufferStructValue.
Record t : Type := mk {
  lookup_node_name : string;
  listener_node_name : option string;
  lookup_transforms : list TransformValue;
}.
End TransformBufferStructValue.

Module TransformBroadcasterValue.
Record t : Type := mk {
  publisher : PublisherValue.t;
  transforms : list TransformValue;
  callback_ids : option (list string);
}.
End TransformBroadcasterValue.

Module TransformBufferValue.
Record t : Type := mk {
  lookup_node_name : string;
  lookup_node_id : string;
  listener_node_name : option string;
  listener_node_id : option string;
  lookup_transforms : option (list TransformValue);
}.
End TransformBufferValue.

Module TransformFrameBroadcasterStruct.

Record t : Type := mk {
  publisher : PublisherStruct.t;
  transform : TransformValue;
}.

Definition node_name (self : t) : string := PublisherStruct.node_name (publisher self).

Definition to_value (self : t) : TransformFrameBroadcasterStructValue.t :=
  TransformFrameBroadcasterStructValue.mk
    (fst (PublisherStruct.to_value (publisher self))) (transform self).

End TransformFrameBroadcasterStruct.

Module TransformFrameBufferStruct.

Record t : Type := mk {
  _tf_tree : TransformTreeValue;
  transform : TransformValue;
  lookup_node_name : string;
  listener_node_name : option string;
}.

Definition to_value (self : t) : TransformFrameBufferStructValue.t :=
  TransformFrameBufferStructValue.mk
    (lookup_node_name self) (listener_node_name self) (transform self).

End TransformFrameBufferStruct.

Module TransformFrameBroadcastersStruct.
Definition t : Type := list TransformFrameBroadcasterStruct.t.
Definition insert (self : t) (br : TransformFrameBroadcasterStruct.t) : t := self ++ [br].
Definition as_list (self : t) : list TransformFrameBroadcasterStruct.t := self.
End TransformFrameBroadcastersStruct.

Module TransformFrameBuffersStruct.
Definition t : Type := list TransformFrameBufferStruct.t.
Definition insert (self : t) (br : TransformFrameBufferStruct.t) : t := self ++ [br].
Definition as_list (self : t) : list TransformFrameBufferStruct.t := self.
End TransformFrameBuffersStruct.

Module TransformBroadcasterStruct.

Record t : Type := mk {
  publisher : PublisherStruct.t;
  transforms : list TransformValue;
  _frame_brs : TransformFrameBroadcastersStruct.t;
}.

Definition init (publisher : PublisherStruct.t) (transforms : list TransformValue) : t :=
  mk publisher transforms
     (fold_left
        (fun frame_brs tf =>
           TransformFrameBroadcastersStruct.insert frame_brs
             (TransformFrameBroadcasterStruct.mk publisher tf))
        transforms []).

Definition frame_broadcasters (self : t) : TransformFrameBroadcastersStruct.t :=
  _frame_brs self.

Definition to_value (self : t) : TransformBroadcasterStructValue.t :=
  TransformBroadcasterStructValue.mk
    (fst (PublisherStruct.to_value (publisher self))) (transforms self).

(** [create_from_reader]; [broadcaster] is
    [reader.get_tf_broadcaster(node.node_name)]. *)
Definition create_from_reader (broadcaster : option TransformBroadcasterValue.t)
    (callbacks : CallbacksStruct.t) (node : NodeValue.t) : option t :=
  match broadcaster with
  | None => None
  | Some broadcaster =>
      let cb_ids := default [] (TransformBroadcasterValue.callback_ids broadcaster) in
      let cbs := CallbacksStruct.get_callbacks callbacks cb_ids in
      let tf_pub := PublisherStruct.mk (NodeValue.node_name node) "/tf" (Some cbs) in
      Some (init tf_pub (TransformBroadcasterValue.transforms broadcaster))
  end.

End TransformBroadcasterStruct.

Module TransformBufferStruct.

Record t : Type := mk {
  lookup_node_name : string;
  listener_node_name : option string;
  lookup_transforms : list TransformValue;
  _frame_buffs : TransformFrameBuffersStruct.t;
}.

Definition init (lookup_node_name : string) (tf_tree : TransformTreeValue)
    (lookup_transforms : list TransformValue) (listener_node_name : option string) : t :=
  mk lookup_node_name listener_node_name lookup_transforms
     (fold_left
        (fun frame_buffs tf =>
           TransformFrameBuffersStruct.insert frame_buffs
             (TransformFrameBufferStruct.mk tf_tree tf lookup_node_name listener_node_name))
        lookup_transforms []).

Definition frame_buffers (self : t) : TransformFrameBuffersStruct.t := _frame_buffs self.

Definition to_value (self : t) : TransformBufferStructValue.t :=
  TransformBufferStructValue.mk
    (lookup_node_name self) (listener_node_name self) (lookup_transforms self).

(** [create_from_reader]; [buffer] is
    [reader.get_tf_buffer(node.node_name)]. *)
Definition create_from_reader (buffer : option TransformBufferValue.t)
    (tf_tree : TransformTreeValue) : result (option t) :=
  match buffer with
  | None => Ok None
  | Some buffer =>
      match TransformBufferValue.lookup_transforms buffer with
      | Some (tf :: tfs) =>
          Ok (Some (init (TransformBufferValue.lookup_node_name buffer) tf_tree (tf :: tfs)
                      (TransformBufferValue.listener_node_name buffer)))
      | Some [] | None => Raise AssertionError
      end
  end.

End TransformBufferStruct.

(** *** Endpoints and the pairing predicate

    [NodeInputType] and [NodeOutputType] of struct_interface.py; [PyObject]
    is the [Any] argument of [is_pair], as far as [isinstance] tells its
    values apart. *)

Inductive NodeInputType : Type :=
  | InSubscription (sub : SubscriptionStruct.t)
  | InFrameBuffer (buf : TransformFrameBufferStruct.t).

Inductive NodeOutputType : Type :=
  | OutPublisher (pub : PublisherStruct.t)
  | OutFrameBroadcaster (br : TransformFrameBroadcasterStruct.t).

Inductive PyObject : Type :=
  | ObjPublisher (pub : PublisherStruct.t)
  | ObjSubscription (sub : SubscriptionStruct.t)
  | ObjFrameBroadcaster (br : TransformFrameBroadcasterStruct.t)
  | ObjFrameBuffer (buf : TransformFrameBufferStruct.t)
  | ObjOther.

Definition input_object (node_input : NodeInputType) : PyObject :=
  match node_input with
  | InSubscription sub => ObjSubscription sub
  | InFrameBuffer buf => ObjFrameBuffer buf
  end.

Definition output_object (node_output : NodeOutputType) : PyObject :=
  match node_output with
  | OutPublisher pub => ObjPublisher pub
  | OutFrameBroadcaster br => ObjFrameBroadcaster br
  end.

(** [SubscriptionStruct.is_pair]. *)
Definition SubscriptionStruct_is_pair (self : SubscriptionStruct.t) (other : PyObject) : bool :=
  match other with
  | ObjPublisher pub =>
      String.eqb (PublisherStruct.topic_name pub) (SubscriptionStruct.topic_name self)
  | _ => false
  end.

(** [PublisherStruct.is_pair]. *)
Definition PublisherStruct_is_pair (self : PublisherStruct.t) (other : PyObject) : bool :=
  match other with
  | ObjSubscription sub =>
      String.eqb (PublisherStruct.topic_name self) (SubscriptionStruct.topic_name sub)
  | _ => false
  end.

(** [TransformFrameBufferStruct.is_pair]. *)
Definition TransformFrameBufferStruct_is_pair (self : TransformFrameBufferStruct.t)
    (other : PyObject) : bool :=
  match other with
  | ObjFrameBroadcaster br =>
      TransformTreeValue.is_in (TransformFrameBufferStruct._tf_tree self)
        (TransformFrameBufferStruct.transform self)
        (TransformFrameBroadcasterStruct.transform br)
  | _ => false
  end.

(** [node_input.is_pair(node_output)], dispatched on the class of the
    input. *)
Definition NodeInputType_is_pair (node_input : NodeInputType) (other : PyObject) : bool :=
  match node_input with
  | InSubscription sub => SubscriptionStruct_is_pair sub other
  | InFrameBuffer buf => TransformFrameBufferStruct_is_pair buf other
  end.

(** A buffer looking up root -> B and a broadcaster of A -> B, over the
    tree of the chain. *)
Definition chain_buffer : TransformFrameBufferStruct.t :=
  TransformFrameBufferStruct.mk chain_tree tf_root_B "/listener" None.

Definition chain_broadcaster : TransformFrameBroadcasterStruct.t :=
  TransformFrameBroadcasterStruct.mk (PublisherStruct.mk "/talker" "/tf" None) tf_A_B.

(** *** The frame structs as the constructors leave them

    [TransformFrameBroadcasterStruct.__init__] and
    [TransformFrameBufferStruct.__init__] take [publisher], [transform],
    [lookup_node_name] and [listener_node_name] as optional arguments with
    default [None], and the accessors [publisher], [transform] and
    [lookup_node_name] assert that the attribute is set.  The records
    [TransformFrameBroadcasterStruct.t] and [TransformFrameBufferStruct.t]
    above are the structs with these attributes set, as
    [TransformBroadcasterStruct] and [TransformBufferStruct] build them;
    the two records below keep the attributes as [__init__] stores
    them. *)

Module TransformFrameBroadcasterStructAttrs.

Record t : Type := mk {
  _publisher : option PublisherStruct.t;
  _transform : option TransformValue;
}.

(** [transform]: [assert self._transform is not None]. *)
Definition transform (self : t) : result TransformValue :=
  match _transform self with
  | Some tf => Ok tf
  | None => Raise AssertionError
  end.

Definition of_struct (br : TransformFrameBroadcasterStruct.t) : t :=
  mk (Some (TransformFrameBroadcasterStruct.publisher br))
     (Some (TransformFrameBroadcasterStruct.transform br)).

End TransformFrameBroadcasterStructAttrs.

Module TransformFrameBufferStructAttrs.

Record t : Type := mk {
  _tf_tree : TransformTreeValue;
  _transform : option TransformValue;
  _lookup_node_name : option string;
  _listener_node_name : option string;
}.

(** [transform]: [assert self._transform is not None]. *)
Definition transform (self : t) : result TransformValue :=
  match _transform self with
  | Some tf => Ok tf
  | None => Raise AssertionError
  end.

Definition of_struct (buf : TransformFrameBufferStruct.t) : t :=
  mk (TransformFrameBufferStruct._tf_tree buf)
     (Some (TransformFrameBufferStruct.transform buf))
     (Some (TransformFrameBufferStruct.lookup_node_name buf))
     (TransformFrameBufferStruct.listener_node_name buf).

End TransformFrameBufferStructAttrs.

(** The [Any] argument of the two [is_pair] methods, as far as
    [isinstance] tells its values apart. *)
Inductive AnyObject : Type :=
  | AnyPublisher (pub : PublisherStruct.t)
  | AnySubscription (sub : SubscriptionStruct.t)
  | AnyFrameBroadcaster (br : TransformFrameBroadcasterStructAttrs.t)
  | AnyFrameBuffer (buf : TransformFrameBufferStructAttrs.t)
  | AnyOther.

(** [TransformFrameBufferStruct.is_pair]: the arguments of [is_in] are
    evaluated from left to right, [self.transform] before
    [other.transform]. *)
Definition TransformFrameBufferStructAttrs_is_pair (self : TransformFrameBufferStructAttrs.t)
    (other : AnyObject) : result bool :=
  match other with
  | AnyFrameBroadcaster br =>
      lookup ← TransformFrameBufferStructAttrs.transform self;
      target ← TransformFrameBroadcasterStructAttrs.transform br;
      Ok (TransformTreeValue.is_in (TransformFrameBufferStructAttrs._tf_tree self) lookup target)
  | _ => Ok false
  end.

(** [TransformFrameBroadcasterStruct.is_pair]: for a frame buffer the
    buffer's [is_pair] is called as a statement of its own, so that its
    answer is dropped and an exception it raises is not; the function
    then returns [False]. *)
Definition TransformFrameBroadcasterStructAttrs_is_pair
    (self : TransformFrameBroadcasterStructAttrs.t) (other : AnyObject) : result bool :=
  match other with
  | AnyFrameBuffer buf =>
      _ ← TransformFrameBufferStructAttrs_is_pair buf (AnyFrameBroadcaster self);
      Ok false
  | _ => Ok false
  end.

(** A frame buffer built from the tree alone: [TransformFrameBufferStruct(tf_tree)]. *)
Definition unset_buffer : TransformFrameBufferStructAttrs.t :=
  TransformFrameBufferStructAttrs.mk chain_tree None None None.

(** C10, as amended: the broadcaster-side [is_pair] never returns
    [True].  It returns [False] for every argument, except that for a
    frame buffer it raises [AssertionError] when the transform of the
    buffer or of the broadcaster is unset.  On a broadcaster and a buffer
    whose attributes are set it returns [False], also when the buffer's
    own [is_pair] accepts the broadcaster; a transform pair is only ever
    established by the buffer-side predicate, which is the transform
    tree's [is_in]. *)
Theorem broadcaster_is_pair_never_true :
  (forall (b : TransformFrameBroadcasterStructAttrs.t) (x : AnyObject),
      TransformFrameBroadcasterStructAttrs_is_pair b x =
      match x with
      | AnyFrameBuffer buf =>
          match TransformFrameBufferStructAttrs._transform buf,
                TransformFrameBroadcasterStructAttrs._transform b with
          | Some _, Some _ => Ok false
          | _, _ => Raise AssertionError
          end
      | _ => Ok false
      end)
  /\ (forall (b : TransformFrameBroadcasterStructAttrs.t) (x : AnyObject),
      TransformFrameBroadcasterStructAttrs_is_pair b x <> Ok true)
  /\ (forall (b : TransformFrameBroadcasterStruct.t) (x : TransformFrameBufferStruct.t),
      TransformFrameBroadcasterStructAttrs_is_pair
        (TransformFrameBroadcasterStructAttrs.of_struct b)
        (AnyFrameBuffer (TransformFrameBufferStructAttrs.of_struct x)) = Ok false
      /\ TransformFrameBufferStructAttrs_is_pair
           (TransformFrameBufferStructAttrs.of_struct x)
           (AnyFrameBroadcaster (TransformFrameBroadcasterStructAttrs.of_struct b))
         = Ok (TransformTreeValue.is_in (TransformFrameBufferStruct._tf_tree x)
                 (TransformFrameBufferStruct.transform x)
                 (TransformFrameBroadcasterStruct.transform b)))
  /\ (TransformFrameBufferStructAttrs_is_pair
        (TransformFrameBufferStructAttrs.of_struct chain_buffer)
        (AnyFrameBroadcaster (TransformFrameBroadcasterStructAttrs.of_struct chain_broadcaster))
      = Ok true
      /\ TransformFrameBroadcasterStructAttrs_is_pair
           (TransformFrameBroadcasterStructAttrs.of_struct chain_broadcaster)
           (AnyFrameBuffer (TransformFrameBufferStructAttrs.of_struct chain_buffer))
         = Ok false).
Proof.
  assert (Hcases : forall (b : TransformFrameBroadcasterStructAttrs.t) (x : AnyObject),
             TransformFrameBroadcasterStructAttrs_is_pair b x =
             match x with
             | AnyFrameBuffer buf =>
                 match TransformFrameBufferStructAttrs._transform buf,
                       TransformFrameBroadcasterStructAttrs._transform b with
                 | Some _, Some _ => Ok false
                 | _, _ => Raise AssertionError
                 end
             | _ => Ok false
             end).
  { intros [pub [target |]] [pub' | sub | br | [tree [lookup |] name listener] |];
      reflexivity. }
  split; [exact Hcases |]. split; [| split].
  - intros b x. rewrite Hcases.
    destruct x as [pub | sub | br | buf |]; try discriminate.
    destruct (TransformFrameBufferStructAttrs._transform buf);
      destruct (TransformFrameBroadcasterStructAttrs._transform b); discriminate.
  - intros b x. split; reflexivity.
  - split; vm_compute; reflexivity.
Qed.

(** The broadcaster-side [is_pair] does not return [False] for every
    argument: on a frame buffer whose transform is unset the call
    raises. *)
Lemma broadcaster_is_pair_raises_on_unset_buffer :
  TransformFrameBroadcasterStructAttrs_is_pair
    (TransformFrameBroadcasterStructAttrs.of_struct chain_broadcaster)
    (AnyFrameBuffer unset_buffer)
  = Raise AssertionError
  /\ TransformFrameBroadcasterStructAttrs_is_pair
       (TransformFrameBroadcasterStructAttrs.of_struct chain_broadcaster)
       (AnyFrameBuffer unset_buffer)
     <> Ok false.
Proof.
  split; [reflexivity | discriminate].
Qed.

(** *** struct/variable_passing.py *)

Module VariablePassingStruct.

Record t : Type := mk {
  node_name : string;
  callback_write : CallbackStruct.t;
  _callback_read : CallbackStruct.t;
}.

(** [callback_read] is declared without [@property]: the attribute is a
    method bound to the struct. *)
Inductive bound_method : Type :=
  | callback_read (self : t).

End VariablePassingStruct.

Module VariablePassingStructValue.
Record t : Type := mk {
  node_name : string;
  callback_write : CallbackStruct.t;
  callback_read : VariablePassingStruct.bound_method;
}.
End VariablePassingStructValue.

Definition VariablePassingStruct_to_value (self : VariablePassingStruct.t)
  : VariablePassingStructValue.t :=
  VariablePassingStructValue.mk
    (VariablePassingStruct.node_name self)
    (VariablePassingStruct.callback_write self)
    (VariablePassingStruct.callback_read self).

Module VariablePassingsStruct.
Definition t : Type := list VariablePassingStruct.t.
Definition add (self : t) (var_pass : VariablePassingStruct.t) : t := self ++ [var_pass].
Definition to_value (self : t) : list VariablePassingStructValue.t :=
  map VariablePassingStruct_to_value self.
End VariablePassingsStruct.

(** Conversion of a sequence of structs, one after the other: the first
    exception leaves the loop, with the structs converted so far already
    updated. *)
Fixpoint to_value_each {S V : Type} (to_value : S -> result V * S) (l : list S)
  : result (list V) * list S :=
  match l with
  | [] => (Ok [], [])
  | x :: l' =>
      match to_value x with
      | (Raise e, x') => (Raise e, x' :: l')
      | (Ok v, x') =>
          match to_value_each to_value l' with
          | (Raise e, l'') => (Raise e, x' :: l'')
          | (Ok vs, l'') => (Ok (v :: vs), x' :: l'')
          end
      end
  end.

(** *** struct/node_path.py *)

Inductive NodePathChild : Type :=
  | ChildCallback (callback : CallbackStruct.t)
  | ChildVariablePassing (var_pass : VariablePassingStruct.t).

Inductive NodePathChildValue : Type :=
  | ChildCallbackValue (callback : CallbackStructValue)
  | ChildVariablePassingValue (var_pass : VariablePassingStructValue.t).

Definition NodePathChild_to_value (c : NodePathChild) : NodePathChildValue :=
  match c with
  | ChildCallback cb => ChildCallbackValue (CallbackStruct.to_value cb)
  | ChildVariablePassing vp => ChildVariablePassingValue (VariablePassingStruct_to_value vp)
  end.

Module NodePathStructValue.
Record t `{External} : Type := mk {
  node_name : string;
  subscription : option SubscriptionStructValue.t;
  publisher : option PublisherStructValue.t;
  tf_frame_buffer : option TransformFrameBufferStructValue.t;
  tf_frame_broadcaster : option TransformFrameBroadcasterStructValue.t;
  child : option (list NodePathChildValue);
  message_context : option MessageContext;
}.
End NodePathStructValue.

Module NodePathStruct.

Record t `{External} : Type := mk {
  node_name : string;
  node_input : option NodeInputType;
  node_output : option NodeOutputType;
  child : option (list NodePathChild);
  message_context : option MessageContext;
}.

Section Methods.
Context `{External}.

Definition init (node_name : string) (node_input : option NodeInputType)
    (node_output : option NodeOutputType) : t :=
  mk _ node_name node_input node_output None None.

Definition publisher (self : t) : option PublisherStruct.t :=
  match node_output self with Some (OutPublisher pub) => Some pub | _ => None end.

Definition tf_frame_broadcaster (self : t) : option TransformFrameBroadcasterStruct.t :=
  match node_output self with Some (OutFrameBroadcaster br) => Some br | _ => None end.

Definition subscription (self : t) : option SubscriptionStruct.t :=
  match node_input self with Some (InSubscription sub) => Some sub | _ => None end.

Definition tf_frame_buffer (self : t) : option TransformFrameBufferStruct.t :=
  match node_input self with Some (InFrameBuffer buf) => Some buf | _ => None end.

(** [to_value]; converting the subscription marks it as transformed. *)
Definition to_value (self : t) : result NodePathStructValue.t * t :=
  let tf_publisher :=
    match publisher self with
    | Some pub => String.eqb (PublisherStruct.topic_name pub) "/tf"
    | None => false
    end in
  if tf_publisher then (Raise AssertionError, self)
  else
    let publisher_v := option_map (fun p => fst (PublisherStruct.to_value p)) (publisher self) in
    let subscription_v := option_map (fun s => fst (SubscriptionStruct.to_value s)) (subscription self) in
    let node_input' :=
      match node_input self with
      | Some (InSubscription sub) => Some (InSubscription (snd (SubscriptionStruct.to_value sub)))
      | other => other
      end in
    let tf_frame_buffer_v := option_map TransformFrameBufferStruct.to_value (tf_frame_buffer self) in
    let tf_frame_br := option_map TransformFrameBroadcasterStruct.to_value (tf_frame_broadcaster self) in
    let child_v := option_map (map NodePathChild_to_value) (child self) in
    (Ok (NodePathStructValue.mk _ (node_name self) subscription_v publisher_v
           tf_frame_buffer_v tf_frame_br child_v (message_context self)),
     mk _ (node_name self) node_input' (node_output self) (child self) (message_context self)).

(** [message_context.setter] and [child.setter]: no check of any kind. *)
Definition set_message_context (self : t) (message_context : MessageContext) : result t :=
  Ok (mk _ (node_name self) (node_input self) (node_output self) (child self)
         (Some message_context)).

Definition set_child (self : t) (child : list NodePathChild) : result t :=
  Ok (mk _ (node_name self) (node_input self) (node_output self) (Some child)
         (message_context self)).

End Methods.

End NodePathStruct.

Module NodePathsStruct.

Definition t `{External} : Type := list NodePathStruct.t.

Section Methods.
Context `{External}.

Definition init : t := [].

Definition create (self : t) (node_name : string) (node_input : option NodeInputType)
    (node_output : option NodeOutputType) : t :=
  self ++ [NodePathStruct.init node_name node_input node_output].

Definition to_value (self : t) : result (list NodePathStructValue.t) * t :=
  to_value_each NodePathStruct.to_value self.

(** [create_from_reader], up to the comment "assign callback-graph
    paths": the three loops that fill the table, over the node's name,
    [node_inputs] and [node_outputs]. *)
Definition create_table (node_name : string) (node_inputs : list NodeInputType)
    (node_outputs : list NodeOutputType) : t :=
  let node_paths := init in
  let node_paths :=
    fold_left (fun node_paths node_input => create node_paths node_name (Some node_input) None)
              node_inputs node_paths in
  let node_paths :=
    fold_left (fun node_paths node_output => create node_paths node_name None (Some node_output))
              node_outputs node_paths in
  fold_left
    (fun node_paths io => create node_paths node_name (Some (fst io)) (Some (snd io)))
    (product node_inputs node_outputs) node_paths.

End Methods.

End NodePathsStruct.

(** *** struct/node.py *)

Module NodeStructValue.
Record t `{External} : Type := mk {
  node_name : string;
  node_id : string;
  publishers : list PublisherStructValue.t;
  subscriptions : list SubscriptionStructValue.t;
  timers : TimersStructValue;
  node_paths : list NodePathStructValue.t;
  callback_groups : CallbackGroupsStructValue;
  variable_passings : list VariablePassingStructValue.t;
  tf_buffer : option TransformBufferStructValue.t;
  tf_broadcaster : option TransformBroadcasterStructValue.t;
}.
End NodeStructValue.

Module NodeStruct.

Record t `{External} : Type := mk {
  node_id : string;
  node_name : string;
  publishers : PublishersStruct.t;
  subscriptions : SubscriptionsStruct.t;
  timers : TimersStruct;
  node_paths : NodePathsStruct.t;
  callback_groups : CallbackGroupsStruct;
  variable_passings : VariablePassingsStruct.t;
  tf_buffer : option TransformBufferStruct.t;
  tf_broadcaster : option TransformBroadcasterStruct.t;
}.

Section Methods.
Context `{External}.

Definition node_outputs (self : t) : list NodeOutputType :=
  let outputs := PublishersStruct.as_list (publishers self) in
  let outputs :=
    Util.filter_items (fun x => negb (String.eqb (PublisherStruct.topic_name x) "/tf")) outputs in
  let outputs :=
    Util.filter_items (fun x => negb (endswith (PublisherStruct.topic_name x) "/info/pub")) outputs in
  let outputs := map OutPublisher outputs in
  match tf_broadcaster self with
  | Some br =>
      outputs ++ map OutFrameBroadcaster
        (TransformFrameBroadcastersStruct.as_list (TransformBroadcasterStruct.frame_broadcasters br))
  | None => outputs
  end.

Definition node_inputs (self : t) : list NodeInputType :=
  let node_inputs := map InSubscription (SubscriptionsStruct.as_list (subscriptions self)) in
  match tf_buffer self with
  | Some buf =>
      node_inputs ++ map InFrameBuffer
        (TransformFrameBuffersStruct.as_list (TransformBufferStruct.frame_buffers buf))
  | None => node_inputs
  end.

(** [tf_buffer.setter] and [tf_broadcaster.setter]: no check of any
    kind. *)
Definition set_tf_buffer (self : t) (value : TransformBufferStruct.t) : result t :=
  Ok (mk _ (node_id self) (node_name self) (publishers self) (subscriptions self)
         (timers self) (node_paths self) (callback_groups self) (variable_passings self)
         (Some value) (tf_broadcaster self)).

Definition set_tf_broadcaster (self : t) (value : TransformBroadcasterStruct.t) : result t :=
  Ok (mk _ (node_id self) (node_name self) (publishers self) (subscriptions self)
         (timers self) (node_paths self) (callback_groups self) (variable_passings self)
         (tf_buffer self) (Some value)).

(** [to_value]: the keyword arguments are evaluated in order; the
    first exception leaves the function with the conversions made so
    far already applied to the struct. *)
Definition to_value (self : t) : result NodeStructValue.t * t :=
  let publishers_v := PublishersStruct.to_value (publishers self) in
  let '(subscriptions_v, subscriptions') := SubscriptionsStruct.to_value (subscriptions self) in
  match TimersStruct_to_value (timers self) with
  | (Raise e, timers') =>
      (Raise e,
       mk _ (node_id self) (node_name self) (publishers self) subscriptions'
          timers' (node_paths self) (callback_groups self)
          (variable_passings self) (tf_buffer self) (tf_broadcaster self))
  | (Ok timers_v, timers') =>
      match NodePathsStruct.to_value (node_paths self) with
      | (Raise e, node_paths') =>
          (Raise e,
           mk _ (node_id self) (node_name self) (publishers self) subscriptions'
              timers' node_paths' (callback_groups self)
              (variable_passings self) (tf_buffer self) (tf_broadcaster self))
      | (Ok node_paths_v, node_paths') =>
          match CallbackGroupsStruct_to_value (callback_groups self) with
          | (Raise e, callback_groups') =>
              (Raise e,
               mk _ (node_id self) (node_name self) (publishers self) subscriptions'
                  timers' node_paths' callback_groups'
                  (variable_passings self) (tf_buffer self) (tf_broadcaster self))
          | (Ok callback_groups_v, callback_groups') =>
              (Ok (NodeStructValue.mk _ (node_name self) (node_id self) publishers_v
                     subscriptions_v timers_v node_paths_v callback_groups_v
                     (VariablePassingsStruct.to_value (variable_passings self))
                     (option_map TransformBufferStruct.to_value (tf_buffer self))
                     (option_map TransformBroadcasterStruct.to_value (tf_broadcaster self))),
               mk _ (node_id self) (node_name self) (publishers self) subscriptions'
                  timers' node_paths' callback_groups'
                  (variable_passings self) (tf_buffer self) (tf_broadcaster self))
          end
      end
  end.

End Methods.

End NodeStruct.

(** [NodePathsStruct.create_from_reader] applied to a node, up to the
    callback-graph search. *)
Definition NodePathsStruct_create_from_reader `{External} (node : NodeStruct.t)
  : NodePathsStruct.t :=
  NodePathsStruct.create_table (NodeStruct.node_name node)
    (NodeStruct.node_inputs node) (NodeStruct.node_outputs node).

(** An instance of the outside parts, for concrete nodes: no timers, no
    callback groups, no message contexts. *)
#[global] Instance no_external : External := {|
  TimersStruct := unit;
  TimersStructValue := unit;
  TimersStruct_to_value := fun t => (Ok tt, t);
  CallbackGroupsStruct := unit;
  CallbackGroupsStructValue := unit;
  CallbackGroupsStruct_to_value := fun g => (Ok tt, g);
  MessageContext := Empty_set;
|}.

Definition plain_node (node_name : string) (publishers : PublishersStruct.t)
    (subscriptions : list SubscriptionStruct.t) : NodeStruct.t :=
  NodeStruct.mk no_external node_name node_name publishers
    (SubscriptionsStruct.mk subscriptions false) tt [] tt [] None None.

(** ** Properties of the helpers *)

Lemma fold_left_snoc {A B : Type} (f : A -> B) (l : list A) (init : list B) :
  fold_left (fun acc x => acc ++ [f x]) l init = init ++ map f l.
Proof.
  revert init. induction l as [| x l IH]; intros init; simpl.
  - by rewrite app_nil_r.
  - rewrite IH. by rewrite <- app_assoc.
Qed.

Lemma product_length {A B : Type} (xs : list A) (ys : list B) :
  length (product xs ys) = length xs * length ys.
Proof.
  unfold product. induction xs as [| x xs IH]; simpl; [done |].
  rewrite length_app, length_map, IH. done.
Qed.


Lemma elem_of_filter_items {A : Type} (f : A -> bool) (l : list A) (x : A) :
  x ∈ Util.filter_items f l <-> x ∈ l /\ f x = true.
Proof. unfold Util.filter_items. by rewrite !list_elem_of_In, filter_In. Qed.

(** [endswith] is the suffix test. *)
Lemma append_nil_l (s : string) : String.append "" s = s.
Proof. reflexivity. Qed.

Lemma append_cons (a : ascii) (s t : string) :
  String.append (String a s) t = String a (String.append s t).
Proof. reflexivity. Qed.

Lemma substring_all (s : string) : substring 0 (String.length s) s = s.
Proof. induction s as [| b s IH]; simpl; [done | by rewrite IH]. Qed.

Lemma substring_skip_app (pre suffix : string) :
  substring (String.length pre) (String.length suffix) (String.append pre suffix) = suffix.
Proof.
  induction pre as [| a pre IH].
  - rewrite append_nil_l. apply substring_all.
  - rewrite append_cons. simpl. exact IH.
Qed.

Lemma substring_tail_split (s : string) (k m : nat) :
  k + m = String.length s ->
  s = String.append (substring 0 k s) (substring k m s).
Proof.
  revert k m. induction s as [| a s IH]; intros k m Hlen.
  - destruct k, m; simpl in *; try lia; done.
  - destruct k as [| k].
    + rewrite Nat.add_0_l in Hlen. subst m. rewrite substring_all.
      change (substring 0 0 (String a s)) with EmptyString.
      by rewrite append_nil_l.
    + simpl in Hlen. simpl substring. rewrite append_cons. f_equal. apply IH. lia.
Qed.

Lemma string_length_app (a b : string) :
  String.length (String.append a b) = String.length a + String.length b.
Proof.
  induction a as [| c a IH]; [done |].
  rewrite append_cons. simpl. by rewrite IH.
Qed.

Lemma endswith_spec (s suffix : string) :
  endswith s suffix = true <-> exists pre : string, s = String.append pre suffix.
Proof.
  unfold endswith. rewrite andb_true_iff, Nat.leb_le, String.eqb_eq. split.
  - intros [Hle Hsub].
    exists (substring 0 (String.length s - String.length suffix) s).
    rewrite <- Hsub at 2. apply substring_tail_split. lia.
  - intros [pre ->]. rewrite string_length_app. split; [lia |].
    replace (String.length pre + String.length suffix - String.length suffix)
      with (String.length pre) by lia.
    apply substring_skip_app.
Qed.

(** ** Node outputs and publisher loading *)

Lemma PublishersStruct_create_from_reader_app (callbacks : CallbacksStruct.t)
    (publisher_values : list PublisherValue.t) (acc : PublishersStruct.t) :
  fold_left
    (fun publishers publisher_value =>
       if String.eqb (PublisherValue.topic_name publisher_value) "/tf" then publishers
       else
         PublishersStruct.insert publishers
           (PublisherStruct.mk (PublisherValue.node_name publisher_value)
              (PublisherValue.topic_name publisher_value)
              (option_map (CallbacksStruct.get_callbacks callbacks)
                 (PublisherValue.callback_ids publisher_value))))
    publisher_values acc
  = acc ++
    map (fun v => PublisherStruct.mk (PublisherValue.node_name v) (PublisherValue.topic_name v)
                    (option_map (CallbacksStruct.get_callbacks callbacks)
                       (PublisherValue.callback_ids v)))
        (List.filter (fun v => negb (String.eqb (PublisherValue.topic_name v) "/tf"))
           publisher_values).
Proof.
  revert acc. induction publisher_values as [| v vs IH]; intros acc; simpl.
  - by rewrite app_nil_r.
  - rewrite IH. destruct (String.eqb (PublisherValue.topic_name v) "/tf"); simpl; [done |].
    unfold PublishersStruct.insert. by rewrite <- app_assoc.
Qed.

(** A node N for which the reader lists one subscription and one
    publisher, both on "/tf", assembled as [NodeStruct.create_from_reader]
    does: the publishers and the subscriptions come from their
    [create_from_reader], and the subscriptions are converted once. *)
Definition tf_subscription_value : SubscriptionValue.t := SubscriptionValue.mk "N" "/tf" None.

Definition tf_publisher_value : PublisherValue.t := PublisherValue.mk "N" "/tf" None.

Definition tf_subscription : SubscriptionStruct.t := SubscriptionStruct.init "N" "/tf" None.

Definition tf_node : NodeStruct.t :=
  NodeStruct.mk no_external "N" "N"
    (PublishersStruct.create_from_reader [tf_publisher_value] CallbacksStruct.empty)
    (snd (SubscriptionsStruct.to_value (SubscriptionsStruct.mk [tf_subscription] false)))
    tt [] tt [] None None.

(** C8 on the code.  Outputs: [node_outputs] holds an ordinary publisher
    exactly when the node has it and its topic is neither "/tf" nor ends
    in "/info/pub"; the only other outputs are the frame broadcasters of
    the node's transform broadcaster; the publishers loaded from the
    reader never include a "/tf" publisher; and the "/tf" publisher of a
    transform broadcaster loaded from the reader appears once per declared
    transform, as a frame broadcaster.  Inputs: [node_inputs] holds every
    subscription of the node, whatever its topic; for the node N above the
    "/tf" publisher is dropped, while the "/tf" subscription is loaded, is
    an ordinary input of the node and converts to a node-path value, where
    the same conversion fails its assertion for a "/tf" publisher. *)
Theorem tf_excluded_from_outputs_not_inputs `{External} :
  (forall (node : NodeStruct.t) (pub : PublisherStruct.t),
      OutPublisher pub ∈ NodeStruct.node_outputs node <->
      pub ∈ NodeStruct.publishers node
      /\ PublisherStruct.topic_name pub <> "/tf"
      /\ ~ (exists pre : string, PublisherStruct.topic_name pub = String.append pre "/info/pub"))
  /\ (forall (node : NodeStruct.t) (br : TransformFrameBroadcasterStruct.t),
      OutFrameBroadcaster br ∈ NodeStruct.node_outputs node <->
      exists tf_br, NodeStruct.tf_broadcaster node = Some tf_br
                    /\ br ∈ TransformBroadcasterStruct.frame_broadcasters tf_br)
  /\ (forall (publisher_values : list PublisherValue.t) (callbacks : CallbacksStruct.t)
        (pub : PublisherStruct.t),
      pub ∈ PublishersStruct.create_from_reader publisher_values callbacks ->
      PublisherStruct.topic_name pub <> "/tf")
  /\ (forall (broadcaster : TransformBroadcasterValue.t) (callbacks : CallbacksStruct.t)
        (node : NodeValue.t) (tf_br : TransformBroadcasterStruct.t)
        (br : TransformFrameBroadcasterStruct.t),
      TransformBroadcasterStruct.create_from_reader (Some broadcaster) callbacks node
        = Some tf_br ->
      br ∈ TransformBroadcasterStruct.frame_broadcasters tf_br ->
      PublisherStruct.topic_name (TransformFrameBroadcasterStruct.publisher br) = "/tf"
      /\ TransformFrameBroadcasterStruct.transform br
           ∈ TransformBroadcasterValue.transforms broadcaster)
  /\ (forall (node : NodeStruct.t) (sub : SubscriptionStruct.t),
      InSubscription sub ∈ NodeStruct.node_inputs node <->
      sub ∈ SubscriptionsStruct.as_list (NodeStruct.subscriptions node))
  /\ (PublishersStruct.create_from_reader [tf_publisher_value] CallbacksStruct.empty = []
      /\ SubscriptionsStruct.create_from_reader [tf_subscription_value] CallbacksStruct.empty
         = Ok (SubscriptionsStruct.mk [tf_subscription] false)
      /\ NodeStruct.node_outputs tf_node = []
      /\ (exists sub : SubscriptionStruct.t,
             NodeStruct.node_inputs tf_node = [InSubscription sub]
             /\ SubscriptionStruct.topic_name sub = "/tf"
             /\ exists value : NodePathStructValue.t,
                  fst (NodePathStruct.to_value
                         (NodePathStruct.init "N" (Some (InSubscription sub)) None)) = Ok value
                  /\ option_map SubscriptionStructValue.topic_name
                       (NodePathStructValue.subscription value) = Some "/tf")
      /\ fst (NodePathStruct.to_value
                (NodePathStruct.init "N" None
                   (Some (OutPublisher (PublisherStruct.mk "N" "/tf" None)))))
         = Raise AssertionError).
Proof.
  split; [| split; [| split; [| split; [| split]]]].
  - intros node pub. unfold NodeStruct.node_outputs.
    assert (Hpub : OutPublisher pub ∈
              map OutPublisher
                (Util.filter_items
                   (fun x => negb (endswith (PublisherStruct.topic_name x) "/info/pub"))
                   (Util.filter_items
                      (fun x => negb (String.eqb (PublisherStruct.topic_name x) "/tf"))
                      (PublishersStruct.as_list (NodeStruct.publishers node))))
            <-> pub ∈ NodeStruct.publishers node
                /\ PublisherStruct.topic_name pub <> "/tf"
                /\ ~ (exists pre : string,
                         PublisherStruct.topic_name pub = String.append pre "/info/pub")).
    { rewrite list_elem_of_fmap. split.
      - intros (p & Heq & Hin). inversion Heq; subst p.
        apply elem_of_filter_items in Hin as [Hin Hsuf].
        apply elem_of_filter_items in Hin as [Hin Htf].
        apply negb_true_iff in Hsuf, Htf.
        split; [exact Hin |]. split.
        + by apply String.eqb_neq.
        + intros Hex. apply endswith_spec in Hex. congruence.
      - intros (Hin & Htf & Hsuf). exists pub. split; [done |].
        apply elem_of_filter_items. split.
        + apply elem_of_filter_items. split; [exact Hin |].
          apply negb_true_iff. by apply String.eqb_neq.
        + apply negb_true_iff. apply not_true_is_false.
          intros Hends. apply Hsuf. by apply endswith_spec. }
    destruct (NodeStruct.tf_broadcaster node) as [tf_br |]; [| exact Hpub].
    rewrite elem_of_app, Hpub. split; [| tauto].
    intros [Hl | Hr]; [exact Hl |].
    apply list_elem_of_fmap in Hr as (b & Heq & _). discriminate.
  - intros node br. unfold NodeStruct.node_outputs.
    destruct (NodeStruct.tf_broadcaster node) as [tf_br |].
    + rewrite elem_of_app. split.
      * intros [Hl | Hr].
        -- apply list_elem_of_fmap in Hl as (p & Heq & _). discriminate.
        -- apply list_elem_of_fmap in Hr as (b & Heq & Hin). inversion Heq; subst b.
           exists tf_br. by split.
      * intros (tf_br' & Heq & Hin). inversion Heq; subst tf_br'. right.
        apply list_elem_of_fmap. by exists br.
    + split.
      * intros Hl. apply list_elem_of_fmap in Hl as (p & Heq & _). discriminate.
      * intros (tf_br' & Heq & _). discriminate.
  - intros publisher_values callbacks pub.
    unfold PublishersStruct.create_from_reader.
    rewrite PublishersStruct_create_from_reader_app. simpl.
    intros Hin. apply list_elem_of_fmap in Hin as (v & -> & Hv).
    apply list_elem_of_In, filter_In in Hv as [_ Hv]. simpl.
    apply negb_true_iff in Hv. by apply String.eqb_neq.
  - intros broadcaster callbacks node tf_br br Hcreate Hin.
    unfold TransformBroadcasterStruct.create_from_reader in Hcreate.
    inversion Hcreate; subst tf_br. clear Hcreate.
    unfold TransformBroadcasterStruct.frame_broadcasters, TransformBroadcasterStruct.init in Hin.
    cbn [TransformBroadcasterStruct._frame_brs] in Hin.
    unfold TransformFrameBroadcastersStruct.insert in Hin.
    rewrite (fold_left_snoc
               (fun tf => TransformFrameBroadcasterStruct.mk
                            (PublisherStruct.mk (NodeValue.node_name node) "/tf"
                               (Some (CallbacksStruct.get_callbacks callbacks
                                        (default [] (TransformBroadcasterValue.callback_ids
                                                       broadcaster)))))
                            tf)) in Hin.
    rewrite app_nil_l in Hin. apply list_elem_of_fmap in Hin as (tf & -> & Htf).
    split; [reflexivity | exact Htf].
  - intros node sub. unfold NodeStruct.node_inputs.
    assert (Hsub : InSubscription sub ∈
              map InSubscription (SubscriptionsStruct.as_list (NodeStruct.subscriptions node))
            <-> sub ∈ SubscriptionsStruct.as_list (NodeStruct.subscriptions node)).
    { rewrite list_elem_of_fmap. split.
      - intros (s & Heq & Hin). by inversion Heq; subst s.
      - intros Hin. by exists sub. }
    destruct (NodeStruct.tf_buffer node) as [buf |]; [| exact Hsub].
    rewrite elem_of_app, Hsub. split; [| tauto].
    intros [Hl | Hr]; [exact Hl |].
    apply list_elem_of_fmap in Hr as (b & Heq & _). discriminate.
  - split; [reflexivity |]. split; [reflexivity |]. split; [reflexivity |].
    split; [| reflexivity].
    eexists. split; [reflexivity |]. split; [reflexivity |].
    eexists. split; reflexivity.
Qed.

(** ** The per-node path table *)

Lemma create_table_eq `{External} (node_name : string) (node_inputs : list NodeInputType)
    (node_outputs : list NodeOutputType) :
  NodePathsStruct.create_table node_name node_inputs node_outputs =
  map (fun i => NodePathStruct.init node_name (Some i) None) node_inputs
  ++ map (fun o => NodePathStruct.init node_name None (Some o)) node_outputs
  ++ map (fun io => NodePathStruct.init node_name (Some (fst io)) (Some (snd io)))
         (product node_inputs node_outputs).
Proof.
  unfold NodePathsStruct.create_table, NodePathsStruct.create, NodePathsStruct.init, NodePathsStruct.t.
  cbv beta zeta.
  rewrite (fold_left_snoc
             (fun io => NodePathStruct.init node_name (Some (fst io)) (Some (snd io)))).
  rewrite (fold_left_snoc (fun o => NodePathStruct.init node_name None (Some o))).
  rewrite (fold_left_snoc (fun i => NodePathStruct.init node_name (Some i) None)).
  simpl. by rewrite <- app_assoc.
Qed.

(** The two endpoints that an entry of the table stores. *)
Definition endpoints `{External} (node_path : NodePathStruct.t)
  : option NodeInputType * option NodeOutputType :=
  (NodePathStruct.node_input node_path, NodePathStruct.node_output node_path).

(** C2: the table built before the callback-graph search has one entry
    per input with output [None], one per output with input [None] and one
    per (input, output) pair, I + O + I*O in all, each under the node's
    name and with no callback chain yet; a node with one subscription on
    "/in" and one publisher on "/out" gets exactly the entries (in, None),
    (None, out), (in, out).  The entries are read through the accessors
    [node_input] and [node_output]. *)
Theorem node_path_table_entries `{External} :
  (forall node : NodeStruct.t,
      let name := NodeStruct.node_name node in
      let inputs := NodeStruct.node_inputs node in
      let outputs := NodeStruct.node_outputs node in
      let table := NodePathsStruct_create_from_reader node in
      map endpoints table =
        map (fun i => (Some i, None)) inputs
        ++ map (fun o => (None, Some o)) outputs
        ++ map (fun io => (Some (fst io), Some (snd io))) (product inputs outputs)
      /\ length table = length inputs + length outputs + length inputs * length outputs
      /\ Forall (fun node_path => NodePathStruct.node_name node_path = name
                                  /\ NodePathStruct.child node_path = None) table)
  /\ (forall (node : NodeStruct.t) (sub : SubscriptionStruct.t) (pub : PublisherStruct.t),
      SubscriptionsStruct.as_list (NodeStruct.subscriptions node) = [sub] ->
      PublishersStruct.as_list (NodeStruct.publishers node) = [pub] ->
      SubscriptionStruct.topic_name sub = "/in" ->
      PublisherStruct.topic_name pub = "/out" ->
      NodeStruct.tf_buffer node = None ->
      NodeStruct.tf_broadcaster node = None ->
      map endpoints (NodePathsStruct_create_from_reader node) =
        [ (Some (InSubscription sub), None);
          (None, Some (OutPublisher pub));
          (Some (InSubscription sub), Some (OutPublisher pub)) ]).
Proof.
  split.
  - intros node name inputs outputs table. subst table.
    unfold NodePathsStruct_create_from_reader. fold name inputs outputs.
    rewrite create_table_eq. split; [| split].
    + rewrite !map_app, !map_map. reflexivity.
    + rewrite !length_app, !length_map, product_length. lia.
    + rewrite !Forall_app, !Forall_fmap. repeat split; by apply Forall_true.
  - intros node sub pub Hsubs Hpubs Hin Hout Hbuf Hbr.
    unfold NodePathsStruct_create_from_reader. rewrite create_table_eq.
    unfold NodeStruct.node_inputs, NodeStruct.node_outputs.
    rewrite Hsubs, Hpubs, Hbuf, Hbr. unfold Util.filter_items. simpl. rewrite Hout.
    change (negb ("/out" =? "/tf")%string) with true. cbv iota. simpl. rewrite Hout.
    change (negb (endswith "/out" "/info/pub")) with true. reflexivity.
Qed.

Definition node_N : NodeStruct.t :=
  plain_node "N" [PublisherStruct.mk "N" "/out" None]
    [SubscriptionStruct.init "N" "/in" None].

Lemma node_path_table_entries_witness :
  length (NodePathsStruct_create_from_reader node_N) = 3
  /\ map endpoints (NodePathsStruct_create_from_reader node_N) =
     [ (Some (InSubscription (SubscriptionStruct.init "N" "/in" None)), None);
       (None, Some (OutPublisher (PublisherStruct.mk "N" "/out" None)));
       (Some (InSubscription (SubscriptionStruct.init "N" "/in" None)),
        Some (OutPublisher (PublisherStruct.mk "N" "/out" None))) ].
Proof.
  split.
  - destruct (proj1 (@node_path_table_entries no_external) node_N) as (_ & Hlen & _).
    rewrite Hlen. reflexivity.
  - apply (proj2 (@node_path_table_entries no_external) node_N); reflexivity.
Defined.

Lemma tf_excluded_from_outputs_not_inputs_witness :
  OutPublisher (PublisherStruct.mk "N" "/out" None) ∈ NodeStruct.node_outputs node_N
  /\ OutPublisher (PublisherStruct.mk "N" "/tf" None) ∉
       NodeStruct.node_outputs
         (plain_node "N" [PublisherStruct.mk "N" "/tf" None; PublisherStruct.mk "N" "/out" None] []).
Proof.
  split.
  - apply (proj1 (@tf_excluded_from_outputs_not_inputs no_external) node_N).
    split; [| split].
    + simpl. apply list_elem_of_here.
    + discriminate.
    + intros Hex. apply endswith_spec in Hex. discriminate.
  - intros Hin.
    apply (proj1 (@tf_excluded_from_outputs_not_inputs no_external)) in Hin
      as (_ & Htf & _).
    apply Htf. reflexivity.
Defined.

(** ** struct/node.py: [NodesStruct] *)

Module NodesStruct.

(** [_data]: a dict from node id to node, in insertion order. *)
Definition t `{External} : Type := list (string * NodeStruct.t).

Section Methods.
Context `{External}.

Fixpoint dict_set (d : t) (k : string) (v : NodeStruct.t) : t :=
  match d with
  | [] => [(k, v)]
  | (k', v') :: d' =>
      if String.eqb k' k then (k', v) :: d' else (k', v') :: dict_set d' k v
  end.

Definition insert (self : t) (node : NodeStruct.t) : t :=
  dict_set self (NodeStruct.node_id node) node.

Definition add (self : t) (nodes : list NodeStruct.t) : t :=
  fold_left insert nodes self.

(** [__iter__]: the values of the dict. *)
Definition iter (self : t) : list NodeStruct.t := map snd self.

End Methods.

End NodesStruct.

(** ** struct/communication.py *)

Module CommunicationStruct.

Record t `{External} : Type := mk {
  _sub : SubscriptionStruct.t;
  _pub : PublisherStruct.t;
  _node_pub : NodeStruct.t;
  _node_sub : NodeStruct.t;
  _callback_pub : option CallbacksStruct.t;
  _callback_sub : option CallbackStruct.t;
}.

Section Methods.
Context `{External}.

(** [__init__(self, nodes, pub, sub, node_pub, node_sub)]; [nodes] is
    not kept, the two callback attributes are set to [None]. *)
Definition init (nodes : NodesStruct.t) (pub : PublisherStruct.t)
    (sub : SubscriptionStruct.t) (node_pub node_sub : NodeStruct.t) : t :=
  mk _ sub pub node_pub node_sub None None.

Definition publisher (self : t) : PublisherStruct.t := _pub self.
Definition subscription (self : t) : SubscriptionStruct.t := _sub self.
Definition node_pub (self : t) : NodeStruct.t := _node_pub self.
Definition node_sub (self : t) : NodeStruct.t := _node_sub self.

End Methods.

End CommunicationStruct.

Module TransformCommunicationStruct.

Record t : Type := mk {
  broadcaster : TransformFrameBroadcasterStruct.t;
  buffer : TransformFrameBufferStruct.t;
}.

End TransformCommunicationStruct.

Inductive CommunicationEntry `{External} : Type :=
  | Communication (comm : CommunicationStruct.t)
  | TransformCommunication (comm : TransformCommunicationStruct.t).

Module CommunicationsStruct.

Section Methods.
Context `{External}.

(** The body of the inner loop.  The state is the list [data] and
    the local variable [comm], which keeps its value from one
    iteration to the next and is unbound at first. *)
Definition pair_step (nodes : NodesStruct.t) (node_recv node_send : NodeStruct.t)
    (state : list CommunicationEntry * option CommunicationEntry)
    (io : NodeInputType * NodeOutputType)
  : result (list CommunicationEntry * option CommunicationEntry) :=
  let '(data, comm) := state in
  let '(node_input, node_output) := io in
  if negb (NodeInputType_is_pair node_input (output_object node_output)) then Ok state
  else
    let comm :=
      match node_input, node_output with
      | InFrameBuffer buf, OutFrameBroadcaster br =>
          Some (TransformCommunication (TransformCommunicationStruct.mk br buf))
      | InSubscription sub, OutPublisher pub =>
          Some (Communication (CommunicationStruct.init nodes pub sub node_recv node_send))
      | _, _ => comm
      end in
    match comm with
    | Some c => Ok (data ++ [c], comm)
    | None => Raise (UnboundLocalError "comm")
    end.

Definition node_pair_step (nodes : NodesStruct.t)
    (state : list CommunicationEntry * option CommunicationEntry)
    (pair : NodeStruct.t * NodeStruct.t)
  : result (list CommunicationEntry * option CommunicationEntry) :=
  let '(node_recv, node_send) := pair in
  fold_left
    (fun acc io => state ← acc; pair_step nodes node_recv node_send state io)
    (product (NodeStruct.node_inputs node_recv) (NodeStruct.node_outputs node_send))
    (Ok state).

(** [__init__]: the resulting [_data]. *)
Definition init (nodes : NodesStruct.t) : result (list CommunicationEntry) :=
  state ← fold_left
            (fun acc pair => state ← acc; node_pair_step nodes state pair)
            (product (NodesStruct.iter nodes) (NodesStruct.iter nodes))
            (Ok ([], None));
  Ok (fst state).

End Methods.

End CommunicationsStruct.

(** *** The communications as one comprehension *)

Definition pairing `{External} (nodes : NodesStruct.t) (node_recv node_send : NodeStruct.t)
    (io : NodeInputType * NodeOutputType) : list CommunicationEntry :=
  match io with
  | (InSubscription sub, OutPublisher pub) =>
      if String.eqb (PublisherStruct.topic_name pub) (SubscriptionStruct.topic_name sub)
      then [Communication (CommunicationStruct.init nodes pub sub node_recv node_send)]
      else []
  | (InFrameBuffer buf, OutFrameBroadcaster br) =>
      if TransformFrameBufferStruct_is_pair buf (ObjFrameBroadcaster br)
      then [TransformCommunication (TransformCommunicationStruct.mk br buf)]
      else []
  | _ => []
  end.

Definition communications_of `{External} (nodes : NodesStruct.t) : list CommunicationEntry :=
  flat_map
    (fun pair : NodeStruct.t * NodeStruct.t =>
       flat_map (pairing nodes (fst pair) (snd pair))
         (product (NodeStruct.node_inputs (fst pair)) (NodeStruct.node_outputs (snd pair))))
    (product (NodesStruct.iter nodes) (NodesStruct.iter nodes)).

Lemma pair_step_pairing `{External} (nodes : NodesStruct.t) (node_recv node_send : NodeStruct.t)
    (data : list CommunicationEntry) (comm : option CommunicationEntry)
    (io : NodeInputType * NodeOutputType) :
  exists comm',
    CommunicationsStruct.pair_step nodes node_recv node_send (data, comm) io =
    Ok (data ++ pairing nodes node_recv node_send io, comm').
Proof.
  destruct io as [[sub | buf] [pub | br]]; unfold CommunicationsStruct.pair_step, pairing; simpl.
  - destruct (String.eqb _ _); simpl; eexists; [reflexivity | by rewrite app_nil_r].
  - eexists. by rewrite app_nil_r.
  - eexists. by rewrite app_nil_r.
  - destruct (TransformTreeValue.is_in _ _ _); simpl; eexists;
      [reflexivity | by rewrite app_nil_r].
Qed.

Lemma node_pair_step_pairing `{External} (nodes : NodesStruct.t)
    (node_recv node_send : NodeStruct.t) (ios : list (NodeInputType * NodeOutputType)) :
  forall (data : list CommunicationEntry) (comm : option CommunicationEntry),
  exists comm',
    fold_left
      (fun acc io => state ← acc; CommunicationsStruct.pair_step nodes node_recv node_send state io)
      ios (Ok (data, comm)) =
    Ok (data ++ flat_map (pairing nodes node_recv node_send) ios, comm').
Proof.
  induction ios as [| io ios IH]; intros data comm; cbn [fold_left flat_map].
  - exists comm. by rewrite app_nil_r.
  - destruct (pair_step_pairing nodes node_recv node_send data comm io) as [comm1 Hstep].
    change (Ok (data, comm) ≫= _) with
      (CommunicationsStruct.pair_step nodes node_recv node_send (data, comm) io).
    rewrite Hstep.
    destruct (IH (data ++ pairing nodes node_recv node_send io) comm1) as [comm2 Hrest].
    exists comm2. rewrite Hrest. by rewrite <- app_assoc.
Qed.

(** The constructor never raises: it returns one entry per accepted
    (input, output) pair, in loop order. *)
Lemma CommunicationsStruct_init_eq `{External} (nodes : NodesStruct.t) :
  CommunicationsStruct.init nodes = Ok (communications_of nodes).
Proof.
  unfold CommunicationsStruct.init, communications_of.
  generalize (product (NodesStruct.iter nodes) (NodesStruct.iter nodes)) as pairs.
  intros pairs.
  assert (Hgen : forall (data : list CommunicationEntry) (comm : option CommunicationEntry),
             exists comm',
               fold_left
                 (fun acc pair => state ← acc; CommunicationsStruct.node_pair_step nodes state pair)
                 pairs (Ok (data, comm)) =
               Ok (data ++
                   flat_map
                     (fun pair : NodeStruct.t * NodeStruct.t =>
                        flat_map (pairing nodes (fst pair) (snd pair))
                          (product (NodeStruct.node_inputs (fst pair))
                                   (NodeStruct.node_outputs (snd pair))))
                     pairs, comm')).
  { induction pairs as [| [node_recv node_send] pairs IH]; intros data comm;
      cbn [fold_left flat_map fst snd].
    - exists comm. by rewrite app_nil_r.
    - change (Ok (data, comm) ≫= _) with
        (CommunicationsStruct.node_pair_step nodes (data, comm) (node_recv, node_send)).
      destruct (node_pair_step_pairing nodes node_recv node_send
                  (product (NodeStruct.node_inputs node_recv) (NodeStruct.node_outputs node_send))
                  data comm) as [comm1 Hstep].
      change (CommunicationsStruct.node_pair_step nodes (data, comm) (node_recv, node_send))
        with (fold_left
                (fun acc io =>
                   state ← acc; CommunicationsStruct.pair_step nodes node_recv node_send state io)
                (product (NodeStruct.node_inputs node_recv) (NodeStruct.node_outputs node_send))
                (Ok (data, comm))).
      rewrite Hstep.
      destruct (IH (data ++ flat_map (pairing nodes node_recv node_send)
                              (product (NodeStruct.node_inputs node_recv)
                                       (NodeStruct.node_outputs node_send))) comm1)
        as [comm2 Hrest].
      exists comm2. rewrite Hrest. by rewrite <- app_assoc. }
  destruct (Hgen [] None) as [comm' Heq]. rewrite Heq. reflexivity.
Qed.

(** [CommunicationStructValue] (value_objects/communication.py) is built
    from six positional arguments; the record keeps them in the order of
    the call in [CommunicationStruct.to_value]. *)
Module CommunicationStructValue.
Record t `{External} : Type := mk {
  node_pub_value : NodeStructValue.t;
  node_sub_value : NodeStructValue.t;
  publisher_value : PublisherStructValue.t;
  subscription_value : SubscriptionStructValue.t;
  callbacks_pub : option (list CallbackStructValue);
  callback_sub : option CallbackStructValue;
}.
End CommunicationStructValue.

(** [CommunicationStruct.to_value]; the marks that the conversion leaves
    on the nodes and on the subscription are not kept here. *)
Definition CommunicationStruct_to_value `{External} (self : CommunicationStruct.t)
  : result CommunicationStructValue.t :=
  let callbacks_pub := option_map CallbacksStruct.to_value (CommunicationStruct._callback_pub self) in
  let callback_sub := option_map CallbackStruct.to_value (CommunicationStruct._callback_sub self) in
  node_pub_v ← fst (NodeStruct.to_value (CommunicationStruct.node_pub self));
  node_sub_v ← fst (NodeStruct.to_value (CommunicationStruct.node_sub self));
  Ok (CommunicationStructValue.mk _ node_pub_v node_sub_v
        (fst (PublisherStruct.to_value (CommunicationStruct.publisher self)))
        (fst (SubscriptionStruct.to_value (CommunicationStruct.subscription self)))
        callbacks_pub callback_sub).

(** The scenario of section 8: Producer publishes "/chatter", Consumer
    subscribes to it. *)
Definition chatter_pub : PublisherStruct.t := PublisherStruct.mk "Producer" "/chatter" None.
Definition chatter_sub : SubscriptionStruct.t := SubscriptionStruct.init "Consumer" "/chatter" None.
Definition producer_node : NodeStruct.t := plain_node "Producer" [chatter_pub] [].
Definition consumer_node : NodeStruct.t := plain_node "Consumer" [] [chatter_sub].

Definition chatter_nodes : NodesStruct.t :=
  NodesStruct.add [] [producer_node; consumer_node].

(** The same with the publisher declared twice on Producer. *)
Definition chatter_nodes_duplicated : NodesStruct.t :=
  NodesStruct.add [] [plain_node "Producer" [chatter_pub; chatter_pub] []; consumer_node].

(** C1, as amended: [CommunicationsStruct] builds one entry for every
    (node input, node output) pair, over all ordered pairs of nodes, whose
    input-side [is_pair] holds, and drops none of them.  For two nodes
    with different ids where Producer has no input and a single output, a
    publisher, and Consumer has no output and a single input, a
    subscription on the same topic, the result is exactly one
    Communication, the one that pairs that publisher with that
    subscription; in the "/chatter" scenario it converts to a value whose
    publisher and subscription are on topic "/chatter". *)
Theorem communications_one_per_pair `{External} :
  (forall nodes : NodesStruct.t,
      CommunicationsStruct.init nodes = Ok (communications_of nodes))
  /\ (forall (producer consumer : NodeStruct.t) (pub : PublisherStruct.t)
        (sub : SubscriptionStruct.t),
      NodeStruct.node_id producer <> NodeStruct.node_id consumer ->
      NodeStruct.node_inputs producer = [] ->
      NodeStruct.node_outputs producer = [OutPublisher pub] ->
      NodeStruct.node_inputs consumer = [InSubscription sub] ->
      NodeStruct.node_outputs consumer = [] ->
      PublisherStruct.topic_name pub = SubscriptionStruct.topic_name sub ->
      exists comm : CommunicationStruct.t,
        CommunicationsStruct.init (NodesStruct.add [] [producer; consumer])
          = Ok [Communication comm]
        /\ CommunicationStruct.publisher comm = pub
        /\ CommunicationStruct.subscription comm = sub)
  /\ (exists (comm : CommunicationStruct.t) (value : CommunicationStructValue.t),
        CommunicationsStruct.init chatter_nodes = Ok [Communication comm]
        /\ CommunicationStruct_to_value comm = Ok value
        /\ PublisherStructValue.topic_name (CommunicationStructValue.publisher_value value)
           = "/chatter"
        /\ SubscriptionStructValue.topic_name (CommunicationStructValue.subscription_value value)
           = "/chatter").
Proof.
  split; [apply CommunicationsStruct_init_eq |]. split.
  - intros producer consumer pub sub Hid Hpi Hpo Hci Hco Htopic.
    rewrite CommunicationsStruct_init_eq.
    unfold communications_of, NodesStruct.add, NodesStruct.insert. simpl.
    apply String.eqb_neq in Hid. rewrite Hid. simpl.
    rewrite Hpi, Hpo, Hci, Hco. simpl.
    rewrite Htopic, String.eqb_refl. simpl.
    eexists. split; [reflexivity |]. split; reflexivity.
  - eexists. eexists. split; [vm_compute; reflexivity |].
    split; [vm_compute; reflexivity |]. split; reflexivity.
Qed.

Lemma communications_one_per_pair_witness :
  exists comm : CommunicationStruct.t,
    CommunicationsStruct.init chatter_nodes = Ok [Communication comm]
    /\ CommunicationStruct.publisher comm = chatter_pub
    /\ CommunicationStruct.subscription comm = chatter_sub.
Proof.
  apply (proj1 (proj2 (@communications_one_per_pair no_external)) producer_node consumer_node);
    (reflexivity || discriminate).
Defined.

(** The call [CommunicationStruct(nodes, node_output, node_input, node_recv,
    node_send)] binds the parameter [node_pub] to the receiving node and
    [node_sub] to the sending node. *)
Lemma chatter_communication_node_pub :
  exists comm : CommunicationStruct.t,
    CommunicationsStruct.init chatter_nodes = Ok [Communication comm]
    /\ NodeStruct.node_name (CommunicationStruct.node_pub comm) = "Consumer"
    /\ NodeStruct.node_name (CommunicationStruct.node_sub comm) = "Producer".
Proof.
  eexists. split; [vm_compute; reflexivity |]. split; reflexivity.
Qed.

(** A pairing that occurs twice is kept twice. *)
Lemma communications_duplicate_pairing_kept :
  exists comm : CommunicationStruct.t,
    CommunicationsStruct.init chatter_nodes_duplicated
      = Ok [Communication comm; Communication comm]
    /\ CommunicationStruct.publisher comm = chatter_pub
    /\ CommunicationStruct.subscription comm = chatter_sub.
Proof.
  eexists. split; [vm_compute; reflexivity |]. split; reflexivity.
Qed.

(** ** graph_search/callback_graph.py: [CallbackPathSearcher.search] *)

(** A Python sequence is a tuple or a list; [==] tells them apart. *)
Inductive PySeq (A : Type) : Type :=
  | PyTuple (items : list A)
  | PyList (items : list A).

Arguments PyTuple {A} items.
Arguments PyList {A} items.

Definition seq_items {A : Type} (s : PySeq A) : list A :=
  match s with PyTuple items | PyList items => items end.

(** [x or []]: [None] and empty sequences are falsy. *)
Definition or_empty_list {A : Type} (x : option (PySeq A)) : PySeq A :=
  match x with
  | Some s => match seq_items s with [] => PyList [] | _ :: _ => s end
  | None => PyList []
  end.

(** [s == ()]. *)
Definition eq_empty_tuple {A : Type} (s : PySeq A) : bool :=
  match s with PyTuple [] => true | _ => false end.

(** The outputs a callback declares: none when the attribute is [None]. *)
Definition declared_outputs {A : Type} (x : option (PySeq A)) : list A :=
  match x with Some s => seq_items s | None => [] end.

(** [CallbackStructInterface] declares [node_input] and [node_outputs] as
    properties whose body is [pass]; [CallbackStruct] and its subclasses do
    not override them, so on a [CallbackStruct] both evaluate to [None]. *)
Definition CallbackStruct_node_input (self : CallbackStruct.t) : option NodeInputType := None.

Definition CallbackStruct_node_outputs (self : CallbackStruct.t)
  : option (PySeq NodeOutputType) := None.

Module CallbackPathSearcher.

Definition _to_node_point_name (callback_name read_or_write : string) : string :=
  String.append callback_name (String.append "@" read_or_write).

Section Search.

(** [Graph] (graph_search/graph_search.py) is outside the available
    sources: [search_paths] stands for [self._graph.search_paths] on
    the names of the two graph nodes.  The two accessors are those of
    the callback interface. *)
Context {GraphPath : Type}.
Variable search_paths : string -> string -> list GraphPath.
Variable node_input : CallbackStruct.t -> option NodeInputType.
Variable node_outputs : CallbackStruct.t -> option (PySeq NodeOutputType).

(** One call [self._to_path(graph_path, in_value, out_value)]. *)
Definition to_path_call : Type :=
  GraphPath * option NodeInputType * option NodeOutputType.

(** [search]: the calls of [_to_path] it makes, in order; each call
    yields one NodePath. *)
Definition search (start_callback end_callback : CallbackStruct.t) : list to_path_call :=
  let start_name := _to_node_point_name (CallbackStruct.callback_name start_callback) "read" in
  let end_name := _to_node_point_name (CallbackStruct.callback_name end_callback) "write" in
  let graph_paths := search_paths start_name end_name in
  flat_map
    (fun graph_path =>
       let in_value := node_input start_callback in
       let out_values := or_empty_list (node_outputs end_callback) in
       (if eq_empty_tuple out_values then [(graph_path, in_value, None)] else [])
       ++ map (fun out_value => (graph_path, in_value, Some out_value)) (seq_items out_values))
    graph_paths.

End Search.

End CallbackPathSearcher.

Lemma or_empty_list_not_empty_tuple {A : Type} (x : option (PySeq A)) :
  eq_empty_tuple (or_empty_list x) = false.
Proof. destruct x as [[[| a l] | [| a l]] |]; reflexivity. Qed.

Lemma or_empty_list_items {A : Type} (x : option (PySeq A)) :
  seq_items (or_empty_list x) = declared_outputs x.
Proof. destruct x as [[[| a l] | [| a l]] |]; reflexivity. Qed.

(** The expansion of the chains: one call per declared output of the end
    callback, and nothing else. *)
Lemma search_expansion {GraphPath : Type} (search_paths : string -> string -> list GraphPath)
    (node_input : CallbackStruct.t -> option NodeInputType)
    (node_outputs : CallbackStruct.t -> option (PySeq NodeOutputType))
    (start_callback end_callback : CallbackStruct.t) :
  CallbackPathSearcher.search search_paths node_input node_outputs start_callback end_callback =
  flat_map
    (fun graph_path =>
       map (fun out_value => (graph_path, node_input start_callback, Some out_value))
           (declared_outputs (node_outputs end_callback)))
    (search_paths
       (CallbackPathSearcher._to_node_point_name (CallbackStruct.callback_name start_callback) "read")
       (CallbackPathSearcher._to_node_point_name (CallbackStruct.callback_name end_callback) "write")).
Proof.
  unfold CallbackPathSearcher.search. cbv zeta.
  rewrite or_empty_list_not_empty_tuple, or_empty_list_items. reflexivity.
Qed.

(** A timer callback and a one-chain search result for it. *)
Definition timer_cb : CallbackStruct.t :=
  CallbackStruct.mk "/node/callback_0" "cb0" "/node" "sym" None (CallbackStruct.Timer 100).

Definition one_chain (start_name end_name : string) : list (list string) :=
  [[start_name; end_name]].

(** C4 on the code: every chain is expanded over the start callback's
    input and the declared outputs of the end callback, but a chain whose
    end callback declares no outputs yields no call of [_to_path] at all:
    [out_values] has been replaced by [[]], which is neither [None] nor
    equal to [()].  On the timer callback the one chain found is
    dropped. *)
Theorem search_drops_chain_without_outputs :
  (forall (GraphPath : Type) (search_paths : string -> string -> list GraphPath)
      (node_input : CallbackStruct.t -> option NodeInputType)
      (node_outputs : CallbackStruct.t -> option (PySeq NodeOutputType))
      (start_callback end_callback : CallbackStruct.t),
      CallbackPathSearcher.search search_paths node_input node_outputs start_callback end_callback =
      flat_map
        (fun graph_path =>
           map (fun out_value => (graph_path, node_input start_callback, Some out_value))
               (declared_outputs (node_outputs end_callback)))
        (search_paths
           (CallbackPathSearcher._to_node_point_name
              (CallbackStruct.callback_name start_callback) "read")
           (CallbackPathSearcher._to_node_point_name
              (CallbackStruct.callback_name end_callback) "write")))
  /\ one_chain "/node/callback_0@read" "/node/callback_0@write"
       = [["/node/callback_0@read"; "/node/callback_0@write"]]
  /\ CallbackPathSearcher.search one_chain CallbackStruct_node_input CallbackStruct_node_outputs
       timer_cb timer_cb = [].
Proof.
  split; [| split].
  - intros. apply search_expansion.
  - reflexivity.
  - vm_compute. reflexivity.
Qed.

(** ** architecture_loaded.py: [TopicIgnoredReader] *)

Module SubscriptionCallbackValue.
Record t : Type := mk {
  callback_id : option string;
  node_name : string;
  symbol : string;
  subscribe_topic_name : string;
  publish_topic_names : option (list string);
  callback_name : option string;
}.
End SubscriptionCallbackValue.

Module CallbackGroupValue.
Record t : Type := mk {
  callback_group_type_name : string;
  node_name : string;
  node_id : string;
  callback_ids : list string;
  callback_group_id : string;
  callback_group_name : option string;
}.
End CallbackGroupValue.

(** The part of the reader interface (reader_interface.py) that the
    filtering reader calls. *)
Module ArchitectureReader.
Record t : Type := mk {
  get_nodes : list NodeValue.t;
  _get_publishers : NodeValue.t -> list PublisherValue.t;
  _get_subscriptions : NodeValue.t -> list SubscriptionValue.t;
  _get_callback_groups : NodeValue.t -> list CallbackGroupValue.t;
  _get_subscription_callbacks : NodeValue.t -> list SubscriptionCallbackValue.t;
}.
End ArchitectureReader.

(** The text of a list of strings inside an f-string (names without
    quote or escape characters). *)
Definition repr_str_list (l : list string) : string :=
  String.concat ""
    ["["; String.concat ", " (map (fun x => String.concat "" ["'"; x; "'"]) l); "]"].

(** [x in l] on a list of strings. *)
Definition str_in (x : string) (l : list string) : bool :=
  existsb (String.eqb x) l.

(** [sorted(l, key=...)] on string keys: a stable sort. *)
Fixpoint insert_sorted {A : Type} (key : A -> string) (x : A) (l : list A) : list A :=
  match l with
  | [] => [x]
  | y :: l' =>
      if String.ltb (key y) (key x) then y :: insert_sorted key x l' else x :: y :: l'
  end.

Definition sorted {A : Type} (key : A -> string) (l : list A) : list A :=
  fold_right (insert_sorted key) [] l.

Module TopicIgnoredReader.

(** [_get_ignore_callback_ids]. *)
Definition _get_ignore_callback_ids (reader : ArchitectureReader.t)
    (ignore_topics : list string) : gset string :=
  let ignore_topic_set : gset string := list_to_set ignore_topics in
  let ignore_callback_ids :=
    fold_left
      (fun ignore_callback_ids node =>
         fold_left
           (fun ignore_callback_ids sub_val =>
              if negb (bool_decide
                         (SubscriptionCallbackValue.subscribe_topic_name sub_val
                            ∈ ignore_topic_set))
              then ignore_callback_ids
              else
                match SubscriptionCallbackValue.callback_id sub_val with
                | None => ignore_callback_ids
                | Some callback_id => ignore_callback_ids ++ [callback_id]
                end)
           (ArchitectureReader._get_subscription_callbacks reader node)
           ignore_callback_ids)
      (ArchitectureReader.get_nodes reader) [] in
  list_to_set ignore_callback_ids.

Record t : Type := mk {
  _reader : ArchitectureReader.t;
  _ignore_topics : list string;
  _ignore_callback_ids : gset string;
}.

Definition init (reader : ArchitectureReader.t) (ignore_topics : list string) : t :=
  mk reader ignore_topics (_get_ignore_callback_ids reader ignore_topics).

Definition _get_publishers (self : t) (node : NodeValue.t) : list PublisherValue.t :=
  fold_left
    (fun publishers publisher =>
       if str_in (PublisherValue.topic_name publisher) (_ignore_topics self) then publishers
       else publishers ++ [publisher])
    (ArchitectureReader._get_publishers (_reader self) node) [].

Definition _get_subscriptions (self : t) (node : NodeValue.t) : list SubscriptionValue.t :=
  fold_left
    (fun subscriptions subscription =>
       if str_in (SubscriptionValue.topic_name subscription) (_ignore_topics self)
       then subscriptions
       else subscriptions ++ [subscription])
    (ArchitectureReader._get_subscriptions (_reader self) node) [].

Definition _get_callback_groups (self : t) (node : NodeValue.t) : list CallbackGroupValue.t :=
  map
    (fun cbg =>
       CallbackGroupValue.mk
         (CallbackGroupValue.callback_group_type_name cbg)
         (CallbackGroupValue.node_name cbg)
         (CallbackGroupValue.node_id cbg)
         (elements ((list_to_set (CallbackGroupValue.callback_ids cbg) : gset string)
                      ∖ _ignore_callback_ids self))
         (CallbackGroupValue.callback_group_id cbg)
         (CallbackGroupValue.callback_group_name cbg))
    (ArchitectureReader._get_callback_groups (_reader self) node).

Definition _get_subscription_callbacks (self : t) (node : NodeValue.t)
  : list SubscriptionCallbackValue.t :=
  fold_left
    (fun callbacks subscription_callback =>
       if str_in (SubscriptionCallbackValue.subscribe_topic_name subscription_callback)
                 (_ignore_topics self)
       then callbacks
       else callbacks ++ [subscription_callback])
    (ArchitectureReader._get_subscription_callbacks (_reader self) node) [].

(** [_validate]: raises when a run of [groupby] over the node names, in
    reader order, has two or more members. *)
Definition _validate (nodes : list NodeValue.t) : result unit :=
  let node_names := map NodeValue.node_name nodes in
  let duplicated :=
    fold_left
      (fun duplicated run =>
         if (2 <=? length (snd run))%nat then duplicated ++ [fst run] else duplicated)
      (groupby (fun n : string => n) node_names) [] in
  if (1 <=? length duplicated)%nat
  then Raise (InvalidReaderError
                (String.concat ""
                   ["Duplicated node name. "; repr_str_list duplicated;
                    ". Use first node only."]))
  else Ok tt.

(** The first loop of [get_nodes]: [nodes_] and the set [node_names]. *)
Definition first_by_name (nodes : list NodeValue.t) : list NodeValue.t * gset string :=
  fold_left
    (fun (state : list NodeValue.t * gset string) node =>
       let '(nodes_, node_names) := state in
       if negb (bool_decide (NodeValue.node_name node ∈ node_names))
       then (nodes_ ++ [node], {[ NodeValue.node_name node ]} ∪ node_names)
       else state)
    nodes ([], ∅).

(** [get_nodes]: the value returned (or the exception that leaves the
    function) and the warnings logged.  An [InvalidReaderError] of
    [_validate] is caught and logged. *)
Definition get_nodes (self : t) : result (list NodeValue.t) * list PyError :=
  let nodes := ArchitectureReader.get_nodes (_reader self) in
  let nodes_ := fst (first_by_name nodes) in
  match _validate nodes with
  | Raise (InvalidReaderError msg) =>
      (Ok (sorted NodeValue.node_name nodes_), [InvalidReaderError msg])
  | Raise e => (Raise e, [])
  | Ok _ => (Ok (sorted NodeValue.node_name nodes_), [])
  end.

End TopicIgnoredReader.

(** *** De-duplication of the nodes *)

(** The nodes of [l] that are the first of their name, names in [seen]
    counting as already met. *)
Fixpoint first_occurrences (seen : list string) (l : list NodeValue.t) : list NodeValue.t :=
  match l with
  | [] => []
  | n :: l' =>
      if str_in (NodeValue.node_name n) seen then first_occurrences seen l'
      else n :: first_occurrences (NodeValue.node_name n :: seen) l'
  end.

(** Two equal names next to each other. *)
Fixpoint has_adjacent_dup (names : list string) : bool :=
  match names with
  | a :: (b :: _) as rest => String.eqb a b || has_adjacent_dup rest
  | _ => false
  end.

Lemma str_in_spec (x : string) (l : list string) : str_in x l = true <-> x ∈ l.
Proof.
  unfold str_in. rewrite existsb_exists. split.
  - intros (y & Hin & Heq). apply String.eqb_eq in Heq. subst. by apply list_elem_of_In.
  - intros Hin. exists x. split; [by apply list_elem_of_In | apply String.eqb_refl].
Qed.

Lemma first_by_name_fold (l : list NodeValue.t) :
  forall (acc : list NodeValue.t) (seen : list string),
    fst (fold_left
           (fun (state : list NodeValue.t * gset string) node =>
              let '(nodes_, node_names) := state in
              if negb (bool_decide (NodeValue.node_name node ∈ node_names))
              then (nodes_ ++ [node], {[ NodeValue.node_name node ]} ∪ node_names)
              else state)
           l (acc, list_to_set seen))
    = acc ++ first_occurrences seen l.
Proof.
  induction l as [| n l IH]; intros acc seen; simpl.
  - by rewrite app_nil_r.
  - destruct (str_in (NodeValue.node_name n) seen) eqn:Hin.
    + apply str_in_spec in Hin.
      rewrite bool_decide_eq_true_2 by set_solver. simpl. apply IH.
    + assert (Hnot : NodeValue.node_name n ∉ seen).
      { intros H. apply str_in_spec in H. congruence. }
      rewrite bool_decide_eq_false_2 by set_solver. simpl.
      change ({[NodeValue.node_name n]} ∪ list_to_set seen : gset string)
        with (list_to_set (NodeValue.node_name n :: seen) : gset string).
      rewrite IH, <- app_assoc. reflexivity.
Qed.

Lemma first_by_name_first_occurrences (nodes : list NodeValue.t) :
  fst (TopicIgnoredReader.first_by_name nodes) = first_occurrences [] nodes.
Proof.
  unfold TopicIgnoredReader.first_by_name.
  change (∅ : gset string) with (list_to_set [] : gset string).
  by rewrite first_by_name_fold.
Qed.

Lemma first_occurrences_spec (l : list NodeValue.t) :
  forall (seen : list string) (n : NodeValue.t),
    n ∈ first_occurrences seen l <->
    ((NodeValue.node_name n ∉ seen)
     /\ List.find (fun m => String.eqb (NodeValue.node_name m) (NodeValue.node_name n)) l
        = Some n).
Proof.
  induction l as [| n0 l IH]; intros seen n; simpl.
  - split; [intros H; inversion H | intros [_ H]; discriminate].
  - destruct (str_in (NodeValue.node_name n0) seen) eqn:Hin.
    + apply str_in_spec in Hin. rewrite IH.
      destruct (String.eqb_spec (NodeValue.node_name n0) (NodeValue.node_name n)) as [Heq | Hne].
      * rewrite <- Heq. split; intros [Hnot _]; contradiction.
      * reflexivity.
    + assert (Hnot : NodeValue.node_name n0 ∉ seen).
      { intros H. apply str_in_spec in H. congruence. }
      rewrite elem_of_cons, IH, not_elem_of_cons.
      destruct (String.eqb_spec (NodeValue.node_name n0) (NodeValue.node_name n)) as [Heq | Hne].
      * split.
        -- intros [-> | [[Hne _] _]].
           ++ split; done.
           ++ congruence.
        -- intros [_ Hsome]. left. congruence.
      * split.
        -- intros [-> | [[_ Hseen] Hfind]].
           ++ congruence.
           ++ split; done.
        -- intros [Hseen Hfind]. right. repeat split; (congruence || done).
Qed.

Lemma first_occurrences_NoDup (l : list NodeValue.t) :
  forall seen : list string, NoDup (map NodeValue.node_name (first_occurrences seen l)).
Proof.
  induction l as [| n0 l IH]; intros seen; simpl.
  - constructor.
  - destruct (str_in (NodeValue.node_name n0) seen); [apply IH |].
    simpl. constructor; [| apply IH].
    intros Hin. apply list_elem_of_fmap in Hin as (m & Heq & Hm).
    apply first_occurrences_spec in Hm as [Hnot _].
    apply Hnot. rewrite <- Heq. apply list_elem_of_here.
Qed.

Lemma insert_sorted_Permutation {A : Type} (key : A -> string) (x : A) (l : list A) :
  insert_sorted key x l ≡ₚ x :: l.
Proof.
  induction l as [| y l IH]; simpl; [done |].
  destruct (String.ltb (key y) (key x)); [| done].
  rewrite IH. apply Permutation_swap.
Qed.

Lemma sorted_Permutation {A : Type} (key : A -> string) (l : list A) :
  sorted key l ≡ₚ l.
Proof.
  induction l as [| x l IH]; simpl; [done |].
  rewrite insert_sorted_Permutation. by rewrite IH.
Qed.

Lemma groupby_adjacent (names : list string) :
  existsb (fun run : string * list string => (2 <=? length (snd run))%nat)
          (groupby (fun n : string => n) names)
  = has_adjacent_dup names
  /\ match groupby (fun n : string => n) names with
     | [] => names = []
     | (k, g) :: _ => g <> [] /\ exists rest, names = k :: rest
     end.
Proof.
  induction names as [| x names [IHe IHs]]; [by split |].
  cbn [groupby].
  destruct (groupby (fun n : string => n) names) as [| [k g] runs] eqn:Hg.
  - subst names. by split; [| split; [| exists []]].
  - destruct IHs as [Hne [rest ->]]. split.
    + change (has_adjacent_dup (x :: k :: rest))
        with (String.eqb x k || has_adjacent_dup (k :: rest)).
      rewrite <- IHe.
      destruct (decide (x = k)) as [-> | Hxk].
      * rewrite String.eqb_refl. destruct g as [| y g]; [done |]. reflexivity.
      * apply String.eqb_neq in Hxk. rewrite Hxk. reflexivity.
    + destruct (decide (x = k)) as [-> | Hxk].
      * split; [done |]. by eexists.
      * split; [done |]. by eexists.
Qed.

Lemma duplicated_runs (runs : list (string * list string)) :
  forall acc : list string,
    fold_left
      (fun duplicated (run : string * list string) =>
         if (2 <=? length (snd run))%nat then duplicated ++ [fst run] else duplicated)
      runs acc
    = acc ++ map fst (List.filter (fun run => (2 <=? length (snd run))%nat) runs).
Proof.
  induction runs as [| run runs IH]; intros acc.
  - simpl. by rewrite app_nil_r.
  - cbn [fold_left List.filter]. rewrite IH.
    destruct (2 <=? length (snd run))%nat.
    + rewrite <- app_assoc. reflexivity.
    + reflexivity.
Qed.

Lemma filter_nil_existsb {A : Type} (f : A -> bool) (l : list A) :
  (1 <=? length (List.filter f l))%nat = existsb f l.
Proof.
  induction l as [| x l IH]; simpl; [done |].
  destruct (f x); simpl; [done | exact IH].
Qed.

(** [_validate] raises exactly when two equal names are adjacent in
    reader order. *)
Lemma validate_adjacent (nodes : list NodeValue.t) :
  exists msg : string,
    TopicIgnoredReader._validate nodes =
    if has_adjacent_dup (map NodeValue.node_name nodes)
    then Raise (InvalidReaderError msg)
    else Ok tt.
Proof.
  unfold TopicIgnoredReader._validate. cbv zeta.
  rewrite duplicated_runs, app_nil_l, length_map, filter_nil_existsb.
  rewrite (proj1 (groupby_adjacent _)). eexists. reflexivity.
Qed.

(** A reader that declares "dup" twice, with another node in between. *)
Definition dup_first : NodeValue.t := NodeValue.mk "dup" "dup_first".
Definition dup_second : NodeValue.t := NodeValue.mk "dup" "dup_second".
Definition other_node : NodeValue.t := NodeValue.mk "other" "other".

Definition reader_of_nodes (nodes : list NodeValue.t) : ArchitectureReader.t :=
  ArchitectureReader.mk nodes (fun _ => []) (fun _ => []) (fun _ => []) (fun _ => []).

(** C5 on the code: [get_nodes] never raises; it returns, sorted by name,
    exactly the first node of every name; the duplicate is logged exactly
    when two equal names are adjacent in reader order.  For the reader
    order dup, other, dup nothing is logged. *)
Theorem get_nodes_logs_adjacent_duplicates_only :
  (forall (reader : ArchitectureReader.t) (ignore_topics : list string),
      let '(returned, log) :=
        TopicIgnoredReader.get_nodes (TopicIgnoredReader.init reader ignore_topics) in
      exists nodes_ : list NodeValue.t,
        returned = Ok nodes_
        /\ NoDup (map NodeValue.node_name nodes_)
        /\ (forall n : NodeValue.t,
               n ∈ nodes_ <->
               List.find (fun m => String.eqb (NodeValue.node_name m) (NodeValue.node_name n))
                 (ArchitectureReader.get_nodes reader) = Some n)
        /\ (log <> [] <->
            has_adjacent_dup (map NodeValue.node_name (ArchitectureReader.get_nodes reader))
            = true))
  /\ TopicIgnoredReader.get_nodes
       (TopicIgnoredReader.init (reader_of_nodes [dup_first; other_node; dup_second]) [])
     = (Ok [dup_first; other_node], [])
  /\ TopicIgnoredReader.get_nodes
       (TopicIgnoredReader.init (reader_of_nodes [dup_first; dup_second; other_node]) [])
     = (Ok [dup_first; other_node],
        [InvalidReaderError "Duplicated node name. ['dup']. Use first node only."]).
Proof.
  split; [| split; vm_compute; reflexivity].
  intros reader ignore_topics.
  unfold TopicIgnoredReader.get_nodes, TopicIgnoredReader.init. simpl.
  destruct (validate_adjacent (ArchitectureReader.get_nodes reader)) as [msg Hvalidate].
  rewrite Hvalidate, first_by_name_first_occurrences.
  set (nodes := ArchitectureReader.get_nodes reader).
  assert (Hcommon :
    NoDup (map NodeValue.node_name (sorted NodeValue.node_name (first_occurrences [] nodes)))
    /\ (forall n : NodeValue.t,
           n ∈ sorted NodeValue.node_name (first_occurrences [] nodes) <->
           List.find (fun m => String.eqb (NodeValue.node_name m) (NodeValue.node_name n)) nodes
           = Some n)).
  { split.
    - rewrite sorted_Permutation. apply first_occurrences_NoDup.
    - intros n. rewrite sorted_Permutation, first_occurrences_spec.
      split; [by intros [_ H] | intros H; split; [apply not_elem_of_nil | done]]. }
  destruct Hcommon as [Hnodup Hfirst].
  destruct (has_adjacent_dup (map NodeValue.node_name nodes)).
  - eexists. split; [reflexivity |]. split; [exact Hnodup |]. split; [exact Hfirst |].
    split; [done | discriminate].
  - eexists. split; [reflexivity |]. split; [exact Hnodup |]. split; [exact Hfirst |].
    split; [done | discriminate].
Qed.

(** *** Topic filtering *)

Lemma fold_left_flat_map {A B : Type} (step : list B -> A -> list B) (g : A -> list B) :
  (forall acc x, step acc x = acc ++ g x) ->
  forall (l : list A) (init : list B), fold_left step l init = init ++ flat_map g l.
Proof.
  intros Hstep l. induction l as [| x l IH]; intros init; simpl.
  - by rewrite app_nil_r.
  - rewrite IH, Hstep. by rewrite <- app_assoc.
Qed.

Lemma fold_left_keep {A : Type} (drop : A -> bool) (l : list A) :
  fold_left (fun acc x => if drop x then acc else acc ++ [x]) l []
  = List.filter (fun x => negb (drop x)) l.
Proof.
  rewrite (fold_left_flat_map _ (fun x => if drop x then [] else [x])).
  - simpl. induction l as [| x l IH]; simpl; [done |].
    destruct (drop x); simpl; by rewrite IH.
  - intros acc x. destruct (drop x); [by rewrite app_nil_r | done].
Qed.

(** The callback ids that the filtering reader ignores: those of the
    subscription callbacks, of any node the reader lists, whose subscribed
    topic is in the ignore list. *)
Definition ignored_callback_id (reader : ArchitectureReader.t) (ignore_topics : list string)
    (callback_id : string) : Prop :=
  exists (node : NodeValue.t) (cb : SubscriptionCallbackValue.t),
    node ∈ ArchitectureReader.get_nodes reader
    /\ cb ∈ ArchitectureReader._get_subscription_callbacks reader node
    /\ SubscriptionCallbackValue.subscribe_topic_name cb ∈ ignore_topics
    /\ SubscriptionCallbackValue.callback_id cb = Some callback_id.

Lemma get_ignore_callback_ids_spec (reader : ArchitectureReader.t)
    (ignore_topics : list string) (callback_id : string) :
  callback_id ∈ TopicIgnoredReader._get_ignore_callback_ids reader ignore_topics
  <-> ignored_callback_id reader ignore_topics callback_id.
Proof.
  unfold TopicIgnoredReader._get_ignore_callback_ids, ignored_callback_id. cbv zeta.
  set (ids_of := fun sub_val : SubscriptionCallbackValue.t =>
         if negb (bool_decide (SubscriptionCallbackValue.subscribe_topic_name sub_val
                                 ∈ (list_to_set ignore_topics : gset string)))
         then []
         else match SubscriptionCallbackValue.callback_id sub_val with
              | None => []
              | Some id => [id]
              end).
  rewrite (fold_left_flat_map _
             (fun node => flat_map ids_of
                            (ArchitectureReader._get_subscription_callbacks reader node))).
  - rewrite app_nil_l, elem_of_list_to_set, list_elem_of_In, in_flat_map. split.
    + intros (node & Hnode & Hin). apply in_flat_map in Hin as (cb & Hcb & Hid).
      exists node, cb. rewrite <- !list_elem_of_In in *. subst ids_of. simpl in Hid.
      destruct (bool_decide _) eqn:Hdec; simpl in Hid; [| inversion Hid].
      apply bool_decide_eq_true in Hdec. apply elem_of_list_to_set in Hdec.
      destruct (SubscriptionCallbackValue.callback_id cb) as [id |]; [| inversion Hid].
      apply list_elem_of_singleton in Hid. subst id. done.
    + intros (node & cb & Hnode & Hcb & Htopic & Hid).
      exists node. rewrite <- list_elem_of_In. split; [done |].
      apply in_flat_map. exists cb. rewrite <- !list_elem_of_In. split; [done |].
      subst ids_of. simpl. rewrite bool_decide_eq_true_2 by by apply elem_of_list_to_set.
      simpl. rewrite Hid. apply list_elem_of_here.
  - intros acc node.
    apply (fold_left_flat_map _ ids_of).
    intros acc' sub_val. subst ids_of. simpl.
    destruct (negb _); [by rewrite app_nil_r |].
    destruct (SubscriptionCallbackValue.callback_id sub_val); [done | by rewrite app_nil_r].
Qed.

(** C9: the filtering reader returns no publisher and no subscription
    whose topic is ignored, and otherwise all those of the underlying
    reader; every callback group it returns is the underlying group with
    the ignored callback ids removed from its membership. *)
Theorem topic_ignored_reader_filters (reader : ArchitectureReader.t)
    (ignore_topics : list string) (node : NodeValue.t) :
  let filtered := TopicIgnoredReader.init reader ignore_topics in
  (forall p : PublisherValue.t,
      p ∈ TopicIgnoredReader._get_publishers filtered node <->
      (p ∈ ArchitectureReader._get_publishers reader node
       /\ PublisherValue.topic_name p ∉ ignore_topics))
  /\ (forall s : SubscriptionValue.t,
      s ∈ TopicIgnoredReader._get_subscriptions filtered node <->
      (s ∈ ArchitectureReader._get_subscriptions reader node
       /\ SubscriptionValue.topic_name s ∉ ignore_topics))
  /\ Forall2
       (fun returned underlying : CallbackGroupValue.t =>
          CallbackGroupValue.callback_group_id returned
            = CallbackGroupValue.callback_group_id underlying
          /\ CallbackGroupValue.node_name returned = CallbackGroupValue.node_name underlying
          /\ NoDup (CallbackGroupValue.callback_ids returned)
          /\ forall callback_id : string,
               callback_id ∈ CallbackGroupValue.callback_ids returned <->
               (callback_id ∈ CallbackGroupValue.callback_ids underlying
                /\ ~ ignored_callback_id reader ignore_topics callback_id))
       (TopicIgnoredReader._get_callback_groups filtered node)
       (ArchitectureReader._get_callback_groups reader node).
Proof.
  intros filtered. split; [| split].
  - intros p. unfold TopicIgnoredReader._get_publishers. simpl.
    rewrite (fold_left_keep (fun p => str_in (PublisherValue.topic_name p) ignore_topics)).
    rewrite list_elem_of_In, filter_In, <- list_elem_of_In, negb_true_iff.
    rewrite <- not_true_iff_false, str_in_spec. reflexivity.
  - intros s. unfold TopicIgnoredReader._get_subscriptions. simpl.
    rewrite (fold_left_keep (fun s => str_in (SubscriptionValue.topic_name s) ignore_topics)).
    rewrite list_elem_of_In, filter_In, <- list_elem_of_In, negb_true_iff.
    rewrite <- not_true_iff_false, str_in_spec. reflexivity.
  - unfold TopicIgnoredReader._get_callback_groups. simpl.
    induction (ArchitectureReader._get_callback_groups reader node) as [| cbg cbgs IH]; simpl.
    + constructor.
    + constructor; [| exact IH]. simpl.
      split; [done |]. split; [done |]. split; [apply NoDup_elements |].
      intros callback_id.
      rewrite elem_of_elements, elem_of_difference, elem_of_list_to_set.
      by rewrite get_ignore_callback_ids_spec.
Qed.

(** ** graph_search/node_graph.py *)

Module TransformCommunicationStructValue.
Record t : Type := mk {
  broadcaster : TransformFrameBroadcasterStructValue.t;
  buffer : TransformFrameBufferStructValue.t;
}.
Definition topic_name (self : t) : string :=
  TransformFrameBroadcasterStructValue.topic_name (broadcaster self).
End TransformCommunicationStructValue.

(** [Tuple[str, str, str]] keys of [_comm_dict] and the keys of
    [_node_path_dict]. *)
Definition CommKey : Type := string * string * string.
Definition NodePathKey : Type := option string * option string * string.

(** A graph edge as [add_edge] receives it: origin, destination, label.
    Modelled from the spec: [Graph] lives in graph_search/graph_search.py;
    section 4.1: "[add_edge(from, to, label)] registers a directed edge". *)
Definition GraphEdge : Type := string * string * string.

Section NodePathSearcher.

(** [CommunicationStructValue], [NodePathStructValue] and
    [NodeStructValue] expose the attributes below; their classes
    (value_objects/communication.py, node_path.py, node.py) are outside
    the available sources, so the attributes are parameters. *)
Context {CommunicationValueT NodePathValueT NodeValueT : Type}.
Variable subscribe_node_name : CommunicationValueT -> string.
Variable publish_node_name : CommunicationValueT -> string.
Variable comm_topic_name : CommunicationValueT -> string.
Variable paths : NodeValueT -> list NodePathValueT.
Variable tf_frame_broadcaster : NodePathValueT -> option TransformFrameBroadcasterStructValue.t.
Variable tf_frame_buffer : NodePathValueT -> option TransformFrameBufferStructValue.t.
Variable publish_topic_name : NodePathValueT -> option string.
Variable subscribe_topic_name : NodePathValueT -> option string.
Variable node_path_node_name : NodePathValueT -> string.

Inductive CommunicationValue : Type :=
  | PlainCommunication (comm : CommunicationValueT)
  | TransformCommunicationValue (comm : TransformCommunicationStructValue.t).

(** [CommunicationWrapper]. *)
Record CommunicationWrapper : Type := mkCommunicationWrapper {
  cw_data : CommunicationValue;
  _input_node_name : string;
  _output_node_name : string;
}.

Definition CommunicationWrapper_init (comm : CommunicationValue) : CommunicationWrapper :=
  match comm with
  | TransformCommunicationValue tc =>
      mkCommunicationWrapper comm
        (TransformFrameBufferStructValue.lookup_node_name
           (TransformCommunicationStructValue.buffer tc))
        (TransformFrameBroadcasterStructValue.node_name
           (TransformCommunicationStructValue.broadcaster tc))
  | PlainCommunication c =>
      mkCommunicationWrapper comm (subscribe_node_name c) (publish_node_name c)
  end.

Definition input_node_name (self : CommunicationWrapper) : string := _input_node_name self.
Definition output_node_name (self : CommunicationWrapper) : string := _output_node_name self.

Definition topic_name (self : CommunicationWrapper) : string :=
  match cw_data self with
  | PlainCommunication c => comm_topic_name c
  | TransformCommunicationValue tc => TransformCommunicationStructValue.topic_name tc
  end.

Definition get_key (self : CommunicationWrapper) : CommKey :=
  (output_node_name self, input_node_name self, topic_name self).

(** The text of [{comm.<name>}] inside an f-string, for [comm] a
    [CommunicationWrapper]: the class defines the three properties
    below and no [__getattr__]; any other name raises
    [AttributeError]. *)
Definition CommunicationWrapper_format (self : CommunicationWrapper) (name : string)
  : result string :=
  if String.eqb name "input_node_name" then Ok (input_node_name self)
  else if String.eqb name "output_node_name" then Ok (output_node_name self)
  else if String.eqb name "topic_name" then Ok (topic_name self)
  else Raise (AttributeError name).

(** [NodePathWrapper]. *)
Record NodePathWrapper : Type := mkNodePathWrapper {
  npw_data : NodePathValueT;
  _output_topic_name : option string;
  _input_topic_name : option string;
}.

Definition NodePathWrapper_init (node_path : NodePathValueT) : NodePathWrapper :=
  mkNodePathWrapper node_path
    (match tf_frame_broadcaster node_path with
     | Some br => Some (TransformFrameBroadcasterStructValue.topic_name br)
     | None => publish_topic_name node_path
     end)
    (match tf_frame_buffer node_path with
     | Some buf => Some (TransformFrameBufferStructValue.topic_name buf)
     | None => subscribe_topic_name node_path
     end).

Definition NodePathWrapper_node_name (self : NodePathWrapper) : string :=
  node_path_node_name (npw_data self).

Definition NodePathWrapper_get_key (self : NodePathWrapper) : NodePathKey :=
  (_input_topic_name self, _output_topic_name self, NodePathWrapper_node_name self).

Definition format_optional (x : option string) : string :=
  match x with Some s => s | None => "None" end.

(** [{node_path.<name>}] for a [NodePathWrapper]. *)
Definition NodePathWrapper_format (self : NodePathWrapper) (name : string) : result string :=
  if String.eqb name "output_topic_name" then Ok (format_optional (_output_topic_name self))
  else if String.eqb name "input_topic_name" then Ok (format_optional (_input_topic_name self))
  else if String.eqb name "node_name" then Ok (NodePathWrapper_node_name self)
  else Raise (AttributeError name).

(** The attributes that [NodePathSearcher.__init__] builds, and the
    warnings logged on the way. *)
Record NodePathSearcher : Type := mkNodePathSearcher {
  _node_path_dict : gmap NodePathKey NodePathWrapper;
  _comm_dict : gmap CommKey CommunicationWrapper;
  _graph : list GraphEdge;
  warnings : list string;
}.

(** The argument of [logger.warning] in the node-path loop. *)
Definition node_path_warning (node_path : NodePathWrapper) : result string :=
  node_name ← NodePathWrapper_format node_path "node_name";
  sub ← NodePathWrapper_format node_path "subscribe_topic_name";
  pub ← NodePathWrapper_format node_path "publish_topic_name";
  Ok (String.concat ""
        ["duplicated node_path found. skip adding. ";
         "node_name: "; node_name; ", ";
         "subscribe_topic_name: "; sub; ", ";
         "publish_topic_name: "; pub]).

(** The argument of [logger.warning] in the communication loop. *)
Definition communication_warning (comm : CommunicationWrapper) : result string :=
  topic ← CommunicationWrapper_format comm "topic_name";
  pub ← CommunicationWrapper_format comm "publish_node_name";
  sub ← CommunicationWrapper_format comm "subscribe_node_name";
  Ok (String.concat ""
        ["duplicated communication found. skip adding.";
         "topic_name: "; topic; ", ";
         "publish_node_name: "; pub; ", ";
         "subscribe_node_name: "; sub; ", "]).

Definition node_path_step (self : NodePathSearcher) (node_path : NodePathWrapper)
  : result NodePathSearcher :=
  let key := NodePathWrapper_get_key node_path in
  match _node_path_dict self !! key with
  | None =>
      Ok (mkNodePathSearcher (<[key := node_path]> (_node_path_dict self))
            (_comm_dict self) (_graph self) (warnings self))
  | Some _ =>
      msg ← node_path_warning node_path;
      Ok (mkNodePathSearcher (_node_path_dict self) (_comm_dict self) (_graph self)
            (warnings self ++ [msg]))
  end.

Definition rejected (filter : option (string -> bool)) (name : string) : bool :=
  match filter with
  | Some f => negb (f name)
  | None => false
  end.

(** Whether the three [continue] tests at the head of the
    communication loop let the communication through. *)
Definition passes (node_filter communication_filter : option (string -> bool))
    (comm : CommunicationWrapper) : bool :=
  negb (rejected communication_filter (topic_name comm))
  && negb (rejected node_filter (output_node_name comm))
  && negb (rejected node_filter (input_node_name comm)).

Definition edge_of (comm : CommunicationWrapper) : GraphEdge :=
  (output_node_name comm, input_node_name comm, topic_name comm).

Definition communication_step (node_filter communication_filter : option (string -> bool))
    (self : NodePathSearcher) (comm : CommunicationWrapper) : result NodePathSearcher :=
  if rejected communication_filter (topic_name comm) then Ok self
  else if rejected node_filter (output_node_name comm) then Ok self
  else if rejected node_filter (input_node_name comm) then Ok self
  else
    let key := get_key comm in
    match _comm_dict self !! key with
    | None =>
        Ok (mkNodePathSearcher (_node_path_dict self) (<[key := comm]> (_comm_dict self))
              (_graph self ++ [edge_of comm]) (warnings self))
    | Some _ =>
        msg ← communication_warning comm;
        Ok (mkNodePathSearcher (_node_path_dict self) (_comm_dict self) (_graph self)
              (warnings self ++ [msg]))
    end.

Definition add_communications (node_filter communication_filter : option (string -> bool))
    (comms : list CommunicationWrapper) (self : NodePathSearcher) : result NodePathSearcher :=
  fold_left (fun acc comm => self ← acc; communication_step node_filter communication_filter self comm)
            comms (Ok self).

(** [NodePathSearcher.__init__]. *)
Definition NodePathSearcher_init (nodes : list NodeValueT)
    (communications : list CommunicationValue)
    (node_filter communication_filter : option (string -> bool)) : result NodePathSearcher :=
  let comms := map CommunicationWrapper_init communications in
  let node_paths := map NodePathWrapper_init (Util.flatten (map paths nodes)) in
  self ← fold_left (fun acc node_path => self ← acc; node_path_step self node_path)
                   node_paths (Ok (mkNodePathSearcher ∅ ∅ [] []));
  add_communications node_filter communication_filter comms self.

(** *** The communication table *)

Lemma communication_warning_raises (comm : CommunicationWrapper) :
  communication_warning comm = Raise (AttributeError "publish_node_name").
Proof. reflexivity. Qed.

Lemma node_path_warning_raises (node_path : NodePathWrapper) :
  node_path_warning node_path = Raise (AttributeError "subscribe_topic_name").
Proof. reflexivity. Qed.

Lemma fold_result_raise {S X : Type} (step : S -> X -> result S) (l : list X) (e : PyError) :
  fold_left (fun acc x => self ← acc; step self x) l (Raise e) = Raise e.
Proof. induction l as [| x l IH]; simpl; [done | exact IH]. Qed.

Lemma passes_rejected (node_filter communication_filter : option (string -> bool))
    (self : NodePathSearcher) (comm : CommunicationWrapper) :
  communication_step node_filter communication_filter self comm =
  if passes node_filter communication_filter comm then
    match _comm_dict self !! get_key comm with
    | None =>
        Ok (mkNodePathSearcher (_node_path_dict self)
              (<[get_key comm := comm]> (_comm_dict self))
              (_graph self ++ [edge_of comm]) (warnings self))
    | Some _ => Raise (AttributeError "publish_node_name")
    end
  else Ok self.
Proof.
  unfold communication_step, passes.
  destruct (rejected communication_filter (topic_name comm)); [done |].
  destruct (rejected node_filter (output_node_name comm)); [done |].
  destruct (rejected node_filter (input_node_name comm)); [done |].
  cbn [negb andb]. destruct (_comm_dict self !! get_key comm); [| done].
  by rewrite communication_warning_raises.
Qed.

(** When the communication loop completes, no key occurred twice among
    the communications let through: each of them is in the table and has
    its edge, and nothing was logged. *)
Lemma add_communications_ok (node_filter communication_filter : option (string -> bool))
    (comms : list CommunicationWrapper) :
  forall self self' : NodePathSearcher,
    add_communications node_filter communication_filter comms self = Ok self' ->
    let kept := List.filter (passes node_filter communication_filter) comms in
    NoDup (map get_key kept)
    /\ (forall c, c ∈ kept -> _comm_dict self !! get_key c = None)
    /\ (forall c, c ∈ kept -> _comm_dict self' !! get_key c = Some c)
    /\ (forall k v, _comm_dict self !! k = Some v -> _comm_dict self' !! k = Some v)
    /\ _graph self' = _graph self ++ map edge_of kept
    /\ warnings self' = warnings self
    /\ _node_path_dict self' = _node_path_dict self.
Proof.
  unfold add_communications.
  induction comms as [| comm comms IH]; intros self self' Hok; cbn [fold_left] in Hok.
  - inversion Hok; subst. simpl. repeat split; try done.
    + constructor.
    + intros c Hc. inversion Hc.
    + intros c Hc. inversion Hc.
    + by rewrite app_nil_r.
  - change (Ok self ≫= _) with
      (communication_step node_filter communication_filter self comm) in Hok.
    rewrite passes_rejected in Hok. cbn [List.filter].
    destruct (passes node_filter communication_filter comm) eqn:Hpass.
    + destruct (_comm_dict self !! get_key comm) eqn:Hlook.
      { rewrite fold_result_raise in Hok. discriminate. }
      apply IH in Hok as (Hnodup & Hfresh & Hkept & Hpres & Hgraph & Hwarn & Hnp).
      cbn [_comm_dict _graph warnings _node_path_dict] in *.
      assert (Hne : forall c, c ∈ List.filter (passes node_filter communication_filter) comms ->
                              get_key c <> get_key comm).
      { intros c Hc Heq. specialize (Hfresh c Hc). rewrite Heq in Hfresh.
        by rewrite lookup_insert_eq in Hfresh. }
      repeat split.
      * cbn [map]. constructor; [| exact Hnodup].
        intros Hin. apply list_elem_of_fmap in Hin as (c & Heq & Hc).
        by apply (Hne c Hc).
      * intros c Hc. apply elem_of_cons in Hc as [-> | Hc]; [exact Hlook |].
        specialize (Hfresh c Hc). rewrite lookup_insert_ne in Hfresh; [done |].
        intros Heq. by apply (Hne c Hc).
      * intros c Hc. apply elem_of_cons in Hc as [-> | Hc]; [| by apply Hkept].
        apply Hpres. by rewrite lookup_insert_eq.
      * intros k v Hkv. apply Hpres. rewrite lookup_insert_ne; [done |].
        intros <-. congruence.
      * rewrite Hgraph, <- app_assoc. reflexivity.
      * exact Hwarn.
      * exact Hnp.
    + by apply IH in Hok.
Qed.

(** The only exception of the communication loop is the
    [AttributeError] of the warning. *)
Lemma add_communications_raise (node_filter communication_filter : option (string -> bool))
    (comms : list CommunicationWrapper) :
  forall (self : NodePathSearcher) (e : PyError),
    add_communications node_filter communication_filter comms self = Raise e ->
    e = AttributeError "publish_node_name".
Proof.
  unfold add_communications.
  induction comms as [| comm comms IH]; intros self e Hraise; cbn [fold_left] in Hraise.
  - discriminate.
  - change (Ok self ≫= _) with
      (communication_step node_filter communication_filter self comm) in Hraise.
    rewrite passes_rejected in Hraise.
    destruct (passes node_filter communication_filter comm); [| by eapply IH].
    destruct (_comm_dict self !! get_key comm).
    + rewrite fold_result_raise in Hraise. congruence.
    + by eapply IH.
Qed.

Lemma add_node_paths_ok (node_paths : list NodePathWrapper) :
  forall self self' : NodePathSearcher,
    fold_left (fun acc node_path => self ← acc; node_path_step self node_path)
              node_paths (Ok self) = Ok self' ->
    _comm_dict self' = _comm_dict self
    /\ _graph self' = _graph self
    /\ warnings self' = warnings self.
Proof.
  induction node_paths as [| node_path node_paths IH]; intros self self' Hok;
    cbn [fold_left] in Hok.
  - by inversion Hok.
  - change (Ok self ≫= _) with (node_path_step self node_path) in Hok.
    unfold node_path_step in Hok.
    destruct (_node_path_dict self !! NodePathWrapper_get_key node_path).
    + rewrite node_path_warning_raises in Hok. cbn in Hok.
      rewrite fold_result_raise in Hok. discriminate.
    + by apply IH in Hok.
Qed.

(** What a completed construction guarantees. *)
Lemma NodePathSearcher_init_ok (nodes : list NodeValueT)
    (communications : list CommunicationValue)
    (node_filter communication_filter : option (string -> bool))
    (searcher : NodePathSearcher) :
  NodePathSearcher_init nodes communications node_filter communication_filter = Ok searcher ->
  let kept := List.filter (passes node_filter communication_filter)
                (map CommunicationWrapper_init communications) in
  NoDup (map get_key kept)
  /\ (forall c, c ∈ kept -> _comm_dict searcher !! get_key c = Some c)
  /\ _graph searcher = map edge_of kept
  /\ warnings searcher = [].
Proof.
  unfold NodePathSearcher_init. cbv zeta. intros Hok.
  destruct (fold_left (fun acc node_path => self ← acc; node_path_step self node_path)
              (map NodePathWrapper_init (Util.flatten (map paths nodes)))
              (Ok (mkNodePathSearcher ∅ ∅ [] []))) as [self1 | e] eqn:Hnp;
    [| discriminate].
  apply add_node_paths_ok in Hnp as (Hdict1 & Hgraph1 & Hwarn1).
  change (Ok self1 ≫= _) with
    (add_communications node_filter communication_filter
       (map CommunicationWrapper_init communications) self1) in Hok.
  apply add_communications_ok in Hok as (Hnodup & _ & Hkept & _ & Hgraph & Hwarn & _).
  repeat split; try done.
  - by rewrite Hgraph, Hgraph1.
  - by rewrite Hwarn, Hwarn1.
Qed.

End NodePathSearcher.

(** *** Two identical communications *)

(** A communication value reduced to the three attributes the searcher
    reads: publisher node, subscriber node, topic. *)
Definition plain_communication : Type := string * string * string.

Definition chatter_communication : plain_communication := ("/talker", "/listener", "/chatter").

Definition plain_init (communications : list plain_communication)
  : result (@NodePathSearcher plain_communication Empty_set) :=
  NodePathSearcher_init
    (fun c : plain_communication => snd (fst c))
    (fun c : plain_communication => fst (fst c))
    (fun c : plain_communication => snd c)
    (fun _ : unit => [])
    (fun p : Empty_set => None) (fun p : Empty_set => None)
    (fun p : Empty_set => None) (fun p : Empty_set => None)
    (fun p : Empty_set => "")
    []
    (map PlainCommunication communications)
    None None.

(** C6 on the code: a construction that completes has met no duplicate
    key, every communication let through is in the table with its edge
    and nothing is logged; on two communications with the same triple the
    construction does not complete: formatting the warning reads
    [publish_node_name] on the wrapper, which has no such attribute. *)
Theorem duplicate_communication_raises :
  (forall (CommunicationValueT NodePathValueT NodeValueT : Type)
      (subscribe_node_name publish_node_name comm_topic_name : CommunicationValueT -> string)
      (paths : NodeValueT -> list NodePathValueT)
      (tf_frame_broadcaster : NodePathValueT -> option TransformFrameBroadcasterStructValue.t)
      (tf_frame_buffer : NodePathValueT -> option TransformFrameBufferStructValue.t)
      (publish_topic_name subscribe_topic_name : NodePathValueT -> option string)
      (node_path_node_name : NodePathValueT -> string)
      (nodes : list NodeValueT) (communications : list CommunicationValue)
      (node_filter communication_filter : option (string -> bool))
      (searcher : NodePathSearcher),
      NodePathSearcher_init subscribe_node_name publish_node_name comm_topic_name paths
        tf_frame_broadcaster tf_frame_buffer publish_topic_name subscribe_topic_name
        node_path_node_name nodes communications node_filter communication_filter
      = Ok searcher ->
      let kept := List.filter (passes comm_topic_name node_filter communication_filter)
                    (map (CommunicationWrapper_init subscribe_node_name publish_node_name)
                         communications) in
      NoDup (map (get_key comm_topic_name) kept)
      /\ (forall c, c ∈ kept ->
             _comm_dict searcher !! get_key comm_topic_name c = Some c)
      /\ _graph searcher = map (edge_of comm_topic_name) kept
      /\ warnings searcher = [])
  /\ plain_init [chatter_communication; chatter_communication]
     = Raise (AttributeError "publish_node_name").
Proof.
  split.
  - intros. eapply NodePathSearcher_init_ok. eassumption.
  - vm_compute. reflexivity.
Qed.

Lemma duplicate_communication_raises_witness :
  exists searcher : @NodePathSearcher plain_communication Empty_set,
    plain_init [chatter_communication] = Ok searcher
    /\ _graph searcher = [("/talker", "/listener", "/chatter")]
    /\ warnings searcher = [].
Proof.
  assert (Hinit : exists searcher, plain_init [chatter_communication] = Ok searcher).
  { eexists. vm_compute. reflexivity. }
  destruct Hinit as [searcher Hinit]. exists searcher. split; [exact Hinit |].
  destruct (proj1 duplicate_communication_raises _ _ _ _ _ _ _ _ _ _ _ _ _ _ _ _ _ Hinit)
    as (_ & _ & Hgraph & Hwarn).
  split; [exact Hgraph | exact Hwarn].
Defined.

(** ** [to_value] and later mutation *)

(** [to_value] gives the same value when called again. *)
Lemma SubscriptionStruct_to_value_twice (sub : SubscriptionStruct.t) :
  fst (SubscriptionStruct.to_value (snd (SubscriptionStruct.to_value sub)))
  = fst (SubscriptionStruct.to_value sub).
Proof. reflexivity. Qed.

Lemma SubscriptionsStruct_to_value_twice (subs : SubscriptionsStruct.t) :
  fst (SubscriptionsStruct.to_value (snd (SubscriptionsStruct.to_value subs)))
  = fst (SubscriptionsStruct.to_value subs).
Proof.
  unfold SubscriptionsStruct.to_value. simpl.
  rewrite !map_map. apply map_ext. intros sub. reflexivity.
Qed.

Lemma PublisherStruct_to_value_twice (pub : PublisherStruct.t) :
  fst (PublisherStruct.to_value (snd (PublisherStruct.to_value pub)))
  = fst (PublisherStruct.to_value pub).
Proof. reflexivity. Qed.

Lemma NodePathStruct_to_value_twice `{External} (node_path : NodePathStruct.t) :
  fst (NodePathStruct.to_value (snd (NodePathStruct.to_value node_path)))
  = fst (NodePathStruct.to_value node_path).
Proof.
  destruct node_path as [name [[sub | buf] |] [[pub | br] |] child context];
    unfold NodePathStruct.to_value; simpl;
    try (destruct (String.eqb (PublisherStruct.topic_name pub) "/tf") eqn:Htf;
         simpl; rewrite ?Htf); reflexivity.
Qed.

Lemma to_value_each_twice {S V : Type} (to_value : S -> result V * S) :
  (forall x, fst (to_value (snd (to_value x))) = fst (to_value x)) ->
  forall l : list S,
    fst (to_value_each to_value (snd (to_value_each to_value l)))
    = fst (to_value_each to_value l).
Proof.
  intros Htwice l. induction l as [| x l IH]; [reflexivity |].
  cbn [to_value_each]. specialize (Htwice x).
  destruct (to_value x) as [[v | e] x'] eqn:Hx; cbn [fst snd] in *.
  - destruct (to_value_each to_value l) as [[vs | e] l'] eqn:Hl; cbn [fst snd] in *.
    + cbn [to_value_each]. destruct (to_value x') as [[v' | e'] x''];
        cbn [fst] in Htwice; [| discriminate].
      inversion Htwice; subst v'.
      destruct (to_value_each to_value l') as [[vs' | e'] l'']; cbn [fst] in IH |- *;
        congruence.
    + cbn [to_value_each]. destruct (to_value x') as [[v' | e'] x''];
        cbn [fst] in Htwice; [| discriminate].
      destruct (to_value_each to_value l') as [[vs' | e'] l'']; cbn [fst] in IH |- *;
        congruence.
  - cbn [to_value_each]. destruct (to_value x') as [[v' | e'] x''];
      cbn [fst] in Htwice; [discriminate |].
    cbn [fst]. congruence.
Qed.

(** C7 on the code: converting twice gives equal values, and the
    subscription structs refuse a mutation after [to_value]; but
    [PublisherStruct] and [NodeStruct] keep no mark of the conversion and
    their setters still succeed and change the struct afterwards. *)
Theorem setters_succeed_after_to_value :
  (forall sub : SubscriptionStruct.t,
      fst (SubscriptionStruct.to_value (snd (SubscriptionStruct.to_value sub)))
      = fst (SubscriptionStruct.to_value sub))
  /\ (forall pub : PublisherStruct.t,
      fst (PublisherStruct.to_value (snd (PublisherStruct.to_value pub)))
      = fst (PublisherStruct.to_value pub))
  /\ (forall (sub : SubscriptionStruct.t) (callback : CallbackStruct.t),
      SubscriptionStruct.set_callback (snd (SubscriptionStruct.to_value sub)) callback
      = Raise AssertionError)
  /\ (forall (subs : SubscriptionsStruct.t) (sub : SubscriptionStruct.t),
      SubscriptionsStruct.add (snd (SubscriptionsStruct.to_value subs)) sub
      = Raise AssertionError)
  /\ (forall (pub : PublisherStruct.t) (callbacks : CallbacksStruct.t),
      PublisherStruct.set_callbacks (snd (PublisherStruct.to_value pub)) callbacks
      = Ok (PublisherStruct.mk (PublisherStruct.node_name pub) (PublisherStruct.topic_name pub)
              (Some callbacks)))
  /\ (forall (E : External) (node : NodeStruct.t) (value : TransformBufferStruct.t),
      exists node' : NodeStruct.t,
        NodeStruct.set_tf_buffer (snd (NodeStruct.to_value node)) value = Ok node'
        /\ NodeStruct.tf_buffer node' = Some value)
  /\ (is_ok (fst (NodeStruct.to_value node_N)) = true
      /\ NodeStruct.tf_buffer (snd (NodeStruct.to_value node_N)) = None
      /\ exists node' : NodeStruct.t,
           NodeStruct.set_tf_buffer (snd (NodeStruct.to_value node_N))
             (TransformBufferStruct.init "N" chain_tree [tf_root_B] None) = Ok node'
           /\ NodeStruct.tf_buffer node'
              = Some (TransformBufferStruct.init "N" chain_tree [tf_root_B] None)).
Proof.
  split; [exact SubscriptionStruct_to_value_twice |].
  split; [exact PublisherStruct_to_value_twice |].
  split; [reflexivity |].
  split; [reflexivity |].
  split; [reflexivity |].
  split.
  - intros E node value. eexists. split; reflexivity.
  - split; [vm_compute; reflexivity |]. split; [vm_compute; reflexivity |].
    eexists. split; reflexivity.
Qed.

Lemma NodePathsStruct_to_value_twice `{External} (node_paths : NodePathsStruct.t) :
  fst (NodePathsStruct.to_value (snd (NodePathsStruct.to_value node_paths)))
  = fst (NodePathsStruct.to_value node_paths).
Proof. apply to_value_each_twice. apply NodePathStruct_to_value_twice. Qed.

(** [NodeStruct.to_value] gives the same value when called again,
    provided the conversions of the timers and of the callback groups
    do. *)
Lemma NodeStruct_to_value_twice `{External} :
  (forall t : TimersStruct,
      fst (TimersStruct_to_value (snd (TimersStruct_to_value t)))
      = fst (TimersStruct_to_value t)) ->
  (forall g : CallbackGroupsStruct,
      fst (CallbackGroupsStruct_to_value (snd (CallbackGroupsStruct_to_value g)))
      = fst (CallbackGroupsStruct_to_value g)) ->
  forall node : NodeStruct.t,
    fst (NodeStruct.to_value (snd (NodeStruct.to_value node)))
    = fst (NodeStruct.to_value node).
Proof.
  intros Htimers Hgroups node.
  destruct node as [id name pubs subs timers node_paths groups var_passes buf br].
  unfold NodeStruct.to_value.
  cbn [NodeStruct.node_id NodeStruct.node_name NodeStruct.publishers NodeStruct.subscriptions
       NodeStruct.timers NodeStruct.node_paths NodeStruct.callback_groups
       NodeStruct.variable_passings NodeStruct.tf_buffer NodeStruct.tf_broadcaster].
  pose proof (SubscriptionsStruct_to_value_twice subs) as Hsubs.
  destruct (SubscriptionsStruct.to_value subs) as [subs_v subs'] eqn:Hs1.
  cbn [fst snd] in Hsubs.
  specialize (Htimers timers).
  destruct (TimersStruct_to_value timers) as [[timers_v | e] timers'] eqn:Ht1;
    cbn [fst snd] in Htimers.
  2:{ cbn [fst snd NodeStruct.subscriptions NodeStruct.timers].
      destruct (SubscriptionsStruct.to_value subs') as [subs_v2 subs''].
      destruct (TimersStruct_to_value timers') as [[timers_v2 | e2] timers''];
        cbn [fst] in Htimers; [discriminate |]. cbn [fst]. congruence. }
  pose proof (NodePathsStruct_to_value_twice node_paths) as Hpaths.
  destruct (NodePathsStruct.to_value node_paths) as [[paths_v | e] paths'] eqn:Hp1;
    cbn [fst snd] in Hpaths.
  2:{ cbn [fst snd NodeStruct.subscriptions NodeStruct.timers NodeStruct.node_paths].
      destruct (SubscriptionsStruct.to_value subs') as [subs_v2 subs''].
      destruct (TimersStruct_to_value timers') as [[timers_v2 | e2] timers''];
        cbn [fst] in Htimers; [| discriminate].
      destruct (NodePathsStruct.to_value paths') as [[paths_v2 | e3] paths''];
        cbn [fst] in Hpaths; [discriminate |]. cbn [fst]. congruence. }
  specialize (Hgroups groups).
  destruct (CallbackGroupsStruct_to_value groups) as [[groups_v | e] groups'] eqn:Hg1;
    cbn [fst snd] in Hgroups;
    cbn [fst snd NodeStruct.node_id NodeStruct.node_name NodeStruct.publishers
         NodeStruct.subscriptions NodeStruct.timers NodeStruct.node_paths
         NodeStruct.callback_groups NodeStruct.variable_passings NodeStruct.tf_buffer
         NodeStruct.tf_broadcaster];
    destruct (SubscriptionsStruct.to_value subs') as [subs_v2 subs''];
    cbn [fst] in Hsubs;
    destruct (TimersStruct_to_value timers') as [[timers_v2 | e2] timers''];
    cbn [fst] in Htimers; try discriminate;
    destruct (NodePathsStruct.to_value paths') as [[paths_v2 | e3] paths''];
    cbn [fst] in Hpaths; try discriminate;
    destruct (CallbackGroupsStruct_to_value groups') as [[groups_v2 | e4] groups''];
    cbn [fst] in Hgroups; try discriminate; cbn [fst]; congruence.
Qed.

(** * Further properties of the code *)

(** ** Building the transform tree *)

Lemma create_loop_S (fuel : nat) (transforms : list TransformValue)
    (edge_trees : option (list TransformTreeValue)) (tfs : gset TransformValue) :
  TransformTreeValue.create_loop (S fuel) transforms edge_trees tfs =
  let edge_tfs : gset TransformValue :=
    list_to_set (TransformTreeValue._get_edge_tfs (elements tfs)) in
  let tfs' := tfs ∖ edge_tfs in
  let returns :=
    match edge_trees with
    | Some ts => if decide (size tfs' = 0%nat) then Some ts else None
    | None => None
    end in
  match returns with
  | Some ts =>
      match ts with
      | [t] => Some (Ok t)
      | _ => Some (Raise AssertionError)
      end
  | None =>
      let edge_trees1 :=
        match edge_trees with
        | Some ts => ts
        | None => map (fun edge_tf => TransformTree edge_tf []) (elements edge_tfs)
        end in
      match TransformTreeValue.group_parents transforms edge_trees1 with
      | Raise e => Some (Raise e)
      | Ok parent_trees =>
          TransformTreeValue.create_loop fuel transforms (Some parent_trees) tfs'
      end
  end.
Proof. reflexivity. Qed.

(** Fewer than two transforms never give a tree: no transform at all
    fails the assertion on the number of trees, and a single transform
    between two different frames finds no parent. *)
Theorem create_from_transforms_too_few :
  (forall fuel : nat,
      TransformTreeValue.create_from_transforms (S (S fuel)) [] = Some (Raise AssertionError))
  /\ (forall (fuel : nat) (tf : TransformValue),
      frame_id tf <> child_frame_id tf ->
      TransformTreeValue.create_from_transforms (S fuel) [tf]
      = Some (Raise ItemNotFoundError)).
Proof.
  split.
  - intros fuel. unfold TransformTreeValue.create_from_transforms.
    rewrite create_loop_S. cbv zeta.
    change (list_to_set [] : gset TransformValue) with (∅ : gset TransformValue).
    rewrite elements_empty.
    change (TransformTreeValue._get_edge_tfs []) with (@nil TransformValue).
    change (list_to_set [] : gset TransformValue) with (∅ : gset TransformValue).
    rewrite elements_empty. cbn [map].
    change (TransformTreeValue.group_parents [] []) with (@Ok (list TransformTreeValue) []).
    lazy beta iota. rewrite difference_empty_L, create_loop_S. cbv zeta.
    rewrite elements_empty.
    change (TransformTreeValue._get_edge_tfs []) with (@nil TransformValue).
    change (list_to_set [] : gset TransformValue) with (∅ : gset TransformValue).
    rewrite decide_True; [reflexivity |].
    apply size_empty_iff. set_solver.
  - intros fuel tf Hne. unfold TransformTreeValue.create_from_transforms.
    rewrite create_loop_S. cbv zeta.
    assert (Hset : (list_to_set [tf] : gset TransformValue) = {[ tf ]}) by set_solver.
    rewrite Hset, elements_singleton.
    assert (Hedge : TransformTreeValue._get_edge_tfs [tf] = [tf]).
    { unfold TransformTreeValue._get_edge_tfs, Util.filter_items, TransformTreeValue.is_edge.
      cbn [List.filter existsb]. apply String.eqb_neq in Hne. rewrite Hne. reflexivity. }
    rewrite Hedge, Hset, elements_singleton. cbn [map].
    unfold TransformTreeValue.group_parents. cbn [groupby rmap_list fst snd].
    unfold Util.find_one. cbn [List.filter TransformTreeValue.transform].
    apply String.eqb_neq in Hne. rewrite Hne. reflexivity.
Qed.

Lemma create_from_transforms_too_few_witness :
  TransformTreeValue.create_from_transforms 1 [tf_root_A] = Some (Raise ItemNotFoundError).
Proof.
  apply (proj2 create_from_transforms_too_few 0 tf_root_A). discriminate.
Defined.

Lemma get_edge_tfs_none (transforms : list TransformValue) :
  (forall tf, tf ∈ transforms ->
              exists tf', tf' ∈ transforms /\ frame_id tf = child_frame_id tf') ->
  TransformTreeValue._get_edge_tfs transforms = [].
Proof.
  intros Hparent. unfold TransformTreeValue._get_edge_tfs, Util.filter_items.
  assert (Hall : forall tf, tf ∈ transforms ->
                            TransformTreeValue.is_edge transforms tf = false).
  { intros tf Htf. unfold TransformTreeValue.is_edge. apply negb_false_iff.
    apply existsb_exists. destruct (Hparent tf Htf) as (tf' & Hin & Heq).
    exists tf'. split; [by apply list_elem_of_In | by apply String.eqb_eq]. }
  clear Hparent. revert Hall. generalize (TransformTreeValue.is_edge transforms).
  induction transforms as [| tf tfs IH]; intros f Hall; [reflexivity |].
  cbn [List.filter]. rewrite (Hall tf) by apply list_elem_of_here.
  apply IH. intros tf' Htf'. apply Hall. by apply list_elem_of_further.
Qed.

Lemma create_loop_no_edges (transforms : list TransformValue) (tfs : gset TransformValue) :
  TransformTreeValue._get_edge_tfs (elements tfs) = [] ->
  size tfs <> 0%nat ->
  forall (fuel : nat) (edge_trees : option (list TransformTreeValue)),
    edge_trees = None \/ edge_trees = Some [] ->
    TransformTreeValue.create_loop fuel transforms edge_trees tfs = None.
Proof.
  intros Hedges Hsize fuel. induction fuel as [| fuel IH]; intros edge_trees Hts; [reflexivity |].
  rewrite create_loop_S. cbv zeta. rewrite Hedges.
  change (list_to_set [] : gset TransformValue) with (∅ : gset TransformValue).
  rewrite difference_empty_L, elements_empty. cbn [map].
  destruct Hts as [-> | ->].
  - change (TransformTreeValue.group_parents transforms [])
      with (@Ok (list TransformTreeValue) []).
    apply IH. by right.
  - rewrite decide_False by exact Hsize.
    change (TransformTreeValue.group_parents transforms [])
      with (@Ok (list TransformTreeValue) []).
    apply IH. by right.
Qed.

(** When every transform hangs below another one (its [frame_id] is some
    transform's [child_frame_id], as in a cycle), no transform is ever an
    edge and the loop of [create_from_transforms] never ends: no amount of
    fuel gives a result. *)
Theorem create_from_transforms_cycle_diverges (transforms : list TransformValue) :
  transforms <> [] ->
  (forall tf, tf ∈ transforms ->
              exists tf', tf' ∈ transforms /\ frame_id tf = child_frame_id tf') ->
  forall fuel : nat, TransformTreeValue.create_from_transforms fuel transforms = None.
Proof.
  intros Hne Hparent fuel. unfold TransformTreeValue.create_from_transforms.
  apply create_loop_no_edges; [| | by left].
  - apply get_edge_tfs_none. intros tf Htf.
    apply elem_of_elements, elem_of_list_to_set in Htf.
    destruct (Hparent tf Htf) as (tf' & Hin & Heq). exists tf'. split; [| exact Heq].
    by apply elem_of_elements, elem_of_list_to_set.
  - intros Hsize. apply size_empty_iff in Hsize.
    destruct transforms as [| tf tfs]; [done |]. set_solver.
Qed.

Lemma create_from_transforms_cycle_diverges_witness :
  TransformTreeValue.create_from_transforms 100
    [mkTransformValue "A" "B"; mkTransformValue "B" "A"] = None.
Proof.
  apply create_from_transforms_cycle_diverges; [discriminate |].
  intros tf Htf. apply elem_of_cons in Htf as [-> | Htf].
  - exists (mkTransformValue "B" "A"). split; [| reflexivity].
    apply list_elem_of_further, list_elem_of_here.
  - apply list_elem_of_singleton in Htf as ->.
    exists (mkTransformValue "A" "B"). split; [apply list_elem_of_here | reflexivity].
Defined.

(** ** What [is_in] can accept *)

(** All transforms of a tree, root first. *)
Fixpoint tree_transforms (tree : TransformTreeValue) : list TransformValue :=
  match tree with
  | TransformTree root cs =>
      root :: (fix children (cs : list TransformTreeValue) : list TransformValue :=
                 match cs with
                 | [] => []
                 | child :: cs' => tree_transforms child ++ children cs'
                 end) cs
  end.

(** Whether some transform of the tree has the frame as [frame_id]. *)
Definition has_frame (tree : TransformTreeValue) (frame : string) : bool :=
  existsb (fun tf => String.eqb (frame_id tf) frame) (tree_transforms tree).

Lemma root_path_spec (target_tf : string) (tree : TransformTreeValue) :
  match root_path target_tf tree with
  | Some p =>
      has_frame tree target_tf = true
      /\ (exists p', p = TransformTreeValue.transform tree :: p')
      /\ (forall tf, tf ∈ p -> tf ∈ tree_transforms tree)
  | None => has_frame tree target_tf = false
  end.
Proof.
  induction tree as [root cs IH] using TransformTreeValue_nested_ind.
  unfold has_frame. cbn [root_path tree_transforms existsb TransformTreeValue.transform].
  destruct (String.eqb (frame_id root) target_tf) eqn:Hroot.
  - split; [reflexivity |]. split; [by exists [] |].
    intros tf Htf. apply list_elem_of_singleton in Htf as ->. apply list_elem_of_here.
  - cbn [orb]. induction IH as [| c cs' Hc _ IHcs].
    + reflexivity.
    + destruct (root_path target_tf c) as [p |].
      * destruct Hc as (Hhas & _ & Hsub). split; [| split].
        -- rewrite existsb_app. unfold has_frame in Hhas. by rewrite Hhas.
        -- by eexists.
        -- intros tf Htf. apply elem_of_cons in Htf as [-> | Htf];
             [apply list_elem_of_here |].
           apply list_elem_of_further, elem_of_app. left. by apply Hsub.
      * unfold has_frame in Hc. rewrite existsb_app, Hc. cbn [orb].
        destruct ((fix children (cs : list TransformTreeValue) :
                     option (list TransformValue) :=
                     match cs with
                     | [] => None
                     | child :: cs'0 =>
                         match root_path target_tf child with
                         | Some p => Some (root :: p)
                         | None => children cs'0
                         end
                     end) cs') as [p |].
        -- destruct IHcs as (Hhas & Hhead & Hsub). split; [exact Hhas |].
           split; [exact Hhead |].
           intros tf Htf. specialize (Hsub tf Htf).
           apply elem_of_cons in Hsub as [-> | Hsub]; [apply list_elem_of_here |].
           apply list_elem_of_further, elem_of_app. by right.
        -- exact IHcs.
Qed.

Lemma root_ancestor_set_subset (tree : TransformTreeValue) (frame : string)
    (tf : TransformValue) :
  tf ∈ root_ancestor_set tree frame -> tf ∈ tree_transforms tree.
Proof.
  unfold root_ancestor_set. pose proof (root_path_spec frame tree) as Hspec.
  destruct (root_path frame tree) as [p |]; simpl.
  - destruct Hspec as (_ & _ & Hsub). rewrite elem_of_list_to_set. apply Hsub.
  - set_solver.
Qed.

Lemma root_in_root_ancestor_set (tree : TransformTreeValue) (frame : string) :
  TransformTreeValue.transform tree ∈ root_ancestor_set tree frame
  <-> has_frame tree frame = true.
Proof.
  unfold root_ancestor_set. pose proof (root_path_spec frame tree) as Hspec.
  destruct (root_path frame tree) as [p |]; simpl.
  - destruct Hspec as (Hhas & [p' ->] & _). rewrite Hhas. split; [done |].
    intros _. apply elem_of_list_to_set, list_elem_of_here.
  - rewrite Hspec. split; [set_solver | discriminate].
Qed.

Lemma is_in_root_ancestor_sets (tree : TransformTreeValue) (lookup target : TransformValue) :
  TransformTreeValue.is_in tree lookup target = true <->
  (target ∈ root_ancestor_set tree (frame_id lookup)
     /\ target ∉ root_ancestor_set tree (child_frame_id lookup))
  \/ (target ∈ root_ancestor_set tree (child_frame_id lookup)
     /\ target ∉ root_ancestor_set tree (frame_id lookup)).
Proof.
  unfold TransformTreeValue.is_in, TransformTreeValue.set_xor.
  rewrite !to_root_root_ancestor_set, bool_decide_eq_true.
  set_solver.
Qed.

(** [is_in] only ever accepts a transform of the tree, and a lookup from
    a frame to itself accepts nothing. *)
Theorem is_in_accepts_tree_transforms_only (tree : TransformTreeValue)
    (lookup target : TransformValue) :
  TransformTreeValue.is_in tree lookup target = true ->
  target ∈ tree_transforms tree /\ frame_id lookup <> child_frame_id lookup.
Proof.
  intros His. apply is_in_root_ancestor_sets in His.
  split.
  - destruct His as [[Hin _] | [Hin _]]; by eapply root_ancestor_set_subset.
  - intros Heq. rewrite Heq in His. tauto.
Qed.

Lemma is_in_accepts_tree_transforms_only_witness :
  tf_A_B ∈ tree_transforms chain_tree /\ frame_id tf_root_B <> child_frame_id tf_root_B.
Proof.
  apply (is_in_accepts_tree_transforms_only chain_tree tf_root_B tf_A_B).
  vm_compute. reflexivity.
Defined.

(** The transform at the root of the tree is accepted exactly when one
    of the two frames of the lookup occurs in the tree as a [frame_id] and
    the other does not: a lookup between two frames of the tree never
    matches the root transform. *)
Theorem is_in_root_transform (tree : TransformTreeValue) (lookup : TransformValue) :
  TransformTreeValue.is_in tree lookup (TransformTreeValue.transform tree)
  = xorb (has_frame tree (frame_id lookup)) (has_frame tree (child_frame_id lookup)).
Proof.
  apply eq_true_iff_eq. rewrite is_in_root_ancestor_sets, !root_in_root_ancestor_set.
  destruct (has_frame tree (frame_id lookup)), (has_frame tree (child_frame_id lookup));
    simpl; intuition congruence.
Qed.

(** ** Which communications are built *)



(** ** The callback dictionary *)

Lemma find_snoc {A : Type} (p : A -> bool) (l : list A) (x : A) :
  List.find p (l ++ [x]) =
  match List.find p l with
  | Some y => Some y
  | None => if p x then Some x else None
  end.
Proof.
  induction l as [| y l IH]; simpl; [done |].
  destruct (p y); [done | exact IH].
Qed.

Lemma callbacks_dict_get_set (d : CallbacksStruct.t) (k k' : string) (v : CallbackStruct.t) :
  CallbacksStruct.dict_get (CallbacksStruct.dict_set d k v) k' =
  if String.eqb k k' then Some v else CallbacksStruct.dict_get d k'.
Proof.
  induction d as [| [k0 v0] d IH]; simpl.
  - reflexivity.
  - destruct (String.eqb_spec k0 k) as [-> | Hne]; simpl.
    + destruct (String.eqb k k'); reflexivity.
    + rewrite IH. destruct (String.eqb_spec k0 k') as [-> | Hne'].
      * apply String.eqb_neq in Hne. rewrite String.eqb_sym in Hne. by rewrite Hne.
      * reflexivity.
Qed.

Lemma callbacks_dict_get_fold (callbacks : list CallbackStruct.t) :
  forall (d : CallbacksStruct.t) (id : string),
    CallbacksStruct.dict_get (fold_left CallbacksStruct.insert callbacks d) id =
    match List.find (fun cb => String.eqb (CallbackStruct.callback_id cb) id) (rev callbacks) with
    | Some cb => Some cb
    | None => CallbacksStruct.dict_get d id
    end.
Proof.
  induction callbacks as [| cb callbacks IH]; intros d id; [reflexivity |].
  cbn [fold_left rev]. rewrite IH, find_snoc.
  destruct (List.find _ (rev callbacks)); [reflexivity |].
  unfold CallbacksStruct.insert. rewrite callbacks_dict_get_set.
  by destruct (String.eqb (CallbackStruct.callback_id cb) id).
Qed.

(** Every key of a dictionary filled by [insert] is the id of its
    callback. *)
Definition keyed_by_id (d : CallbacksStruct.t) : Prop :=
  forall (k : string) (v : CallbackStruct.t),
    CallbacksStruct.dict_get d k = Some v -> CallbackStruct.callback_id v = k.

Lemma keyed_by_id_fold (callbacks : list CallbackStruct.t) :
  keyed_by_id (fold_left CallbacksStruct.insert callbacks CallbacksStruct.empty).
Proof.
  intros k v. rewrite callbacks_dict_get_fold.
  destruct (List.find _ (rev callbacks)) as [cb |] eqn:Hfind; [| discriminate].
  intros [= <-]. apply find_some in Hfind as [_ Heq]. by apply String.eqb_eq.
Qed.

Lemma get_callbacks_fold (self : CallbacksStruct.t) (ids : list string) :
  keyed_by_id self ->
  forall (acc : CallbacksStruct.t) (id : string),
    (forall k v, CallbacksStruct.dict_get acc k = Some v ->
                 CallbacksStruct.dict_get self k = Some v) ->
    CallbacksStruct.dict_get
      (fold_left
         (fun callbacks callback_id =>
            match CallbacksStruct.dict_get self callback_id with
            | None => callbacks
            | Some callback => CallbacksStruct.insert callbacks callback
            end)
         ids acc) id =
    if str_in id ids then CallbacksStruct.dict_get self id
    else CallbacksStruct.dict_get acc id.
Proof.
  intros Hkeyed. induction ids as [| id0 ids IH]; intros acc id Hsub; [reflexivity |].
  cbn [fold_left]. unfold str_in in *. cbn [existsb].
  destruct (CallbacksStruct.dict_get self id0) as [cb |] eqn:Hget.
  - rewrite IH.
    + destruct (existsb (String.eqb id) ids); [by rewrite orb_true_r |].
      rewrite orb_false_r. unfold CallbacksStruct.insert.
      rewrite callbacks_dict_get_set, (Hkeyed id0 cb Hget), String.eqb_sym.
      destruct (String.eqb_spec id id0) as [-> | Hne]; [by rewrite Hget | reflexivity].
    + intros k v. unfold CallbacksStruct.insert.
      rewrite callbacks_dict_get_set, (Hkeyed id0 cb Hget).
      destruct (String.eqb_spec id0 k) as [<- | Hne]; [by intros [= <-] | apply Hsub].
  - rewrite IH by exact Hsub.
    destruct (existsb (String.eqb id) ids); [by rewrite orb_true_r |].
    rewrite orb_false_r.
    destruct (String.eqb_spec id id0) as [-> | Hne]; [| reflexivity].
    destruct (CallbacksStruct.dict_get acc id0) as [v |] eqn:Hacc; [| congruence].
    apply Hsub in Hacc. congruence.
Qed.

(** For callbacks collected by [insert]: [get_callback] returns the last
    callback inserted under the id and raises [ItemNotFoundError] for an
    id never inserted; [get_callbacks] returns a collection that answers
    like the original on the requested ids and knows no other id, unknown
    ids being skipped without an exception. *)
Theorem callbacks_get_after_insert (callbacks : list CallbackStruct.t) (ids : list string)
    (id : string) :
  let self := fold_left CallbacksStruct.insert callbacks CallbacksStruct.empty in
  CallbacksStruct.get_callback self id =
    match List.find (fun cb => String.eqb (CallbackStruct.callback_id cb) id) (rev callbacks) with
    | Some cb => Ok cb
    | None => Raise ItemNotFoundError
    end
  /\ CallbacksStruct.get_callback (CallbacksStruct.get_callbacks self ids) id =
     if str_in id ids then CallbacksStruct.get_callback self id else Raise ItemNotFoundError.
Proof.
  intros self. split.
  - unfold CallbacksStruct.get_callback. subst self. rewrite callbacks_dict_get_fold.
    by destruct (List.find _ (rev callbacks)).
  - unfold CallbacksStruct.get_callback, CallbacksStruct.get_callbacks.
    rewrite (get_callbacks_fold self ids (keyed_by_id_fold callbacks)); [| discriminate].
    by destruct (str_in id ids).
Qed.

(** ** Loading the subscriptions *)

(** The subscription struct of one reader record: none when the record
    names a callback id that the node's callbacks do not have. *)
Definition loaded_subscription (callbacks : CallbacksStruct.t) (value : SubscriptionValue.t)
  : list SubscriptionStruct.t :=
  match SubscriptionValue.callback_id value with
  | None =>
      [SubscriptionStruct.mk (SubscriptionValue.node_name value)
         (SubscriptionValue.topic_name value) None false]
  | Some id =>
      match CallbacksStruct.dict_get callbacks id with
      | Some cb =>
          [SubscriptionStruct.mk (SubscriptionValue.node_name value)
             (SubscriptionValue.topic_name value) (Some cb) false]
      | None => []
      end
  end.

(** [SubscriptionsStruct.create_from_reader] never raises: the records
    whose callback id is unknown are left out (after a warning), all
    others are loaded in reader order with their callback attached, and
    the collection is still open to [add]. *)
Theorem subscriptions_create_from_reader (subscription_values : list SubscriptionValue.t)
    (callbacks : CallbacksStruct.t) :
  SubscriptionsStruct.create_from_reader subscription_values callbacks =
  Ok (SubscriptionsStruct.mk (flat_map (loaded_subscription callbacks) subscription_values) false).
Proof.
  unfold SubscriptionsStruct.create_from_reader, SubscriptionsStruct.init.
  assert (Hgen : forall acc : list SubscriptionStruct.t,
    fold_left
      (fun acc sub_value =>
         subscriptions ← acc;
         match sub ← SubscriptionStruct.create_instance callbacks sub_value;
               SubscriptionsStruct.add subscriptions sub with
         | Ok subscriptions' => Ok subscriptions'
         | Raise e => if is_caret_error e then Ok subscriptions else Raise e
         end)
      subscription_values (Ok (SubscriptionsStruct.mk acc false))
    = Ok (SubscriptionsStruct.mk
            (acc ++ flat_map (loaded_subscription callbacks) subscription_values) false)).
  { induction subscription_values as [| value values IH]; intros acc; cbn [fold_left flat_map].
    - by rewrite app_nil_r.
    - assert (Hstep :
        (Ok (SubscriptionsStruct.mk acc false) ≫= fun subscriptions =>
           match sub ← SubscriptionStruct.create_instance callbacks value;
                 SubscriptionsStruct.add subscriptions sub with
           | Ok subscriptions' => Ok subscriptions'
           | Raise e => if is_caret_error e then Ok subscriptions else Raise e
           end)
        = Ok (SubscriptionsStruct.mk (acc ++ loaded_subscription callbacks value) false)).
      { unfold SubscriptionStruct.create_instance, loaded_subscription,
          CallbacksStruct.get_callback.
        destruct (SubscriptionValue.callback_id value) as [id |]; [| reflexivity].
        destruct (CallbacksStruct.dict_get callbacks id); [reflexivity |].
        cbn. by rewrite app_nil_r. }
      rewrite Hstep, IH, <- app_assoc. reflexivity. }
  exact (Hgen []).
Qed.

(** ** The node dictionary *)

Lemma nodes_dict_set_keys `{External} (d : NodesStruct.t) (k : string) (v : NodeStruct.t) :
  map fst (NodesStruct.dict_set d k v) =
  if bool_decide (k ∈ map fst d) then map fst d else map fst d ++ [k].
Proof.
  induction d as [| [k0 v0] d IH]; cbn [NodesStruct.dict_set map fst].
  - rewrite bool_decide_eq_false_2; [reflexivity | apply not_elem_of_nil].
  - destruct (String.eqb_spec k0 k) as [-> | Hne]; cbn [map fst].
    + rewrite bool_decide_eq_true_2; [reflexivity | apply list_elem_of_here].
    + rewrite IH. destruct (bool_decide (k ∈ map fst d)) eqn:Hin.
      * apply bool_decide_eq_true in Hin.
        rewrite bool_decide_eq_true_2; [reflexivity | by apply list_elem_of_further].
      * apply bool_decide_eq_false in Hin.
        rewrite bool_decide_eq_false_2; [reflexivity |].
        intros Hin'. apply elem_of_cons in Hin' as [-> | Hin']; [congruence | done].
Qed.

Lemma nodes_dict_set_NoDup `{External} (d : NodesStruct.t) (k : string) (v : NodeStruct.t) :
  NoDup (map fst d) -> NoDup (map fst (NodesStruct.dict_set d k v)).
Proof.
  intros Hnodup. rewrite nodes_dict_set_keys.
  destruct (bool_decide (k ∈ map fst d)) eqn:Hin; [exact Hnodup |].
  apply bool_decide_eq_false in Hin. apply NoDup_app. split; [exact Hnodup |].
  split; [| apply NoDup_singleton].
  intros x Hx Hx'. apply list_elem_of_singleton in Hx'. by subst.
Qed.

Lemma nodes_dict_set_elem `{External} (d : NodesStruct.t) (k k' : string) (v v' : NodeStruct.t) :
  NoDup (map fst d) ->
  (k', v') ∈ NodesStruct.dict_set d k v <->
  if String.eqb k k' then v' = v else (k', v') ∈ d.
Proof.
  induction d as [| [k0 v0] d IH]; intros Hnodup; cbn [NodesStruct.dict_set].
  - destruct (String.eqb_spec k k') as [-> | Hne]; rewrite list_elem_of_singleton.
    + split; [by intros [= ->] | by intros ->].
    + split; [intros [= -> ->]; congruence | intros Hin; inversion Hin].
  - cbn [map fst] in Hnodup. apply NoDup_cons in Hnodup as [Hk0 Hnodup].
    specialize (IH Hnodup).
    destruct (String.eqb_spec k0 k) as [-> | Hne0];
      destruct (String.eqb_spec k k') as [<- | Hne]; rewrite !elem_of_cons.
    + split; [| by intros ->; left].
      intros [[= ->] | Hin]; [done |]. exfalso. apply Hk0.
      apply list_elem_of_fmap. by exists (k, v').
    + split.
      * intros [[= -> ->] | Hin]; [congruence | by right].
      * intros [[= -> ->] | Hin]; [congruence | by right].
    + rewrite IH. split; [| by intros ->; right].
      intros [[= -> ->] | Hv]; [congruence | done].
    + rewrite IH. reflexivity.
Qed.

Lemma nodes_add_entries `{External} (nodes : list NodeStruct.t) :
  forall d : NodesStruct.t,
    NoDup (map fst d) ->
    NoDup (map fst (NodesStruct.add d nodes))
    /\ forall (k : string) (v : NodeStruct.t),
         (k, v) ∈ NodesStruct.add d nodes <->
         match List.find (fun n => String.eqb (NodeStruct.node_id n) k) (rev nodes) with
         | Some n => v = n
         | None => (k, v) ∈ d
         end.
Proof.
  unfold NodesStruct.add.
  induction nodes as [| node nodes IH]; intros d Hnodup; cbn [fold_left rev].
  - split; [exact Hnodup | reflexivity].
  - destruct (IH (NodesStruct.insert d node)) as [Hnodup' Hentries].
    { by apply nodes_dict_set_NoDup. }
    split; [exact Hnodup' |].
    intros k v. rewrite Hentries, find_snoc.
    destruct (List.find _ (rev nodes)); [reflexivity |].
    unfold NodesStruct.insert. rewrite (nodes_dict_set_elem _ _ _ _ _ Hnodup).
    by destruct (String.eqb (NodeStruct.node_id node) k).
Qed.

(** [NodesStruct] keeps one node per node id: filled from a sequence of
    nodes, it iterates over exactly the nodes that are the last of their
    id in the sequence. *)
Theorem nodes_last_of_each_id `{External} (nodes : list NodeStruct.t) :
  let self := NodesStruct.add [] nodes in
  NoDup (map NodeStruct.node_id (NodesStruct.iter self))
  /\ forall node : NodeStruct.t,
       node ∈ NodesStruct.iter self <->
       List.find (fun n => String.eqb (NodeStruct.node_id n) (NodeStruct.node_id node))
                 (rev nodes) = Some node.
Proof.
  intros self. destruct (nodes_add_entries nodes []) as [Hnodup Hentries]; [constructor |].
  fold self in Hnodup, Hentries.
  assert (Hkey : forall k v, (k, v) ∈ self -> NodeStruct.node_id v = k).
  { intros k v Hin. apply Hentries in Hin.
    destruct (List.find _ (rev nodes)) as [n |] eqn:Hfind; [| inversion Hin].
    subst v. apply find_some in Hfind as [_ Heq]. by apply String.eqb_eq. }
  split.
  - unfold NodesStruct.iter.
    assert (Heq : map NodeStruct.node_id (map snd self) = map fst self).
    { rewrite map_map. apply map_ext_in. intros [k v] Hin. cbn.
      apply Hkey. by apply list_elem_of_In. }
    by rewrite Heq.
  - intros node. unfold NodesStruct.iter. rewrite list_elem_of_fmap. split.
    + intros ([k v] & -> & Hin). cbn. pose proof (Hkey k v Hin) as Hid. rewrite Hid.
      apply Hentries in Hin.
      destruct (List.find _ (rev nodes)); [by subst | inversion Hin].
    + intros Hfind. exists (NodeStruct.node_id node, node). split; [reflexivity |].
      apply Hentries. by rewrite Hfind.
Qed.

(** ** Node paths: conversion and lookup *)

(** [NodePathsStruct.get_by_context_dict]; the frame-id arguments are
    not read by the function. *)
Definition NodePathsStruct_get_by_context_dict `{External} (self : NodePathsStruct.t)
    (node_name subscribe_topic_name publish_topic_name : string) : result NodePathStruct.t :=
  match
    List.find
      (fun node_path : NodePathStruct.t =>
         if negb (String.eqb (NodePathStruct.node_name node_path) node_name) then false
         else if match NodePathStruct.publisher node_path with
                 | Some pub => negb (String.eqb (PublisherStruct.topic_name pub) publish_topic_name)
                 | None => false
                 end then false
         else if match NodePathStruct.tf_frame_broadcaster node_path with
                 | None => String.eqb publish_topic_name "/tf"
                 | Some _ => false
                 end then false
         else if match NodePathStruct.subscription node_path with
                 | Some sub =>
                     negb (String.eqb (SubscriptionStruct.topic_name sub) subscribe_topic_name)
                 | None => false
                 end then false
         else if match NodePathStruct.tf_frame_buffer node_path with
                 | Some _ => String.eqb subscribe_topic_name "/tf"
                 | None => false
                 end then false
         else true)
      self
  with
  | Some node_path => Ok node_path
  | None => Raise ItemNotFoundError
  end.






(** On the table of a node whose first input is a subscription on topic
    [s], [get_by_context_dict] for [s] and any publish topic other than
    "/tf" returns the entry of that subscription with no output: the
    first entry of the table passes every test, whatever the publish
    topic. *)
Theorem get_by_context_dict_input_only `{External} (node : NodeStruct.t)
    (sub : SubscriptionStruct.t) (inputs : list NodeInputType) (publish_topic_name : string) :
  NodeStruct.node_inputs node = InSubscription sub :: inputs ->
  publish_topic_name <> "/tf" ->
  NodePathsStruct_get_by_context_dict (NodePathsStruct_create_from_reader node)
    (NodeStruct.node_name node) (SubscriptionStruct.topic_name sub) publish_topic_name
  = Ok (NodePathStruct.init (NodeStruct.node_name node) (Some (InSubscription sub)) None).
Proof.
  intros Hinputs Hpub. unfold NodePathsStruct_create_from_reader.
  rewrite create_table_eq, Hinputs. cbn [map app].
  unfold NodePathsStruct_get_by_context_dict. cbn [List.find].
  cbn [NodePathStruct.init NodePathStruct.node_name NodePathStruct.publisher
       NodePathStruct.tf_frame_broadcaster NodePathStruct.subscription
       NodePathStruct.tf_frame_buffer NodePathStruct.node_output NodePathStruct.node_input].
  rewrite !String.eqb_refl. apply String.eqb_neq in Hpub. rewrite Hpub. reflexivity.
Qed.

Lemma get_by_context_dict_input_only_witness :
  NodePathsStruct_get_by_context_dict (NodePathsStruct_create_from_reader node_N)
    "N" "/in" "/no_such_topic"
  = Ok (NodePathStruct.init "N" (Some (InSubscription (SubscriptionStruct.init "N" "/in" None)))
          None).
Proof.
  apply (get_by_context_dict_input_only node_N (SubscriptionStruct.init "N" "/in" None) []).
  - reflexivity.
  - discriminate.
Defined.

(** ** The node list is sorted *)

From Stdlib Require Import Sorted.

Definition name_le (a b : NodeValue.t) : Prop :=
  String.leb (NodeValue.node_name a) (NodeValue.node_name b) = true.

Definition name_lt (a b : NodeValue.t) : Prop :=
  String.ltb (NodeValue.node_name a) (NodeValue.node_name b) = true.

Lemma ltb_leb (a b : string) : String.ltb a b = true -> String.leb a b = true.
Proof. unfold String.ltb, String.leb. by destruct (String.compare a b). Qed.

Lemma not_ltb_leb (a b : string) : String.ltb a b = false -> String.leb b a = true.
Proof.
  unfold String.ltb, String.leb. rewrite (String.compare_antisym b a).
  by destruct (String.compare a b).
Qed.

Lemma leb_neq_ltb (a b : string) : String.leb a b = true -> a <> b -> String.ltb a b = true.
Proof.
  unfold String.ltb, String.leb. intros Hle Hne.
  destruct (String.compare a b) eqn:Hcmp; [| done | done].
  by apply String.compare_eq_iff in Hcmp.
Qed.

Lemma insert_sorted_HdRel (x y : NodeValue.t) (l : list NodeValue.t) :
  name_le y x -> HdRel name_le y l -> HdRel name_le y (insert_sorted NodeValue.node_name x l).
Proof.
  intros Hyx Hhd. destruct l as [| z l]; cbn [insert_sorted].
  - by constructor.
  - destruct (String.ltb (NodeValue.node_name z) (NodeValue.node_name x));
      constructor; [by inversion Hhd | exact Hyx].
Qed.

Lemma insert_sorted_Sorted (x : NodeValue.t) (l : list NodeValue.t) :
  Sorted name_le l -> Sorted name_le (insert_sorted NodeValue.node_name x l).
Proof.
  induction l as [| y l IH]; intros Hsorted; cbn [insert_sorted].
  - by repeat constructor.
  - apply Sorted_inv in Hsorted as [Hsorted Hhd].
    destruct (String.ltb (NodeValue.node_name y) (NodeValue.node_name x)) eqn:Hlt.
    + constructor; [by apply IH |].
      apply insert_sorted_HdRel; [by apply ltb_leb | exact Hhd].
    + constructor; [by constructor |]. constructor. by apply not_ltb_leb.
Qed.

Lemma sorted_Sorted (l : list NodeValue.t) : Sorted name_le (sorted NodeValue.node_name l).
Proof.
  induction l as [| x l IH]; cbn [sorted fold_right]; [constructor |].
  by apply insert_sorted_Sorted.
Qed.

Lemma Sorted_strict (l : list NodeValue.t) :
  Sorted name_le l -> NoDup (map NodeValue.node_name l) -> Sorted name_lt l.
Proof.
  induction l as [| x l IH]; intros Hsorted Hnodup; [constructor |].
  apply Sorted_inv in Hsorted as [Hsorted Hhd]. cbn [map] in Hnodup.
  apply NoDup_cons in Hnodup as [Hx Hnodup].
  constructor; [by apply IH |].
  destruct l as [| y l]; constructor. inversion Hhd; subst.
  apply leb_neq_ltb; [assumption |].
  intros Heq. apply Hx. rewrite Heq. apply list_elem_of_here.
Qed.

(** [get_nodes] never raises: it returns exactly the nodes of the reader
    that are the first of their name, in strictly increasing order of
    their names, whatever the order of the reader. *)
Theorem get_nodes_sorted_by_name (reader : ArchitectureReader.t) (ignore_topics : list string) :
  exists nodes_ : list NodeValue.t,
    fst (TopicIgnoredReader.get_nodes (TopicIgnoredReader.init reader ignore_topics)) = Ok nodes_
    /\ Sorted name_lt nodes_
    /\ (forall n : NodeValue.t,
           n ∈ nodes_ <->
           List.find (fun m => String.eqb (NodeValue.node_name m) (NodeValue.node_name n))
             (ArchitectureReader.get_nodes reader) = Some n).
Proof.
  unfold TopicIgnoredReader.get_nodes, TopicIgnoredReader.init. simpl.
  destruct (validate_adjacent (ArchitectureReader.get_nodes reader)) as [msg Hvalidate].
  rewrite Hvalidate, first_by_name_first_occurrences.
  exists (sorted NodeValue.node_name (first_occurrences [] (ArchitectureReader.get_nodes reader))).
  split; [by destruct (has_adjacent_dup _) |]. split.
  - apply Sorted_strict; [apply sorted_Sorted |].
    rewrite sorted_Permutation. apply first_occurrences_NoDup.
  - intros n. rewrite sorted_Permutation, first_occurrences_spec.
    split; [by intros [_ Hfind] | intros Hfind; split; [apply not_elem_of_nil | done]].
Qed.

(** ** Filtering keeps the reader's order *)

(** The filtering reader returns the publishers, the subscriptions and
    the subscription callbacks of the underlying reader whose topic is not
    ignored, in the reader's order and as often as the reader lists
    them. *)
Theorem topic_ignored_reader_keeps_order (reader : ArchitectureReader.t)
    (ignore_topics : list string) (node : NodeValue.t) :
  let filtered := TopicIgnoredReader.init reader ignore_topics in
  TopicIgnoredReader._get_publishers filtered node
    = List.filter (fun p => negb (str_in (PublisherValue.topic_name p) ignore_topics))
        (ArchitectureReader._get_publishers reader node)
  /\ TopicIgnoredReader._get_subscriptions filtered node
    = List.filter (fun s => negb (str_in (SubscriptionValue.topic_name s) ignore_topics))
        (ArchitectureReader._get_subscriptions reader node)
  /\ TopicIgnoredReader._get_subscription_callbacks filtered node
    = List.filter
        (fun cb => negb (str_in (SubscriptionCallbackValue.subscribe_topic_name cb) ignore_topics))
        (ArchitectureReader._get_subscription_callbacks reader node).
Proof.
  intros filtered. split; [| split].
  - apply (fold_left_keep (fun p => str_in (PublisherValue.topic_name p) ignore_topics)).
  - apply (fold_left_keep (fun s => str_in (SubscriptionValue.topic_name s) ignore_topics)).
  - apply (fold_left_keep
             (fun cb => str_in (SubscriptionCallbackValue.subscribe_topic_name cb) ignore_topics)).
Qed.

Lemma filter_all {A : Type} (l : list A) : List.filter (fun _ => true) l = l.
Proof. induction l as [| x l IH]; simpl; [done | by rewrite IH]. Qed.

(** With an empty ignore list the filtering reader is transparent: it
    returns the publishers, subscriptions and subscription callbacks of
    the underlying reader unchanged, ignores no callback id, and every
    callback group keeps all its callback ids (as a set). *)
Theorem topic_ignored_reader_empty_list (reader : ArchitectureReader.t) (node : NodeValue.t) :
  let filtered := TopicIgnoredReader.init reader [] in
  TopicIgnoredReader._get_publishers filtered node
    = ArchitectureReader._get_publishers reader node
  /\ TopicIgnoredReader._get_subscriptions filtered node
    = ArchitectureReader._get_subscriptions reader node
  /\ TopicIgnoredReader._get_subscription_callbacks filtered node
    = ArchitectureReader._get_subscription_callbacks reader node
  /\ TopicIgnoredReader._ignore_callback_ids filtered = ∅
  /\ Forall2
       (fun returned underlying : CallbackGroupValue.t =>
          forall callback_id : string,
            callback_id ∈ CallbackGroupValue.callback_ids returned <->
            callback_id ∈ CallbackGroupValue.callback_ids underlying)
       (TopicIgnoredReader._get_callback_groups filtered node)
       (ArchitectureReader._get_callback_groups reader node).
Proof.
  intros filtered.
  pose proof (fold_left_keep (fun p : PublisherValue.t => str_in (PublisherValue.topic_name p) [])
                (ArchitectureReader._get_publishers reader node)) as Hp.
  pose proof (fold_left_keep
                (fun s : SubscriptionValue.t => str_in (SubscriptionValue.topic_name s) [])
                (ArchitectureReader._get_subscriptions reader node)) as Hs.
  pose proof (fold_left_keep
                (fun cb : SubscriptionCallbackValue.t =>
                   str_in (SubscriptionCallbackValue.subscribe_topic_name cb) [])
                (ArchitectureReader._get_subscription_callbacks reader node)) as Hc.
  cbn [str_in existsb negb] in Hp, Hs, Hc.
  rewrite filter_all in Hp. rewrite filter_all in Hs. rewrite filter_all in Hc.
  assert (Hids : TopicIgnoredReader._ignore_callback_ids filtered = ∅).
  { apply set_eq. intros id. cbn [filtered TopicIgnoredReader.init
                                  TopicIgnoredReader._ignore_callback_ids].
    rewrite get_ignore_callback_ids_spec. split; [| set_solver].
    intros (n & cb & _ & _ & Hin & _). inversion Hin. }
  repeat split; try assumption.
  unfold TopicIgnoredReader._get_callback_groups. rewrite Hids.
  cbn [filtered TopicIgnoredReader.init TopicIgnoredReader._reader].
  induction (ArchitectureReader._get_callback_groups reader node) as [| cbg cbgs IH];
    cbn [map]; constructor; [| exact IH].
  intros id. cbn [CallbackGroupValue.callback_ids].
  rewrite elem_of_elements, elem_of_difference, elem_of_list_to_set. set_solver.
Qed.

(** ** The inter-node searcher: node-path table and filters *)

Section NodePathSearcherLookup.

Context {CommunicationValueT NodePathValueT NodeValueT : Type}.
Variable subscribe_node_name : CommunicationValueT -> string.
Variable publish_node_name : CommunicationValueT -> string.
Variable comm_topic_name : CommunicationValueT -> string.
Variable paths : NodeValueT -> list NodePathValueT.
Variable tf_frame_broadcaster : NodePathValueT -> option TransformFrameBroadcasterStructValue.t.
Variable tf_frame_buffer : NodePathValueT -> option TransformFrameBufferStructValue.t.
Variable publish_topic_name : NodePathValueT -> option string.
Variable subscribe_topic_name : NodePathValueT -> option string.
Variable node_path_node_name : NodePathValueT -> string.

(** [NodePathSearcher._find_node_path]. *)
Definition _find_node_path (self : @NodePathSearcher CommunicationValueT NodePathValueT)
    (sub_topic_name pub_topic_name : option string) (node_name : string)
  : result (@NodePathWrapper NodePathValueT) :=
  let key : NodePathKey := (sub_topic_name, pub_topic_name, node_name) in
  match _node_path_dict self !! key with
  | None => Raise ItemNotFoundError
  | Some node_path => Ok node_path
  end.

(** The wrapped node paths of the nodes, in the order of the
    constructor's first loop. *)
Definition wrapped_node_paths (nodes : list NodeValueT) : list (@NodePathWrapper NodePathValueT) :=
  map (NodePathWrapper_init tf_frame_broadcaster tf_frame_buffer publish_topic_name
         subscribe_topic_name)
      (Util.flatten (map paths nodes)).

Lemma node_path_step_eq (self : @NodePathSearcher CommunicationValueT NodePathValueT)
    (node_path : NodePathWrapper) :
  node_path_step node_path_node_name self node_path =
  match _node_path_dict self !! NodePathWrapper_get_key node_path_node_name node_path with
  | None =>
      Ok (mkNodePathSearcher
            (<[NodePathWrapper_get_key node_path_node_name node_path := node_path]>
               (_node_path_dict self))
            (_comm_dict self) (_graph self) (warnings self))
  | Some _ => Raise (AttributeError "subscribe_topic_name")
  end.
Proof.
  unfold node_path_step.
  destruct (_node_path_dict self !! NodePathWrapper_get_key node_path_node_name node_path);
    [| reflexivity].
  by rewrite node_path_warning_raises.
Qed.

Lemma add_node_paths_table (node_paths : list NodePathWrapper) :
  forall self : @NodePathSearcher CommunicationValueT NodePathValueT,
    match fold_left (fun acc node_path =>
                       self ← acc; node_path_step node_path_node_name self node_path)
                    node_paths (Ok self) with
    | Ok self' =>
        NoDup (map (NodePathWrapper_get_key node_path_node_name) node_paths)
        /\ (forall w, w ∈ node_paths ->
                      _node_path_dict self !! NodePathWrapper_get_key node_path_node_name w = None)
        /\ (forall k,
               _node_path_dict self' !! k =
               match List.find
                       (fun w => bool_decide (NodePathWrapper_get_key node_path_node_name w = k))
                       node_paths with
               | Some w => Some w
               | None => _node_path_dict self !! k
               end)
    | Raise e =>
        e = AttributeError "subscribe_topic_name"
        /\ ~ (NoDup (map (NodePathWrapper_get_key node_path_node_name) node_paths)
              /\ forall w, w ∈ node_paths ->
                   _node_path_dict self !! NodePathWrapper_get_key node_path_node_name w = None)
    end.
Proof.
  induction node_paths as [| w ws IH]; intros self; cbn [fold_left].
  - split; [constructor |]. split; [intros w Hw; inversion Hw | reflexivity].
  - change (Ok self ≫= _) with (node_path_step node_path_node_name self w).
    rewrite node_path_step_eq.
    destruct (_node_path_dict self !! NodePathWrapper_get_key node_path_node_name w) eqn:Hlook.
    + rewrite fold_result_raise. split; [reflexivity |].
      intros [_ Hfresh]. specialize (Hfresh w (list_elem_of_here _ _)). congruence.
    + specialize (IH (mkNodePathSearcher
                        (<[NodePathWrapper_get_key node_path_node_name w := w]>
                           (_node_path_dict self))
                        (_comm_dict self) (_graph self) (warnings self))).
      destruct (fold_left _ ws _) as [self' | e]; cbn [_node_path_dict] in IH.
      * destruct IH as (Hnodup & Hfresh & Hdict).
        assert (Hne : forall w', w' ∈ ws ->
                      NodePathWrapper_get_key node_path_node_name w'
                      <> NodePathWrapper_get_key node_path_node_name w).
        { intros w' Hw' Heq. specialize (Hfresh w' Hw'). rewrite Heq in Hfresh.
          by rewrite lookup_insert_eq in Hfresh. }
        split; [| split].
        -- cbn [map]. constructor; [| exact Hnodup].
           intros Hin. apply list_elem_of_fmap in Hin as (w' & Heq & Hw').
           by apply (Hne w' Hw').
        -- intros w' Hw'. apply elem_of_cons in Hw' as [-> | Hw']; [exact Hlook |].
           specialize (Hfresh w' Hw'). rewrite lookup_insert_ne in Hfresh; [done |].
           intros Heq. by apply (Hne w' Hw').
        -- intros k. rewrite Hdict. cbn [List.find].
           destruct (List.find _ ws) as [w' |] eqn:Hfind.
           ++ apply find_some in Hfind as [Hw' Hk]. apply bool_decide_eq_true in Hk.
              rewrite bool_decide_eq_false_2; [reflexivity |].
              intros Heq. apply (Hne w'); [by apply list_elem_of_In | congruence].
           ++ destruct (decide (NodePathWrapper_get_key node_path_node_name w = k)) as [<- | Hk].
              ** by rewrite bool_decide_eq_true_2, lookup_insert_eq.
              ** by rewrite bool_decide_eq_false_2, lookup_insert_ne.
      * destruct IH as [-> Hnot]. split; [reflexivity |].
        intros [Hnodup Hfresh]. cbn [map] in Hnodup.
        apply NoDup_cons in Hnodup as [Hw Hnodup]. apply Hnot. split; [exact Hnodup |].
        intros w' Hw'. rewrite lookup_insert_ne; [apply Hfresh; by apply list_elem_of_further |].
        intros Heq. apply Hw. apply list_elem_of_fmap. by exists w'.
Qed.

(** After a construction that completed, [_find_node_path] finds each
    node path of the nodes under its key (input topic, output topic, node
    name), and raises [ItemNotFoundError] for every other key; no two
    node paths had the same key. *)
Theorem find_node_path_after_init (nodes : list NodeValueT)
    (communications : list CommunicationValue)
    (node_filter communication_filter : option (string -> bool))
    (searcher : NodePathSearcher) :
  NodePathSearcher_init subscribe_node_name publish_node_name comm_topic_name paths
    tf_frame_broadcaster tf_frame_buffer publish_topic_name subscribe_topic_name
    node_path_node_name nodes communications node_filter communication_filter
  = Ok searcher ->
  NoDup (map (NodePathWrapper_get_key node_path_node_name) (wrapped_node_paths nodes))
  /\ (forall w, w ∈ wrapped_node_paths nodes ->
        _find_node_path searcher (_input_topic_name w) (_output_topic_name w)
          (NodePathWrapper_node_name node_path_node_name w) = Ok w)
  /\ (forall (sub_topic_name pub_topic_name : option string) (node_name : string),
        (sub_topic_name, pub_topic_name, node_name)
          ∉ map (NodePathWrapper_get_key node_path_node_name) (wrapped_node_paths nodes) ->
        _find_node_path searcher sub_topic_name pub_topic_name node_name
        = Raise ItemNotFoundError).
Proof.
  unfold NodePathSearcher_init. cbv zeta. fold (wrapped_node_paths nodes). intros Hok.
  pose proof (add_node_paths_table (wrapped_node_paths nodes) (mkNodePathSearcher ∅ ∅ [] []))
    as Htable.
  destruct (fold_left _ (wrapped_node_paths nodes) _) as [self1 | e]; [| discriminate].
  destruct Htable as (Hnodup & _ & Hdict).
  change (Ok self1 ≫= _) with
    (add_communications comm_topic_name node_filter communication_filter
       (map (CommunicationWrapper_init subscribe_node_name publish_node_name) communications)
       self1) in Hok.
  apply add_communications_ok in Hok as (_ & _ & _ & _ & _ & _ & Hsame).
  assert (Hlookup : forall k,
             _node_path_dict searcher !! k =
             List.find (fun w => bool_decide (NodePathWrapper_get_key node_path_node_name w = k))
                       (wrapped_node_paths nodes)).
  { intros k. rewrite Hsame, Hdict. cbn [_node_path_dict].
    destruct (List.find _ (wrapped_node_paths nodes)); [reflexivity | apply lookup_empty]. }
  split; [exact Hnodup |]. split.
  - intros w Hw. unfold _find_node_path. cbv zeta.
    change (_input_topic_name w, _output_topic_name w,
            NodePathWrapper_node_name node_path_node_name w)
      with (NodePathWrapper_get_key node_path_node_name w).
    rewrite Hlookup.
    destruct (List.find _ (wrapped_node_paths nodes)) as [w' |] eqn:Hfind.
    + apply find_some in Hfind as [Hw' Hk]. apply bool_decide_eq_true in Hk.
      apply list_elem_of_In in Hw'.
      assert (w' = w); [| by subst].
      apply list_elem_of_lookup in Hw as [i Hi]. apply list_elem_of_lookup in Hw' as [j Hj].
      assert (i = j); [| congruence].
      eapply NoDup_lookup; [exact Hnodup | |].
      * rewrite list_lookup_fmap, Hi. reflexivity.
      * rewrite list_lookup_fmap, Hj. cbn. by rewrite Hk.
    + exfalso. apply list_elem_of_In in Hw.
      pose proof (find_none _ _ Hfind w Hw) as Hnone. cbn in Hnone.
      by rewrite bool_decide_eq_true_2 in Hnone.
  - intros s p n Hnotin. unfold _find_node_path. cbv zeta. rewrite Hlookup.
    destruct (List.find _ (wrapped_node_paths nodes)) as [w' |] eqn:Hfind; [| reflexivity].
    apply find_some in Hfind as [Hw' Hk]. apply bool_decide_eq_true in Hk.
    exfalso. apply Hnotin. apply list_elem_of_fmap. exists w'.
    split; [done | by apply list_elem_of_In].
Qed.

(** Two node paths with the same key (input topic, output topic, node
    name) make the construction fail: the warning for the second one
    reads [subscribe_topic_name] on the wrapper, which has no such
    attribute.  All frame buffers have the input topic "/tf", so two
    node paths of one node that enter through a frame buffer and leave
    through the same output already collide. *)
Theorem duplicate_node_path_raises (nodes : list NodeValueT)
    (communications : list CommunicationValue)
    (node_filter communication_filter : option (string -> bool))
    (before between after : list NodePathValueT) (np1 np2 : NodePathValueT) :
  Util.flatten (map paths nodes) = before ++ np1 :: between ++ np2 :: after ->
  NodePathWrapper_get_key node_path_node_name
    (NodePathWrapper_init tf_frame_broadcaster tf_frame_buffer publish_topic_name
       subscribe_topic_name np1)
  = NodePathWrapper_get_key node_path_node_name
      (NodePathWrapper_init tf_frame_broadcaster tf_frame_buffer publish_topic_name
         subscribe_topic_name np2) ->
  NodePathSearcher_init subscribe_node_name publish_node_name comm_topic_name paths
    tf_frame_broadcaster tf_frame_buffer publish_topic_name subscribe_topic_name
    node_path_node_name nodes communications node_filter communication_filter
  = Raise (AttributeError "subscribe_topic_name").
Proof.
  intros Hpaths Hkey.
  unfold NodePathSearcher_init. cbv zeta. fold (wrapped_node_paths nodes).
  pose proof (add_node_paths_table (wrapped_node_paths nodes) (mkNodePathSearcher ∅ ∅ [] []))
    as Htable.
  destruct (fold_left _ (wrapped_node_paths nodes) _) as [self1 | e].
  - exfalso. destruct Htable as (Hnodup & _ & _).
    unfold wrapped_node_paths in Hnodup. rewrite Hpaths in Hnodup.
    rewrite map_map in Hnodup. rewrite map_app in Hnodup. cbn [map] in Hnodup.
    rewrite map_app in Hnodup. cbn [map] in Hnodup.
    apply NoDup_app in Hnodup as (_ & _ & Hnodup).
    apply NoDup_cons in Hnodup as [Hnotin _]. apply Hnotin.
    apply elem_of_app. right. rewrite Hkey. apply list_elem_of_here.
  - destruct Htable as [-> _]. reflexivity.
Qed.

(** The filters are applied before the duplicate test: when every
    communication is rejected by a filter, the communication loop leaves
    the searcher as it is and cannot raise, duplicates or not. *)
Theorem rejected_communications_are_skipped
    (node_filter communication_filter : option (string -> bool))
    (comms : list CommunicationWrapper)
    (self : @NodePathSearcher CommunicationValueT NodePathValueT) :
  (forall c, c ∈ comms -> passes comm_topic_name node_filter communication_filter c = false) ->
  add_communications comm_topic_name node_filter communication_filter comms self = Ok self.
Proof.
  unfold add_communications. induction comms as [| c comms IH]; intros Hall; [reflexivity |].
  cbn [fold_left].
  change (Ok self ≫= _) with
    (communication_step comm_topic_name node_filter communication_filter self c).
  rewrite passes_rejected, (Hall c (list_elem_of_here _ _)).
  apply IH. intros c' Hc'. apply Hall. by apply list_elem_of_further.
Qed.

End NodePathSearcherLookup.

(** A node path value reduced to the attributes the searcher reads. *)
Record plain_node_path : Type := mk_plain_node_path {
  plain_tf_frame_buffer : option TransformFrameBufferStructValue.t;
  plain_subscribe_topic_name : option string;
  plain_publish_topic_name : option string;
  plain_node_name : string;
}.

(** The searcher over nodes given by their node paths, without
    communications and filters. *)
Definition plain_node_init (nodes : list (list plain_node_path))
  : result (@NodePathSearcher plain_communication plain_node_path) :=
  NodePathSearcher_init
    (fun c : plain_communication => snd (fst c))
    (fun c : plain_communication => fst (fst c))
    (fun c : plain_communication => snd c)
    (fun node : list plain_node_path => node)
    (fun _ : plain_node_path => None) plain_tf_frame_buffer
    plain_publish_topic_name plain_subscribe_topic_name
    plain_node_name
    nodes [] None None.

Definition relay_node_path : plain_node_path :=
  mk_plain_node_path None (Some "/chatter") (Some "/relayed") "/relay".

Definition lookup_node_path (child : string) : plain_node_path :=
  mk_plain_node_path
    (Some (TransformFrameBufferStructValue.mk "/localizer" None (mkTransformValue "map" child)))
    None (Some "/pose") "/localizer".

Lemma find_node_path_after_init_witness :
  exists searcher : @NodePathSearcher plain_communication plain_node_path,
    plain_node_init [[relay_node_path]] = Ok searcher
    /\ _find_node_path searcher (Some "/chatter") (Some "/relayed") "/relay"
       = Ok (mkNodePathWrapper relay_node_path (Some "/relayed") (Some "/chatter"))
    /\ _find_node_path searcher (Some "/relayed") (Some "/chatter") "/relay"
       = Raise ItemNotFoundError.
Proof.
  assert (Hinit : exists searcher, plain_node_init [[relay_node_path]] = Ok searcher).
  { eexists. vm_compute. reflexivity. }
  destruct Hinit as [searcher Hinit]. exists searcher. split; [exact Hinit |].
  destruct (find_node_path_after_init _ _ _ _ _ _ _ _ _ _ _ _ _ _ Hinit)
    as (_ & Hfound & Hmissing).
  split.
  - apply (Hfound (mkNodePathWrapper relay_node_path (Some "/relayed") (Some "/chatter"))).
    vm_compute. apply list_elem_of_here.
  - apply Hmissing. vm_compute. intros Hin.
    apply elem_of_cons in Hin as [Hin | Hin]; [discriminate | inversion Hin].
Defined.

Lemma duplicate_node_path_raises_witness :
  plain_node_init [[lookup_node_path "base_link"; lookup_node_path "odom"]]
  = Raise (AttributeError "subscribe_topic_name").
Proof.
  apply (duplicate_node_path_raises _ _ _ _ _ _ _ _ _
           [[lookup_node_path "base_link"; lookup_node_path "odom"]] [] None None
           [] [] [] (lookup_node_path "base_link") (lookup_node_path "odom"));
    reflexivity.
Defined.

Lemma rejected_communications_are_skipped_witness :
  add_communications (fun c : plain_communication => snd c)
    None (Some (fun topic_name => negb (String.eqb topic_name "/chatter")))
    (map (CommunicationWrapper_init
            (fun c : plain_communication => snd (fst c))
            (fun c : plain_communication => fst (fst c)))
         [PlainCommunication chatter_communication; PlainCommunication chatter_communication])
    (@mkNodePathSearcher plain_communication Empty_set ∅ ∅ [] [])
  = Ok (mkNodePathSearcher ∅ ∅ [] []).
Proof.
  apply rejected_communications_are_skipped.
  intros c Hc. cbn [map] in Hc.
  apply elem_of_cons in Hc as [-> | Hc]; [reflexivity |].
  apply elem_of_cons in Hc as [-> | Hc]; [reflexivity | inversion Hc].
Defined.

(** ** Frame broadcasters and frame buffers of a node *)

(** Outcome of the [get] methods of struct/transform.py, which raise
    [NotImplementedError] when no frame matches. *)
Inductive frame_lookup (A : Type) : Type :=
  | FoundFrame (frame : A)
  | RaiseNotImplementedError.

Arguments FoundFrame {A} frame.
Arguments RaiseNotImplementedError {A}.

Definition TransformFrameBroadcasterStruct_frame_id (self : TransformFrameBroadcasterStruct.t)
  : string := frame_id (TransformFrameBroadcasterStruct.transform self).

Definition TransformFrameBroadcasterStruct_child_frame_id
    (self : TransformFrameBroadcasterStruct.t) : string :=
  child_frame_id (TransformFrameBroadcasterStruct.transform self).

Definition TransformFrameBufferStruct_frame_id (self : TransformFrameBufferStruct.t) : string :=
  frame_id (TransformFrameBufferStruct.transform self).

Definition TransformFrameBufferStruct_child_frame_id (self : TransformFrameBufferStruct.t)
  : string := child_frame_id (TransformFrameBufferStruct.transform self).

(** [TransformFrameBroadcastersStruct.get]. *)
Fixpoint TransformFrameBroadcastersStruct_get (self : TransformFrameBroadcastersStruct.t)
    (node_name frame_id child_frame_id : string)
  : frame_lookup TransformFrameBroadcasterStruct.t :=
  match self with
  | [] => RaiseNotImplementedError
  | br :: rest =>
      if String.eqb (TransformFrameBroadcasterStruct_frame_id br) frame_id
         && String.eqb (TransformFrameBroadcasterStruct_child_frame_id br) child_frame_id
         && String.eqb (TransformFrameBroadcasterStruct.node_name br) node_name
      then FoundFrame br
      else TransformFrameBroadcastersStruct_get rest node_name frame_id child_frame_id
  end.

(** [TransformFrameBuffersStruct.get]. *)
Fixpoint TransformFrameBuffersStruct_get (self : TransformFrameBuffersStruct.t)
    (node_name frame_id child_frame_id : string)
  : frame_lookup TransformFrameBufferStruct.t :=
  match self with
  | [] => RaiseNotImplementedError
  | buf :: rest =>
      if String.eqb (TransformFrameBufferStruct_frame_id buf) frame_id
         && String.eqb (TransformFrameBufferStruct.lookup_node_name buf) node_name
         && String.eqb (TransformFrameBufferStruct_child_frame_id buf) child_frame_id
      then FoundFrame buf
      else TransformFrameBuffersStruct_get rest node_name frame_id child_frame_id
  end.

(** [TransformBroadcasterStruct.get]. *)
Definition TransformBroadcasterStruct_get (self : TransformBroadcasterStruct.t)
    (frame_id child_frame_id : string) : frame_lookup TransformFrameBroadcasterStruct.t :=
  TransformFrameBroadcastersStruct_get (TransformBroadcasterStruct.frame_broadcasters self)
    (PublisherStruct.node_name (TransformBroadcasterStruct.publisher self))
    frame_id child_frame_id.

(** [TransformBufferStruct.get]. *)
Definition TransformBufferStruct_get (self : TransformBufferStruct.t)
    (frame_id child_frame_id : string) : frame_lookup TransformFrameBufferStruct.t :=
  TransformFrameBuffersStruct_get (TransformBufferStruct.frame_buffers self)
    (TransformBufferStruct.lookup_node_name self) frame_id child_frame_id.

(** [TransformBroadcasterStructValue.frame_broadcasters]: the tuple
    built by [__init__]. *)
Definition TransformBroadcasterStructValue_frame_broadcasters
    (self : TransformBroadcasterStructValue.t) : list TransformFrameBroadcasterStructValue.t :=
  fold_left
    (fun frame_broadcaster transform =>
       frame_broadcaster
       ++ [TransformFrameBroadcasterStructValue.mk
             (TransformBroadcasterStructValue.publisher self) transform])
    (TransformBroadcasterStructValue.transforms self) [].

(** [TransformBufferStructValue.frame_buffers]: the tuple built by
    [__init__]; the lookup transforms of a value made by [to_value] are
    a tuple, never [None]. *)
Definition TransformBufferStructValue_frame_buffers (self : TransformBufferStructValue.t)
  : option (list TransformFrameBufferStructValue.t) :=
  Some (fold_left
          (fun frame_buffers transform =>
             frame_buffers
             ++ [TransformFrameBufferStructValue.mk
                   (TransformBufferStructValue.lookup_node_name self)
                   (TransformBufferStructValue.listener_node_name self) transform])
          (TransformBufferStructValue.lookup_transforms self) []).

Lemma fold_left_append_map {A B : Type} (g : A -> B) (l : list A) :
  forall acc : list B, fold_left (fun acc x => acc ++ [g x]) l acc = acc ++ map g l.
Proof.
  induction l as [| x l IH]; intros acc; cbn [fold_left map].
  - by rewrite app_nil_r.
  - by rewrite IH, <- app_assoc.
Qed.

Lemma TransformBroadcasterStruct_frames (publisher : PublisherStruct.t)
    (transforms : list TransformValue) :
  TransformBroadcasterStruct.frame_broadcasters
    (TransformBroadcasterStruct.init publisher transforms)
  = map (TransformFrameBroadcasterStruct.mk publisher) transforms.
Proof.
  unfold TransformBroadcasterStruct.frame_broadcasters, TransformBroadcasterStruct.init.
  cbn [TransformBroadcasterStruct._frame_brs].
  unfold TransformFrameBroadcastersStruct.insert.
  apply (fold_left_append_map (TransformFrameBroadcasterStruct.mk publisher) transforms []).
Qed.

Lemma TransformBufferStruct_frames (lookup_node_name : string) (tf_tree : TransformTreeValue)
    (lookup_transforms : list TransformValue) (listener_node_name : option string) :
  TransformBufferStruct.frame_buffers
    (TransformBufferStruct.init lookup_node_name tf_tree lookup_transforms listener_node_name)
  = map (fun tf => TransformFrameBufferStruct.mk tf_tree tf lookup_node_name listener_node_name)
        lookup_transforms.
Proof.
  unfold TransformBufferStruct.frame_buffers, TransformBufferStruct.init.
  cbn [TransformBufferStruct._frame_buffs].
  unfold TransformFrameBuffersStruct.insert.
  apply (fold_left_append_map
           (fun tf => TransformFrameBufferStruct.mk tf_tree tf lookup_node_name listener_node_name)
           lookup_transforms []).
Qed.

Lemma TransformValue_eqb_eq (tf : TransformValue) (frame child : string) :
  String.eqb (frame_id tf) frame && String.eqb (child_frame_id tf) child = true
  <-> tf = mkTransformValue frame child.
Proof.
  destruct tf as [f c]. cbn [frame_id child_frame_id].
  rewrite andb_true_iff, !String.eqb_eq. split; [intros [-> ->]; reflexivity |].
  intros Heq. by inversion Heq.
Qed.

(** [get] on a transform broadcaster or a transform buffer finds the
    frame of every transform it was built with and of no other: for a
    transform that is not listed it raises [NotImplementedError]. *)
Theorem transform_get_after_init (publisher : PublisherStruct.t) (lookup_node_name : string)
    (tf_tree : TransformTreeValue) (listener_node_name : option string)
    (transforms : list TransformValue) (frame child : string) :
  TransformBroadcasterStruct_get (TransformBroadcasterStruct.init publisher transforms)
    frame child
  = (if bool_decide (mkTransformValue frame child ∈ transforms)
     then FoundFrame (TransformFrameBroadcasterStruct.mk publisher (mkTransformValue frame child))
     else RaiseNotImplementedError)
  /\ TransformBufferStruct_get
       (TransformBufferStruct.init lookup_node_name tf_tree transforms listener_node_name)
       frame child
     = (if bool_decide (mkTransformValue frame child ∈ transforms)
        then FoundFrame (TransformFrameBufferStruct.mk tf_tree (mkTransformValue frame child)
                           lookup_node_name listener_node_name)
        else RaiseNotImplementedError).
Proof.
  unfold TransformBroadcasterStruct_get, TransformBufferStruct_get.
  rewrite TransformBroadcasterStruct_frames, TransformBufferStruct_frames.
  cbn [TransformBroadcasterStruct.publisher TransformBroadcasterStruct.init
       TransformBufferStruct.lookup_node_name TransformBufferStruct.init].
  induction transforms as [| tf tfs [IHbr IHbuf]].
  - split; reflexivity.
  - cbn [map TransformFrameBroadcastersStruct_get TransformFrameBuffersStruct_get].
    unfold TransformFrameBroadcasterStruct_frame_id, TransformFrameBroadcasterStruct_child_frame_id,
      TransformFrameBufferStruct_frame_id, TransformFrameBufferStruct_child_frame_id,
      TransformFrameBroadcasterStruct.node_name.
    cbn [TransformFrameBroadcasterStruct.transform TransformFrameBroadcasterStruct.publisher
         TransformFrameBufferStruct.transform TransformFrameBufferStruct.lookup_node_name].
    rewrite !String.eqb_refl, andb_true_r.
    rewrite (andb_comm (String.eqb (frame_id tf) frame && true)).
    rewrite andb_true_r, (andb_comm (String.eqb (child_frame_id tf) child)).
    destruct (String.eqb (frame_id tf) frame && String.eqb (child_frame_id tf) child) eqn:Heq.
    + apply TransformValue_eqb_eq in Heq as ->.
      rewrite bool_decide_eq_true_2 by apply list_elem_of_here. split; reflexivity.
    + rewrite IHbr, IHbuf.
      assert (Hne : tf <> mkTransformValue frame child).
      { intros Htf. apply TransformValue_eqb_eq in Htf. congruence. }
      destruct (bool_decide (mkTransformValue frame child ∈ tfs)) eqn:Hin.
      * apply bool_decide_eq_true in Hin.
        rewrite bool_decide_eq_true_2 by (by apply list_elem_of_further). split; reflexivity.
      * apply bool_decide_eq_false in Hin.
        rewrite bool_decide_eq_false_2; [split; reflexivity |].
        intros Hin'. apply elem_of_cons in Hin' as [Heq' | Hin']; [congruence | done].
Qed.

(** Splitting into frames commutes with [to_value]: the frame
    broadcasters (frame buffers) of the value of a transform broadcaster
    (transform buffer) are the values of its frame broadcasters (frame
    buffers), in the same order. *)
Theorem frames_commute_with_to_value (publisher : PublisherStruct.t) (lookup_node_name : string)
    (tf_tree : TransformTreeValue) (listener_node_name : option string)
    (transforms : list TransformValue) :
  TransformBroadcasterStructValue_frame_broadcasters
    (TransformBroadcasterStruct.to_value (TransformBroadcasterStruct.init publisher transforms))
  = map TransformFrameBroadcasterStruct.to_value
      (TransformFrameBroadcastersStruct.as_list
         (TransformBroadcasterStruct.frame_broadcasters
            (TransformBroadcasterStruct.init publisher transforms)))
  /\ TransformBufferStructValue_frame_buffers
       (TransformBufferStruct.to_value
          (TransformBufferStruct.init lookup_node_name tf_tree transforms listener_node_name))
     = Some (map TransformFrameBufferStruct.to_value
               (TransformFrameBuffersStruct.as_list
                  (TransformBufferStruct.frame_buffers
                     (TransformBufferStruct.init lookup_node_name tf_tree transforms
                        listener_node_name)))).
Proof.
  unfold TransformFrameBroadcastersStruct.as_list, TransformFrameBuffersStruct.as_list.
  rewrite TransformBroadcasterStruct_frames, TransformBufferStruct_frames.
  unfold TransformBroadcasterStructValue_frame_broadcasters,
    TransformBufferStructValue_frame_buffers.
  rewrite !fold_left_append_map, !map_map. split; reflexivity.
Qed.

(** ** Point names of the callback graph *)

(** Python's [str.split(sep)] for a one-character separator: the
    pieces between the occurrences of [sep], never an empty list. *)
Fixpoint split (sep : ascii) (s : string) : list string :=
  match s with
  | EmptyString => [EmptyString]
  | String c rest =>
      if Ascii.eqb c sep then EmptyString :: split sep rest
      else
        match split sep rest with
        | piece :: pieces => String c piece :: pieces
        | [] => [String c EmptyString]
        end
  end.

(** [sep in s]. *)
Fixpoint contains (sep : ascii) (s : string) : bool :=
  match s with
  | EmptyString => false
  | String c rest => Ascii.eqb c sep || contains sep rest
  end.

(** [CallbackPathSearcher._point_name_to_callback_name]; [None] stands
    for the [IndexError] of the subscript. *)
Definition _point_name_to_callback_name (point_name : string) : option string :=
  split "@" point_name !! 0%nat.

(** [CallbackPathSearcher._point_name_to_read_write_name]; [None]
    stands for the [IndexError] of the subscript. *)
Definition _point_name_to_read_write_name (point_name : string) : option string :=
  split "@" point_name !! 1%nat.

Lemma split_without_separator (sep : ascii) (s : string) :
  contains sep s = false -> split sep s = [s].
Proof.
  induction s as [| c rest IH]; cbn [contains split]; [reflexivity |].
  intros Hno. apply orb_false_iff in Hno as [-> Hrest]. by rewrite (IH Hrest).
Qed.

Lemma split_first_separator (sep : ascii) (s rest : string) :
  contains sep s = false ->
  split sep (String.append s (String sep rest)) = s :: split sep rest.
Proof.
  induction s as [| c s IH]; intros Hno.
  - change (String.append "" (String sep rest)) with (String sep rest).
    cbn [split]. by rewrite Ascii.eqb_refl.
  - change (String.append (String c s) (String sep rest))
      with (String c (String.append s (String sep rest))).
    cbn [contains] in Hno. apply orb_false_iff in Hno as [Hc Hs].
    cbn [split]. by rewrite Hc, (IH Hs).
Qed.

Lemma append_separator_assoc (s rest tail : string) (sep : ascii) :
  String.append (String.append s (String sep rest)) tail
  = String.append s (String sep (String.append rest tail)).
Proof.
  induction s as [| c s IH].
  - reflexivity.
  - change (String.append (String.append (String c s) (String sep rest)) tail)
      with (String c (String.append (String.append s (String sep rest)) tail)).
    change (String.append (String c s) (String sep (String.append rest tail)))
      with (String c (String.append s (String sep (String.append rest tail)))).
    by rewrite IH.
Qed.

(** The point name of a callback gives back the callback name and the
    side (read or write) when the callback name contains no ["@"].  A
    callback name with an ["@"] is not recovered: the point name gives
    back only what stands before the first ["@"]. *)
Theorem point_name_round_trip (callback_name rest read_or_write : string) :
  contains "@" callback_name = false ->
  _point_name_to_callback_name
    (CallbackPathSearcher._to_node_point_name callback_name read_or_write)
  = Some callback_name
  /\ (contains "@" read_or_write = false ->
      _point_name_to_read_write_name
        (CallbackPathSearcher._to_node_point_name callback_name read_or_write)
      = Some read_or_write)
  /\ _point_name_to_callback_name
       (CallbackPathSearcher._to_node_point_name
          (String.append callback_name (String "@" rest)) read_or_write)
     = Some callback_name.
Proof.
  intros Hno.
  unfold _point_name_to_callback_name, _point_name_to_read_write_name,
    CallbackPathSearcher._to_node_point_name.
  change (String.append "@" read_or_write) with (String "@"%char read_or_write).
  rewrite (split_first_separator _ _ _ Hno).
  split; [reflexivity |]. split.
  - intros Hrw. by rewrite (split_without_separator _ _ Hrw).
  - rewrite append_separator_assoc.
    by rewrite (split_first_separator _ _ _ Hno).
Qed.

Lemma point_name_round_trip_witness :
  _point_name_to_callback_name
    (CallbackPathSearcher._to_node_point_name "timer_callback_0" "read")
  = Some "timer_callback_0"
  /\ _point_name_to_read_write_name
       (CallbackPathSearcher._to_node_point_name "timer_callback_0" "read")
     = Some "read"
  /\ _point_name_to_callback_name
       (CallbackPathSearcher._to_node_point_name "timer_callback_0@1" "read")
     = Some "timer_callback_0".
Proof.
  destruct (point_name_round_trip "timer_callback_0" "1" "read" eq_refl)
    as (Hname & Hside & Hcut).
  split; [exact Hname |]. split; [exact (Hside eq_refl) | exact Hcut].
Defined.

(** ** The publishers of a node *)

(** The publisher built from a publisher value. *)
Definition loaded_publisher (callbacks : CallbacksStruct.t) (publisher_value : PublisherValue.t)
  : PublisherStruct.t :=
  PublisherStruct.mk (PublisherValue.node_name publisher_value)
    (PublisherValue.topic_name publisher_value)
    (option_map (CallbacksStruct.get_callbacks callbacks)
       (PublisherValue.callback_ids publisher_value)).

(** [PublishersStruct.create_from_reader] keeps one publisher for each
    publisher value of the reader whose topic is not "/tf", in the
    reader's order; a "/tf" publisher value never becomes a publisher of
    the node. *)
Theorem publishers_create_from_reader (publisher_values : list PublisherValue.t)
    (callbacks : CallbacksStruct.t) :
  PublishersStruct.as_list (PublishersStruct.create_from_reader publisher_values callbacks)
  = map (loaded_publisher callbacks)
      (List.filter (fun v => negb (String.eqb (PublisherValue.topic_name v) "/tf"))
         publisher_values)
  /\ forall pub,
       pub ∈ PublishersStruct.as_list
               (PublishersStruct.create_from_reader publisher_values callbacks) ->
       PublisherStruct.topic_name pub <> "/tf".
Proof.
  assert (Hgen : forall acc : PublishersStruct.t,
             fold_left
               (fun publishers publisher_value =>
                  if String.eqb (PublisherValue.topic_name publisher_value) "/tf" then publishers
                  else
                    let pub_callbacks :=
                      option_map (CallbacksStruct.get_callbacks callbacks)
                        (PublisherValue.callback_ids publisher_value) in
                    PublishersStruct.insert publishers
                      (PublisherStruct.mk (PublisherValue.node_name publisher_value)
                         (PublisherValue.topic_name publisher_value) pub_callbacks))
               publisher_values acc
             = acc ++ map (loaded_publisher callbacks)
                        (List.filter
                           (fun v => negb (String.eqb (PublisherValue.topic_name v) "/tf"))
                           publisher_values)).
  { induction publisher_values as [| v vs IH]; intros acc; cbn [fold_left List.filter].
    - cbn [map]. by rewrite app_nil_r.
    - rewrite IH. destruct (String.eqb (PublisherValue.topic_name v) "/tf"); cbn [negb];
        [reflexivity |].
      cbn [map]. unfold PublishersStruct.insert, loaded_publisher.
      by rewrite <- app_assoc. }
  assert (Hlist : PublishersStruct.as_list
                    (PublishersStruct.create_from_reader publisher_values callbacks)
                  = map (loaded_publisher callbacks)
                      (List.filter
                         (fun v => negb (String.eqb (PublisherValue.topic_name v) "/tf"))
                         publisher_values)) by exact (Hgen []).
  split; [exact Hlist |].
  intros pub Hin. rewrite Hlist in Hin. apply list_elem_of_fmap in Hin as (v & -> & Hv).
  apply list_elem_of_In, filter_In in Hv as [_ Hv].
  cbn [loaded_publisher PublisherStruct.topic_name].
  apply negb_true_iff, String.eqb_neq in Hv. exact Hv.
Qed.
